(** * KBQA query generation: a shallow embedding of
      deeppavlov/models/kbqa/{utils,wiki_parser,query_generator}.py

    Python strings are modelled as [string] (code points below 128),
    Python integers as [Z], Python dictionaries as [gmap], and a raised
    exception as the [Raise] branch of [result].  The external
    collaborators (the HDT document, the linkers, the relation ranker, the
    tokenizer) are variables of the section that embeds the classes that
    hold them. *)

From Stdlib Require Import ZArith Ascii String List Sorting.Sorted Permutation.
From stdpp Require Import base option list strings gmap.

Local Open Scope string_scope.
Local Open Scope Z_scope.

(** ** Python exceptions and fallible computations *)

Inductive exn : Type :=
| NameError (name : string)
| UnboundLocalError (name : string)
| IndexError
| KeyError (key : string)
| ValueError
| TypeError
| AttributeError.

Inductive result (A : Type) : Type :=
| Ok (a : A)
| Raise (e : exn).
Arguments Ok {A} a.
Arguments Raise {A} e.

Definition rbind {A B} (m : result A) (f : A -> result B) : result B :=
  match m with
  | Ok a => f a
  | Raise e => Raise e
  end.

Notation "'let*' x ':=' m 'in' k" := (rbind m (fun x => k))
  (at level 10, x pattern, m at level 100, k at level 200).

(** [[f(x) for x in l]] where [f] may raise: left to right, first
    exception wins. *)
Fixpoint rmap {A B} (f : A -> result B) (l : list A) : result (list B) :=
  match l with
  | [] => Ok []
  | x :: l' =>
      let* y := f x in
      let* ys := rmap f l' in
      Ok (y :: ys)
  end.

(** [[x for x in l if p(x)]] where [p] may raise. *)
Fixpoint rfilter {A} (p : A -> result bool) (l : list A) : result (list A) :=
  match l with
  | [] => Ok []
  | x :: l' =>
      let* b := p x in
      let* ys := rfilter p l' in
      Ok (if b then x :: ys else ys)
  end.

(** A value of a heterogeneous Python list: the combinations of
    [make_combs] hold identifiers followed by an integer, the rows of
    [WikiParser.__call__] hold strings and, for COUNT, an integer. *)
Inductive pyval : Type :=
| PStr (s : string)
| PInt (z : Z).

(** ** Python string primitives *)

Module Py.

Definition is_digit (c : ascii) : bool :=
  let n := nat_of_ascii c in ((48 <=? n) && (n <=? 57))%nat.

(** [str.isspace] on one code point below 128. *)
Definition is_space (c : ascii) : bool :=
  let n := nat_of_ascii c in
  ((n =? 32) || ((9 <=? n) && (n <=? 13)) || ((28 <=? n) && (n <=? 31)))%nat.

(** [\w] on one code point below 128. *)
Definition is_word (c : ascii) : bool :=
  let n := nat_of_ascii c in
  (((48 <=? n) && (n <=? 57)) || ((65 <=? n) && (n <=? 90))
   || ((97 <=? n) && (n <=? 122)) || (n =? 95))%nat.

Definition lower_char (c : ascii) : ascii :=
  let n := nat_of_ascii c in
  if ((65 <=? n) && (n <=? 90))%nat then ascii_of_nat (n + 32) else c.

Fixpoint lower (s : string) : string :=
  match s with
  | EmptyString => EmptyString
  | String c s' => String (lower_char c) (lower s')
  end.

Definition startswith (s p : string) : bool := String.prefix p s.

Fixpoint drop (n : nat) (s : string) : string :=
  match n, s with
  | O, _ => s
  | S n', String _ s' => drop n' s'
  | S _, EmptyString => EmptyString
  end.

Fixpoint take (n : nat) (s : string) : string :=
  match n, s with
  | O, _ => EmptyString
  | S n', String c s' => String c (take n' s')
  | S _, EmptyString => EmptyString
  end.

Definition endswith (s p : string) : bool :=
  (String.length p <=? String.length s)%nat
  && String.eqb (drop (String.length s - String.length p) s) p.

(** [sub in s] *)
Fixpoint contains (s sub : string) : bool :=
  String.prefix sub s
  || match s with
     | EmptyString => false
     | String _ s' => contains s' sub
     end.

(** [s.find(sub)]: the lowest index of [sub], or [-1]. *)
Fixpoint find_from (i : Z) (s sub : string) : Z :=
  if String.prefix sub s then i
  else match s with
       | EmptyString => -1
       | String _ s' => find_from (i + 1) s' sub
       end.

Definition find (s sub : string) : Z := find_from 0 s sub.

(** One bound of a slice [s[i:j]]: negative bounds count from the end,
    and the result is clamped to [0 .. len]. *)
Definition slice_bound (len i : Z) : nat :=
  Z.to_nat (Z.min len (Z.max 0 (if i <? 0 then len + i else i))).

Definition slice (s : string) (i j : Z) : string :=
  let len := Z.of_nat (String.length s) in
  let a := slice_bound len i in
  let b := slice_bound len j in
  take (b - a) (drop a s).

(** [s.replace(old, new)]: leftmost non-overlapping occurrences.  [skip]
    counts the characters of an occurrence still to be passed over. *)
Fixpoint replace_go (old new : string) (skip : nat) (s : string) : string :=
  match s with
  | EmptyString => EmptyString
  | String c s' =>
      match skip with
      | S k => replace_go old new k s'
      | O =>
          if String.prefix old s
          then new ++ replace_go old new (String.length old - 1) s'
          else String c (replace_go old new O s')
      end
  end.

Fixpoint intersperse (new s : string) : string :=
  match s with
  | EmptyString => EmptyString
  | String c s' => String c (new ++ intersperse new s')
  end.

Definition replace (s old new : string) : string :=
  match old with
  | EmptyString => new ++ intersperse new s
  | _ => replace_go old new O s
  end.

(** [s.split(sep)] for a non-empty separator; [cur] is the piece being
    read, in reverse. *)
Fixpoint split_go (sep : string) (skip : nat) (cur : list ascii) (s : string)
  : list string :=
  match s with
  | EmptyString => [string_of_list_ascii (rev cur)]
  | String c s' =>
      match skip with
      | S k => split_go sep k cur s'
      | O =>
          if String.prefix sep s
          then string_of_list_ascii (rev cur)
               :: split_go sep (String.length sep - 1) [] s'
          else split_go sep O (c :: cur) s'
      end
  end.

Definition split (s sep : string) : result (list string) :=
  match sep with
  | EmptyString => Raise ValueError
  | _ => Ok (split_go sep O [] s)
  end.

Fixpoint mem_char (c : ascii) (chars : string) : bool :=
  match chars with
  | EmptyString => false
  | String d chars' => Ascii.eqb c d || mem_char c chars'
  end.

Fixpoint lstrip (s chars : string) : string :=
  match s with
  | EmptyString => EmptyString
  | String c s' => if mem_char c chars then lstrip s' chars else s
  end.

Fixpoint rstrip (s chars : string) : string :=
  match s with
  | EmptyString => EmptyString
  | String c s' =>
      match rstrip s' chars with
      | EmptyString => if mem_char c chars then EmptyString
                       else String c EmptyString
      | r => String c r
      end
  end.

(** [s.strip(chars)]: every leading and every trailing character that
    belongs to the set [chars] is removed. *)
Definition strip (s chars : string) : string := rstrip (lstrip s chars) chars.

(** [sep.join(l)] *)
Fixpoint join (sep : string) (l : list string) : string :=
  match l with
  | [] => EmptyString
  | [x] => x
  | x :: l' => x ++ sep ++ join sep l'
  end.

Fixpoint all_digits (s : string) : bool :=
  match s with
  | EmptyString => true
  | String c s' => is_digit c && all_digits s'
  end.

(** [s.isdigit()] *)
Definition isdigit (s : string) : bool :=
  match s with
  | EmptyString => false
  | _ => all_digits s
  end.

(** [str(n + 1)] for the placeholder names [E1], [E2], ... *)
Definition digit_char (n : nat) : ascii := ascii_of_nat (48 + n).

Fixpoint str_of_nat_go (fuel n : nat) (acc : string) : string :=
  match fuel with
  | O => acc
  | S fuel' =>
      let acc' := String (digit_char (n mod 10)) acc in
      if (n <? 10)%nat then acc' else str_of_nat_go fuel' (n / 10) acc'
  end.

Definition str_of_nat (n : nat) : string := str_of_nat_go (S n) n EmptyString.

(** [l[:-1]] *)
Definition but_last {A} (l : list A) : list A := removelast l.

(** [l[:k]] *)
Definition upto {A} (l : list A) (k : Z) : list A :=
  List.firstn (slice_bound (Z.of_nat (length l)) k) l.

(** [max(l)] *)
Definition max (l : list Z) : result Z :=
  match l with
  | [] => Raise ValueError
  | x :: l' => Ok (foldl Z.max x l')
  end.

(** [l[-1]] *)
Definition last_item {A} (l : list A) : result A :=
  match last l with
  | Some x => Ok x
  | None => Raise IndexError
  end.

(** [l[i]] for a non-negative literal index. *)
Definition item {A} (l : list A) (i : nat) : result A :=
  match l !! i with
  | Some x => Ok x
  | None => Raise IndexError
  end.

(** [s[i]] on a string: a string of length one. *)
Definition char_at (s : string) (i : nat) : result string :=
  match String.get i s with
  | Some c => Ok (String c EmptyString)
  | None => Raise IndexError
  end.

End Py.

(** ** The fragment of Python's [re] that the sources use

    A backtracking matcher in continuation-passing style: greedy
    repetition tries one more iteration before it tries the rest of the
    pattern, lazy repetition the other way round, as [re] does.  A
    repetition stops when an iteration consumes nothing, so the length of
    the subject bounds the number of iterations. *)

Module Re.

Inductive regex : Type :=
| Eps
| Chr (c : ascii)
| Dot
| Cls (p : ascii -> bool)
| Seq (r1 r2 : regex)
| Opt (r : regex)
| Star (r : regex)
| LazyStar (r : regex)
| Grp (n : nat) (r : regex)
| Bol
| Eol.

(** The groups captured so far, most recent first. *)
Definition caps : Type := list (nat * string).

Definition newline : ascii := ascii_of_nat 10.

Fixpoint rmatch {R : Type} (total : nat) (r : regex) (s : string) (cs : caps)
    (k : string -> caps -> option R) {struct r} : option R :=
  match r with
  | Eps => k s cs
  | Chr c =>
      match s with
      | String d s' => if Ascii.eqb c d then k s' cs else None
      | EmptyString => None
      end
  | Dot =>
      match s with
      | String d s' => if Ascii.eqb d newline then None else k s' cs
      | EmptyString => None
      end
  | Cls p =>
      match s with
      | String d s' => if p d then k s' cs else None
      | EmptyString => None
      end
  | Seq r1 r2 =>
      rmatch total r1 s cs (fun s' cs' => rmatch total r2 s' cs' k)
  | Opt r1 =>
      match rmatch total r1 s cs k with
      | Some x => Some x
      | None => k s cs
      end
  | Star r1 =>
      (fix star (fuel : nat) (s : string) (cs : caps) {struct fuel} : option R :=
         match fuel with
         | O => k s cs
         | S fuel' =>
             match rmatch total r1 s cs
                     (fun s' cs' =>
                        if (String.length s' <? String.length s)%nat
                        then star fuel' s' cs' else None) with
             | Some x => Some x
             | None => k s cs
             end
         end) (String.length s) s cs
  | LazyStar r1 =>
      (fix star (fuel : nat) (s : string) (cs : caps) {struct fuel} : option R :=
         match fuel with
         | O => k s cs
         | S fuel' =>
             match k s cs with
             | Some x => Some x
             | None =>
                 rmatch total r1 s cs
                   (fun s' cs' =>
                      if (String.length s' <? String.length s)%nat
                      then star fuel' s' cs' else None)
             end
         end) (String.length s) s cs
  | Grp n r1 =>
      rmatch total r1 s cs
        (fun s' cs' =>
           k s' ((n, Py.take (String.length s - String.length s') s) :: cs'))
  | Bol => if (String.length s =? total)%nat then k s cs else None
  | Eol =>
      match s with
      | EmptyString => k s cs
      | String d EmptyString => if Ascii.eqb d newline then k s cs else None
      | _ => None
      end
  end.

(** A match anchored at the head of [s]: the captures and what follows
    the match. *)
Definition match_here (total : nat) (r : regex) (s : string)
  : option (caps * string) :=
  rmatch total r s [] (fun s' cs => Some (cs, s')).

Fixpoint search_from (total : nat) (r : regex) (s : string)
  : option (caps * string) :=
  match match_here total r s with
  | Some x => Some x
  | None =>
      match s with
      | EmptyString => None
      | String _ s' => search_from total r s'
      end
  end.

(** [re.search(r, s)]: the leftmost match. *)
Definition search (r : regex) (s : string) : option caps :=
  fst <$> search_from (String.length s) r s.

(** [m.group(n)] of a group that took part in the match. *)
Fixpoint group (n : nat) (cs : caps) : string :=
  match cs with
  | [] => EmptyString
  | (m, v) :: cs' => if (m =? n)%nat then v else group n cs'
  end.

Fixpoint findall_go (fuel total : nat) (r : regex) (s : string) : list caps :=
  match fuel with
  | O => []
  | S fuel' =>
      let step :=
        match s with
        | EmptyString => []
        | String _ s' => findall_go fuel' total r s'
        end in
      match match_here total r s with
      | Some (cs, s') =>
          cs :: (if (String.length s' <? String.length s)%nat
                 then findall_go fuel' total r s' else step)
      | None => step
      end
  end.

(** [re.findall(r, s)]: the captures of the non-overlapping matches, left
    to right. *)
Definition findall (r : regex) (s : string) : list caps :=
  findall_go (S (String.length s)) (String.length s) r s.

Fixpoint Lit (s : string) : regex :=
  match s with
  | EmptyString => Eps
  | String c s' => Seq (Chr c) (Lit s')
  end.

Definition Plus (r : regex) : regex := Seq r (Star r).
Definition LazyPlus (r : regex) : regex := Seq r (LazyStar r).
Definition d : regex := Cls Py.is_digit.
Definition D : regex := Cls (fun c => negb (Py.is_digit c)).
Definition d12 : regex := Seq d (Opt d).
Definition d4 : regex := Seq d (Seq d (Seq d d)).
Definition seqs (rs : list regex) : regex := foldr Seq Eps rs.

End Re.

(** ** deeppavlov/models/kbqa/utils.py *)

(** [r'.*\d{1,2}/\d{1,2}/(\d{4}).*'], [r'.*\d{1,2}-\d{1,2}-(\d{4}).*'],
    [r'.*(\d{4})-\d{1,2}-\d{1,2}.*'] *)
Definition question_patterns : list Re.regex :=
  [ Re.seqs [Re.Star Re.Dot; Re.d12; Re.Chr "/"; Re.d12; Re.Chr "/";
             Re.Grp 1 Re.d4; Re.Star Re.Dot];
    Re.seqs [Re.Star Re.Dot; Re.d12; Re.Chr "-"; Re.d12; Re.Chr "-";
             Re.Grp 1 Re.d4; Re.Star Re.Dot];
    Re.seqs [Re.Star Re.Dot; Re.Grp 1 Re.d4; Re.Chr "-"; Re.d12; Re.Chr "-";
             Re.d12; Re.Star Re.Dot] ].

(** [r'(\d{4})'], [r'^(\d{4})-.*'], [r'.*-(\d{4})$'] *)
Definition token_patterns : list Re.regex :=
  [ Re.Grp 1 Re.d4;
    Re.seqs [Re.Bol; Re.Grp 1 Re.d4; Re.Chr "-"; Re.Star Re.Dot];
    Re.seqs [Re.Star Re.Dot; Re.Chr "-"; Re.Grp 1 Re.d4; Re.Eol] ].

(** The first pattern of [patterns] that [re.search] finds in [s], as its
    group 1. *)
Fixpoint first_search (patterns : list Re.regex) (s : string) : option string :=
  match patterns with
  | [] => None
  | pattern :: patterns' =>
      match Re.search pattern s with
      | Some fnd => Some (Re.group 1 fnd)
      | None => first_search patterns' s
      end
  end.

Fixpoint first_token_search (question_tokens : list string) : option string :=
  match question_tokens with
  | [] => None
  | token :: tokens' =>
      match first_search token_patterns token with
      | Some y => Some y
      | None => first_token_search tokens'
      end
  end.

Definition extract_year (question_tokens : list string) (question : string)
  : string :=
  match first_search question_patterns question with
  | Some year => year
  | None =>
      match first_token_search question_tokens with
      | Some y => y
      | None => ""
      end
  end.

(** A string of four decimal digits. *)
Definition four_digits (s : string) : Prop :=
  String.length s = 4%nat /\ Py.all_digits s = true.

(** The patterns whose one group is group 1 and holds [\d{4}]. *)
Inductive one_year_group : Re.regex -> Prop :=
| oyg_eps : one_year_group Re.Eps
| oyg_chr c : one_year_group (Re.Chr c)
| oyg_dot : one_year_group Re.Dot
| oyg_cls p : one_year_group (Re.Cls p)
| oyg_seq r1 r2 :
    one_year_group r1 -> one_year_group r2 -> one_year_group (Re.Seq r1 r2)
| oyg_opt r : one_year_group r -> one_year_group (Re.Opt r)
| oyg_star r : one_year_group r -> one_year_group (Re.Star r)
| oyg_lazy r : one_year_group r -> one_year_group (Re.LazyStar r)
| oyg_grp : one_year_group (Re.Grp 1 Re.d4)
| oyg_bol : one_year_group Re.Bol
| oyg_eol : one_year_group Re.Eol.

(** [r'.*(\d\.\d+e\+\d+)\D*'] *)
Definition number_pattern : Re.regex :=
  Re.seqs [Re.Star Re.Dot;
           Re.Grp 1 (Re.seqs [Re.d; Re.Chr "."; Re.Plus Re.d; Re.Chr "e";
                              Re.Chr "+"; Re.Plus Re.d]);
           Re.Star Re.D].

(** The [for tok in question_tokens] loop: [tok[0]] raises on an empty
    token. *)
Fixpoint first_digit_token (question_tokens : list string) : result string :=
  match question_tokens with
  | [] => Ok ""
  | tok :: tokens' =>
      let* c := Py.char_at tok 0 in
      if Py.isdigit c then Ok tok else first_digit_token tokens'
  end.

Definition normalize_number (number : string) : string :=
  let number :=
    Py.replace (Py.replace (Py.replace number "1st" "1") "2nd" "2") "3rd" "3" in
  Py.strip number ".0".

Definition extract_number (question_tokens : list string) (question : string)
  : result string :=
  let* number :=
    match Re.search number_pattern question with
    | Some fnd => Ok (Re.group 1 fnd)
    | None => first_digit_token question_tokens
    end in
  Ok (normalize_number number).

Definition max_words : list string :=
  ["maximum"; "highest"; "max "; "greatest"; "most"; "longest"; "biggest";
   "deepest"].

Definition asc_desc (question : string) : bool :=
  let question_lower := Py.lower question in
  negb (existsb (fun word => Py.contains question_lower word) max_words).

(** [enumerate(l)], with the two components in the order in which
    [make_combs] stores them: [(entity, n)]. *)
Fixpoint ranked_from {A} (n : Z) (l : list A) : list (A * Z) :=
  match l with
  | [] => []
  | x :: l' => (x, n) :: ranked_from (n + 1) l'
  end.

(** [itertools.product( *ls )]: the last list varies fastest. *)
Fixpoint product {A} (ls : list (list A)) : list (list A) :=
  match ls with
  | [] => [[]]
  | l :: ls' => flat_map (fun x => map (cons x) (product ls')) l
  end.

(** Every way to take one element out of [l], by increasing position. *)
Fixpoint selections {A} (l : list A) : list (A * list A) :=
  match l with
  | [] => []
  | x :: l' => (x, l') :: map (fun yr => (fst yr, x :: snd yr)) (selections l')
  end.

Fixpoint permutations_go {A} (n : nat) (l : list A) : list (list A) :=
  match n with
  | O => [[]]
  | S n' =>
      flat_map (fun xr => map (cons (fst xr)) (permutations_go n' (snd xr)))
               (selections l)
  end.

(** [itertools.permutations(l)]: lexicographic in the positions. *)
Definition permutations {A} (l : list A) : list (list A) :=
  permutations_go (length l) l.

Fixpoint insert_by {A K} (leb : K -> K -> bool) (key : A -> K) (x : A)
    (l : list A) : list A :=
  match l with
  | [] => [x]
  | y :: l' =>
      if leb (key x) (key y) then x :: l else y :: insert_by leb key x l'
  end.

(** [sorted(l, key=key)]: a stable sort; an element goes in front of the
    elements after it that have an equal key. *)
Definition sorted_by {A K} (leb : K -> K -> bool) (key : A -> K) (l : list A)
  : list A :=
  foldr (insert_by leb key) [] l.

(** [x] comes no later than [y] in the order [leb] of their keys. *)
Definition key_le {A K} (leb : K -> K -> bool) (key : A -> K) (x y : A) : Prop :=
  leb (key x) (key y) = true.

(** [sum([elem[1] for elem in x])] *)
Definition rank_sum {A} (comb : list (A * Z)) : Z :=
  foldr Z.add 0 (map snd comb).

Definition make_combs (entity_ids : list (list string)) (permut : bool)
  : list (list pyval) :=
  let entity_ids := map (ranked_from 0) entity_ids in
  let entity_ids := product entity_ids in
  let entity_ids_permut :=
    if permut then flat_map permutations entity_ids else entity_ids in
  let entity_ids := sorted_by Z.leb rank_sum entity_ids_permut in
  map (fun comb => (map (fun elem => PStr (fst elem)) comb
                    ++ [PInt (rank_sum comb)])%list) entity_ids.

(** The trailing element of a combination, read as its aggregate rank. *)
Definition aggregate_rank (comb : list pyval) : Z :=
  match last comb with
  | Some (PInt z) => z
  | _ => 0
  end.

(** The aggregate rank of a combination of entities, types and relations. *)
Definition total_rank (combs : list pyval * list pyval * list pyval) : Z :=
  aggregate_rank combs.1.1 + aggregate_rank combs.1.2 + aggregate_rank combs.2.

(** [sel] takes, slot by slot, one candidate of [entity_ids] together with
    its 0-based position in the list of its slot. *)
Definition drawn_from (entity_ids : list (list string))
    (sel : list (string * Z)) : Prop :=
  Forall2 (fun er l => 0 <= er.2 /\ l !! Z.to_nat er.2 = Some er.1)
          sel entity_ids.

Definition map_query_str_to_wikidata : list (string * string) :=
  [ ("P0", "http://schema.org/description");
    ("wd:", "http://www.wikidata.org/entity/");
    ("wdt:", "http://www.wikidata.org/prop/direct/");
    (" p:", " http://www.wikidata.org/prop/");
    ("wdt:", "http://www.wikidata.org/prop/direct/");
    ("ps:", "http://www.wikidata.org/prop/statement/");
    ("pq:", "http://www.wikidata.org/prop/qualifier/") ].

(** [for n, v in enumerate(comb[:-1]): query = query.replace(name, v)]
    where [name] is the letter followed by [n+1]; [str.replace] raises
    [TypeError] when [v] is not a string. *)
Fixpoint fill_slots (letter : string) (n : nat) (vals : list pyval)
    (query : string) : result string :=
  match vals with
  | [] => Ok query
  | PStr v :: vals' =>
      fill_slots letter (S n) vals'
        (Py.replace query (letter ++ Py.str_of_nat (S n)) v)
  | PInt _ :: _ => Raise TypeError
  end.

Definition fill_query (query : list (list string))
    (entity_comb type_comb rel_comb : list pyval)
  : result (list (list string)) :=
  let query := map (Py.join " ") query in
  let query := Py.join "  " query in
  let query :=
    foldl (fun q m => Py.replace q (fst m) (snd m)) query
          map_query_str_to_wikidata in
  let* query := fill_slots "E" 0 (Py.but_last entity_comb) query in
  let* query := fill_slots "T" 0 (Py.but_last type_comb) query in
  let* query := fill_slots "R" 0 (Py.but_last rel_comb) query in
  let* query := Py.split query "  " in
  rmap (fun triplet => Py.split triplet " ") query.

(** The substitutions of [fill_slots] for values that are strings. *)
Fixpoint subst_slots (letter : string) (n : nat) (vals : list string)
    (query : string) : string :=
  match vals with
  | [] => query
  | v :: vals' =>
      subst_slots letter (S n) vals'
        (Py.replace query (letter ++ Py.str_of_nat (S n)) v)
  end.

(** What [fill_query] does to one token once the namespaces are written
    out: the entity, the type and the relation slots, in this order. *)
Definition fill_token (entities types rels : list string) (token : string)
  : string :=
  subst_slots "R" 0 rels (subst_slots "T" 0 types (subst_slots "E" 0 entities token)).

(** The text of a query, as [fill_query] joins it. *)
Definition query_text (query : list (list string)) : string :=
  Py.join "  " (map (Py.join " ") query).

(** The first loop of [fill_query]: the namespaces written out. *)
Definition expand_namespaces (text : string) : string :=
  foldl (fun q m => Py.replace q (fst m) (snd m)) text map_query_str_to_wikidata.

(** A token or a value that [fill_query] handles as one piece: not empty
    and without space. *)
Definition one_piece (s : string) : Prop :=
  s <> "" /\ Py.mem_char " " s = false.

(** ** deeppavlov/models/kbqa/wiki_parser.py *)

(** An element of a filter or order list as [query_parser] builds it: a
    tuple of two strings out of [re.findall], or one string. *)
Inductive clause : Type :=
| CPair (v c : string)
| CStr (s : string).

(** [elem[i]] for [i] in [0, 1]. *)
Definition clause_item (elem : clause) (i : nat) : result string :=
  match elem with
  | CPair v c =>
      match i with
      | O => Ok v
      | S O => Ok c
      | _ => Raise IndexError
      end
  | CStr s => Py.char_at s i
  end.

(** [for elem in x] over such an element. *)
Definition clause_iter (x : clause) : list string :=
  match x with
  | CPair v c => [v; c]
  | CStr s => map (fun c => String c EmptyString) (list_ascii_of_string s)
  end.

(** [dict(comb)]: a later pair overrides an earlier one. *)
Definition dict (comb : list (string * string)) : gmap string string :=
  foldl (fun m kv => <[kv.1 := kv.2]> m) ∅ comb.

(** [comb[key]] *)
Definition getitem (comb : gmap string string) (key : string) : result string :=
  match comb !! key with
  | Some v => Ok v
  | None => Raise (KeyError key)
  end.

(** The values that a row of the join binds to the names [keys]. *)
Definition project (keys : list string) (row : list (string * string))
  : list pyval :=
  map (fun key => PStr (default "" (dict row !! key))) keys.

(** The names that module [wiki_parser] binds, and the builtins it reads. *)
Definition wiki_parser_names : list string :=
  ["List"; "Optional"; "Union"; "Tuple"; "re"; "HDTDocument"; "expand_path";
   "register"; "Component"; "WikiParser";
   "dict"; "tuple"; "print"; "float"; "len"; "sorted"; "type"; "str"].

(** [type(x) == str] for a global name [x]: the name is looked up first; no
    name of the module is bound to a string. *)
Definition global_is_str (x : string) : result bool :=
  if existsb (String.eqb x) wiki_parser_names then Ok false
  else Raise (NameError x).

(** One invocation of [WikiParser.__call__]. *)
Record adapter_call : Type := AdapterCall {
  call_what_return : list string;
  call_query : list (list (list string));
  call_unknown_query_triplets : list clause;
  call_filter_entities : option (list clause);
  call_order : option (list clause)
}.

(** The double quote character, as a string. *)
Definition quote : string := String (ascii_of_nat 34) EmptyString.

Module WikiParser.
Section Methods.

(** [self.document]: the HDT triple index. *)
Variable search_join : list (list (list string)) -> list (list (string * string)).
Variable search_triples :
  string -> string -> string -> list (string * string * string) * nat.

(** Python floats and [float(s)], which raises on a string that is no
    number. *)
Variable float : Type.
Variable float_of_str : string -> option float.
Variable float_leb : float -> float -> bool.

(** Lines 44-55.  [unknown_query_triplet] is read on line 50 before any
    statement assigns it, in the first iteration of [for comb in combs],
    so lines 51-55 never run. *)
Definition unknown_stage (unknown_query_triplets : list clause)
    (combs : list (gmap string string)) : result (list (gmap string string)) :=
  let* first := Py.item unknown_query_triplets 0 in
  let* comb0 := Py.item combs 0 in
  let known_elem :=
    foldl (fun known elem =>
             if bool_decide (is_Some (comb0 !! elem)) then Some elem else known)
          None (clause_iter first) in
  let* known_elem :=
    match known_elem with
    | Some e => Ok e
    | None => Raise (UnboundLocalError "known_elem")
    end in
  let* known_value := getitem comb0 known_elem in
  Raise (UnboundLocalError "unknown_query_triplet").

(** One turn of [for filter_entity in filter_entities] (lines 60-63). *)
Definition filter_step (combs : list (gmap string string))
    (filter_entity : clause) : result (list (gmap string string)) :=
  match filter_entity with
  | CPair _ _ => Raise AttributeError
  | CStr s =>
      let* parts := Py.split (Py.replace (Py.replace s "'" "") ")" "") ", " in
      match parts with
      | [filter_elem; filter_value] =>
          let* _ := Py.item combs 0 in
          rfilter (fun comb =>
                     let* v := getitem comb filter_elem in
                     Ok (Py.contains v filter_value)) combs
      | _ => Raise ValueError
      end
  end.

Fixpoint filter_stage (filter_entities : list clause)
    (combs : list (gmap string string)) : result (list (gmap string string)) :=
  match filter_entities with
  | [] => Ok combs
  | filter_entity :: rest =>
      let* combs := filter_step combs filter_entity in
      filter_stage rest combs
  end.

(** [float(x[sort_elem].split('^^')[0].strip(quote))] *)
Definition sort_key (sort_elem : string) (x : gmap string string)
  : result float :=
  let* v := getitem x sort_elem in
  let* parts := Py.split v "^^" in
  let* p := Py.item parts 0 in
  match float_of_str (Py.strip p quote) with
  | Some f => Ok f
  | None => Raise ValueError
  end.

(** Lines 66-71: [sorted(..., reverse=reverse)] reverses, sorts and
    reverses again, which keeps equal keys in their original order. *)
Definition order_stage (order : list clause)
    (combs : list (gmap string string)) : result (list (gmap string string)) :=
  let* order0 := Py.item order 0 in
  let* direction := clause_item order0 0 in
  let reverse := String.eqb direction "DESC" in
  let* sort_elem := clause_item order0 1 in
  let* _ := Py.item combs 0 in
  let* keyed := rmap (fun x => let* k := sort_key sort_elem x in Ok (k, x)) combs in
  let combs :=
    if reverse then rev (sorted_by float_leb fst (rev keyed))
    else sorted_by float_leb fst keyed in
  let* best := Py.item combs 0 in
  Ok [snd best].

(** Lines 73-76.  On line 76 [combs[0]] is read once for every key of
    [what_return[:-1]], so not at all when [COUNT] stands alone. *)
Definition output_stage (what_return : list string)
    (combs : list (gmap string string)) : result (list (list pyval)) :=
  let* last := Py.last_item what_return in
  if negb (Py.startswith last "COUNT") then
    rmap (fun elem =>
            rmap (fun key => let* v := getitem elem key in Ok (PStr v))
                 what_return) combs
  else
    let* vals :=
      rmap (fun key =>
              let* comb0 := Py.item combs 0 in
              let* v := getitem comb0 key in Ok (PStr v))
           (Py.but_last what_return) in
    Ok [(vals ++ [PInt (Z.of_nat (length combs))])%list].

Definition is_nonempty {A} (l : list A) : bool :=
  match l with [] => false | _ => true end.

Definition truthy {A} (o : option (list A)) : bool :=
  match o with Some (_ :: _) => true | _ => false end.

(** [WikiParser.__call__] *)
Definition WikiParser_call (what_return : list string)
    (query : list (list (list string)))
    (unknown_query_triplets : list clause)
    (filter_entities : option (list clause))
    (order : option (list clause)) : result (list (list pyval)) :=
  let combs := search_join query in
  let combs := map dict combs in
  if is_nonempty combs then
    let* combs :=
      if is_nonempty unknown_query_triplets
      then unknown_stage unknown_query_triplets combs
      else Ok combs in
    let* combs :=
      if truthy filter_entities
      then filter_stage (default [] filter_entities) combs
      else Ok combs in
    let* combs :=
      if truthy order
      then order_stage (default [] order) combs
      else Ok combs in
    output_stage what_return combs
  else Ok [].

Definition run_call (c : adapter_call) : result (list (list pyval)) :=
  WikiParser_call (call_what_return c) (call_query c)
    (call_unknown_query_triplets c) (call_filter_entities c) (call_order c).

Definition entity_prefix : string := "http://www.wikidata.org/entity/".
Definition label_predicate : string := "http://www.w3.org/2000/01/rdf-schema#label".

(** The [for label in labels] loop of [find_label]. *)
Fixpoint first_en_label (labels : list (string * string * string))
  : option string :=
  match labels with
  | [] => None
  | label :: labels' =>
      if Py.endswith label.2 "@en"
      then Some (Py.replace (Py.strip label.2 "@en") quote "")
      else first_en_label labels'
  end.

(** [WikiParser.find_label]; line 82 reads the global name [a]. *)
Definition find_label (entity : string) : result string :=
  let* a_is_str := global_is_str "a" in
  let entity := if a_is_str then Py.replace entity quote "" else entity in
  let entity :=
    if Py.startswith entity "Q" then entity_prefix ++ entity else entity in
  if Py.startswith entity entity_prefix then
    let '(labels, cardinality) := search_triples entity label_predicate "" in
    match first_en_label labels with
    | Some found_label => Ok found_label
    | None => Ok "Not Found"
    end
  else if Py.endswith entity "@en" then
    Ok (Py.replace entity "@en" "")
  else if Py.contains entity "^^" then
    let* parts := Py.split entity "^^" in
    let* entity := Py.item parts 0 in
    Ok (foldl (fun e token => Py.replace e token "") entity ["T00:00:00Z"; "+"])
  else if Py.isdigit entity then Ok entity
  else Ok "Not Found".

(** [WikiParser.find_rels] *)
Definition find_rels (entity direction : string) (rel_type : option string)
  : list string :=
  let '(triplets, num) :=
    if String.eqb direction "forw"
    then search_triples (entity_prefix ++ entity) "" ""
    else search_triples "" "" (entity_prefix ++ entity) in
  let start_str :=
    match rel_type with
    | Some t => "http://www.wikidata.org/prop/" ++ t
    | None => "http://www.wikidata.org/prop/P"
    end in
  map (fun triplet => triplet.1.2)
      (filter (fun triplet => Is_true (Py.startswith triplet.1.2 start_str))
              triplets).

Definition alias_predicate : string :=
  "http://www.w3.org/2004/02/skos/core#altLabel".

(** [WikiParser.find_alias] *)
Definition find_alias (entity : string) : list string :=
  let aliases : list string := [] in
  if Py.startswith entity entity_prefix then
    let '(labels, cardinality) := search_triples entity alias_predicate "" in
    map (fun label => Py.strip (Py.strip label.2 "@en") quote)
        (filter (fun label => Is_true (Py.endswith label.2 "@en")) labels)
  else aliases.

End Methods.
End WikiParser.

Import WikiParser.

(** ** deeppavlov/models/kbqa/query_generator.py *)

(** A record of the template file. *)
#[warnings="-register-all"]
Inductive template : Type := Template {
  query_template : string;
  rank_rels : list Z;
  query_sequence : list Z;
  return_if_found : bool;
  rel_dirs : list string;
  entities_and_types_num : list Z;
  alternative_templates : option (list template)
}.

(** The pattern of [answer_ent]: SELECT and a space, an optional opening
    parenthesis, group 1 of one or more non-space characters, a space. *)
Definition select_pattern : Re.regex :=
  Re.seqs [Re.Lit "SELECT "; Re.Opt (Re.Chr "(");
           Re.Grp 1 (Re.Plus (Re.Cls (fun c => negb (Py.is_space c))));
           Re.Chr " "].

(** The pattern of [order_from_query]: ORDER BY and a space, group 1 of
    ONE character of the class [ASC|DESC] (the letters A, S, C, D, E and
    the bar), an opening parenthesis, group 2 of any characters (greedy), a
    closing parenthesis. *)
Definition order_pattern : Re.regex :=
  Re.seqs [Re.Lit "ORDER BY "; Re.Grp 1 (Re.Cls (fun c => Py.mem_char c "ASC|DESC"));
           Re.Chr "("; Re.Grp 2 (Re.Star Re.Dot); Re.Chr ")"].

(** The pattern of [filter_from_query]: contains and an opening
    parenthesis, group 1 of a question mark and a word character, a comma
    and a space, group 2 of one or more characters (lazy), a closing
    parenthesis. *)
Definition contains_pattern : Re.regex :=
  Re.seqs [Re.Lit "contains("; Re.Grp 1 (Re.Seq (Re.Chr "?") (Re.Cls Py.is_word));
           Re.Lit ", "; Re.Grp 2 (Re.LazyPlus Re.Dot); Re.Chr ")"].

(** Lines 212-214 of [query_parser]. *)
Definition parse_triplets (query : string) : result (list (list string)) :=
  let block :=
    Py.strip (Py.slice query (Py.find query "{" + 1) (Py.find query "}")) " " in
  let* query_triplets := Py.split block " . " in
  let* query_triplets := rmap (fun triplet => Py.split triplet " ") query_triplets in
  Ok (map (List.firstn 3) query_triplets).

(** Lines 215-217. *)
Definition group_by_sequence (query_seq_num : list Z)
    (query_triplets : list (list string)) : result (list (list (list string))) :=
  let* m := Py.max query_seq_num in
  Ok (map (fun i =>
             map snd (filter (fun nt => nt.1 = i) (zip query_seq_num query_triplets)))
          (seqZ 1 m)).

(** Lines 219-220. *)
Definition rel_directions_of (rels_for_search : list Z)
    (query_triplets : list (list string)) : result (list (string * Z)) :=
  rmap (fun st =>
          let* o := Py.item st.2 2 in
          Ok (if Py.startswith o "?" then "forw" else "backw", st.1))
       (filter (fun st => st.1 ≠ 0) (zip rels_for_search query_triplets)).

(** Line 238. *)
Definition rels_from_query_of (query_triplets : list (list string))
  : result (list string) :=
  let* kept :=
    rfilter (fun triplet =>
               let* p := Py.item triplet 1 in Ok (Py.startswith p "?"))
            query_triplets in
  rmap (fun triplet => Py.item triplet 1) kept.

(** Lines 251-258, for one placeholder. *)
Definition substitute_placeholder (placeholder value : string)
    (filter_from_query : list clause) : result (list clause) :=
  if negb (String.eqb value "") then
    rmap (fun elem =>
            let* c := clause_item elem 1 in
            Ok (CStr (Py.replace c placeholder value))) filter_from_query
  else
    rfilter (fun elem =>
               let* c := clause_item elem 1 in
               Ok (negb (String.eqb c placeholder))) filter_from_query.

(** [itertools.product(a, b, c)] *)
Definition product3 {A B C} (a : list A) (b : list B) (c : list C)
  : list (A * B * C) :=
  flat_map (fun x => flat_map (fun y => map (fun z => (x, y, z)) c) b) a.

Module QueryGenerator.
Section Methods.

Variable search_join : list (list (list string)) -> list (list (string * string)).
Variable search_triples :
  string -> string -> string -> list (string * string * string) * nat.
Variable float : Type.
Variable float_of_str : string -> option float.
Variable float_leb : float -> float -> bool.

(** [nltk.word_tokenize] *)
Variable word_tokenize : string -> list string.
(** [list(set(l))]: the elements of [l] without repetition, in the order
    in which the set yields them. *)
Variable list_of_set : list string -> list string.
(** The confidences of a linker, the scores of the ranker. *)
Variable confidence : Type.
Variable score : Type.

(** The attributes of a [QueryGenerator] that its methods read. *)
Record generator : Type := Generator {
  linker_entities : string -> list string * list confidence;
  linker_types : string -> list string * list confidence;
  rel_ranker : string -> list string -> list (string * score);
  rank_list_0 : list string;
  rank_list_1 : list string;
  template_queries : gmap string (list template);
  entities_to_leave : Z;
  rels_to_leave : Z;
  rels_to_leave_2hop : Z;
  return_answers : bool;
  template_num : string
}.

(** The same generator with another value of [entities_to_leave]. *)
Definition with_entities_to_leave (k : Z) (self : generator) : generator :=
  {| linker_entities := linker_entities self;
     linker_types := linker_types self;
     rel_ranker := rel_ranker self;
     rank_list_0 := rank_list_0 self;
     rank_list_1 := rank_list_1 self;
     template_queries := template_queries self;
     entities_to_leave := k;
     rels_to_leave := rels_to_leave self;
     rels_to_leave_2hop := rels_to_leave_2hop self;
     return_answers := return_answers self;
     template_num := template_num self |}.

(** The linker that [get_entity_ids] calls for [what_to_link]. *)
Definition linker_for (self : generator) (what_to_link : string)
  : string -> list string * list confidence :=
  if String.eqb what_to_link "types" then linker_types self
  else linker_entities self.

Definition link_one (self : generator) (what_to_link entity : string)
  : result (list string) :=
  let entity_id :=
    if String.eqb what_to_link "entities"
    then Some (linker_entities self entity).1 else None in
  let entity_id :=
    if String.eqb what_to_link "types"
    then Some (linker_types self entity).1 else entity_id in
  match entity_id with
  | Some entity_id => Ok (List.firstn 15 entity_id)
  | None => Raise (UnboundLocalError "entity_id")
  end.

Definition get_entity_ids (self : generator) (entities : list string)
    (what_to_link : string) : result (list (list string)) :=
  rmap (link_one self what_to_link) entities.

Definition find_top_rels (self : generator) (question : string)
    (entity_ids : list (list string)) (triplet_direction : string * Z)
  : result (list string) :=
  let ex_rels : list string := [] in
  let* ex_rels :=
    if triplet_direction.2 =? 1 then
      let ex_rels :=
        flat_map (fun entity_id =>
                    flat_map (fun entity =>
                                find_rels search_triples entity
                                          triplet_direction.1 None)
                             (Py.upto entity_id (entities_to_leave self)))
                 entity_ids in
      let ex_rels := list_of_set ex_rels in
      rmap (fun rel => let* parts := Py.split rel "/" in Py.last_item parts)
           ex_rels
    else Ok ex_rels in
  let ex_rels := if triplet_direction.2 =? 2 then rank_list_0 self else ex_rels in
  let ex_rels := if triplet_direction.2 =? 3 then rank_list_1 self else ex_rels in
  let scores := rel_ranker self question ex_rels in
  Ok (map fst scores).

(** What [query_parser] has computed when it enters its loop. *)
Record prepared : Type := Prepared {
  p_what_return : list string;
  p_query_sequence : list (list (list string));
  p_filter_from_query : list clause;
  p_order_from_query : list clause;
  p_combs : list (list pyval * list pyval * list pyval);
  p_return_if_found : bool
}.

(** Lines 204-260 of [query_parser]. *)
Definition prepare (self : generator) (question : string) (query_info : template)
    (entity_ids type_ids : list (list string))
    (rels_from_template : option (list (list string))) : result prepared :=
  let question_tokens := word_tokenize question in
  let query := query_template query_info in
  let rels_for_search := rank_rels query_info in
  let query_seq_num := query_sequence query_info in
  let* query_triplets := parse_triplets query in
  let* query_sequence := group_by_sequence query_seq_num query_triplets in
  let* rel_directions := rel_directions_of rels_for_search query_triplets in
  let entity_combs := make_combs entity_ids true in
  let type_combs := make_combs type_ids false in
  let* rels :=
    match rels_from_template with
    | Some rels => Ok rels
    | None => rmap (find_top_rels self question entity_ids) rel_directions
    end in
  let* rels_from_query := rels_from_query_of query_triplets in
  let answer_ent := map (Re.group 1) (Re.findall select_pattern query) in
  let order_from_query :=
    map (fun m => CPair (Re.group 1 m) (Re.group 2 m))
        (Re.findall order_pattern query) in
  let ascending := asc_desc question in
  let* order_from_query :=
    if negb ascending
    then rmap (fun elem => let* c := clause_item elem 1 in Ok (CPair "DESC" c))
              order_from_query
    else Ok order_from_query in
  let filter_from_query :=
    map (fun m => CPair (Re.group 1 m) (Re.group 2 m))
        (Re.findall contains_pattern query) in
  let year := extract_year question_tokens question in
  let* number := extract_number question_tokens question in
  let* filter_from_query := substitute_placeholder "YEAR" year filter_from_query in
  let* filter_from_query := substitute_placeholder "NUMBER" number filter_from_query in
  let rel_combs := make_combs rels false in
  Ok {| p_what_return := (rels_from_query ++ answer_ent)%list;
        p_query_sequence := query_sequence;
        p_filter_from_query := filter_from_query;
        p_order_from_query := order_from_query;
        p_combs := product3 entity_combs type_combs rel_combs;
        p_return_if_found := return_if_found query_info |}.

(** The call of line 266: four positional arguments, so the filter list
    arrives as [unknown_query_triplets] and the order list as
    [filter_entities]; [order] keeps its default. *)
Definition adapter_call_of (p : prepared)
    (combs : list pyval * list pyval * list pyval)
  : result adapter_call :=
  let* query_hdt_seq :=
    rmap (fun query_hdt_elem =>
            fill_query query_hdt_elem combs.1.1 combs.1.2 combs.2)
         (p_query_sequence p) in
  Ok {| call_what_return := p_what_return p;
        call_query := query_hdt_seq;
        call_unknown_query_triplets := p_filter_from_query p;
        call_filter_entities := Some (p_order_from_query p);
        call_order := None |}.

(** Lines 263-274: the loop over the combinations, with the list of the
    invocations of the store adapter made so far threaded through it. *)
Fixpoint search_loop (p : prepared)
    (combs_list : list (list pyval * list pyval * list pyval))
    (candidate_outputs : list (list pyval)) (calls : list adapter_call)
  : result (list (list pyval)) * list adapter_call :=
  match combs_list with
  | [] => (Ok candidate_outputs, calls)
  | combs :: rest =>
      match adapter_call_of p combs with
      | Raise e => (Raise e, calls)
      | Ok c =>
          let calls := (calls ++ [c])%list in
          match run_call search_join float float_of_str float_leb c with
          | Raise e => (Raise e, calls)
          | Ok candidate_output =>
              let candidate_outputs :=
                (candidate_outputs
                 ++ map (fun output => Py.but_last combs.2 ++ output)
                        candidate_output)%list in
              if p_return_if_found p && is_nonempty candidate_output
              then (Ok candidate_outputs, calls)
              else search_loop p rest candidate_outputs calls
          end
      end
  end.

Definition query_parser_traced (self : generator) (question : string)
    (query_info : template) (entity_ids type_ids : list (list string))
    (rels_from_template : option (list (list string)))
  : result (list (list pyval)) * list adapter_call :=
  match prepare self question query_info entity_ids type_ids rels_from_template with
  | Raise e => (Raise e, [])
  | Ok p => search_loop p (p_combs p) [] []
  end.

Definition query_parser (self : generator) (question : string)
    (query_info : template) (entity_ids type_ids : list (list string))
    (rels_from_template : option (list (list string)))
  : result (list (list pyval)) :=
  (query_parser_traced self question query_info entity_ids type_ids
                       rels_from_template).1.

(** Lines 181-183: the last template whose [rel_dirs] are the given ones. *)
Definition select_by_rel_dirs (templates : list template)
    (rel_dirs_from_template : option (list string)) : option template :=
  foldl (fun query_template template =>
           if bool_decide (Some (rel_dirs template) = rel_dirs_from_template)
           then Some template else query_template)
        None templates.

(** Lines 187-190: [Some] output when a template returned from inside the
    loop, [None] when the loop ran to its end. *)
Fixpoint primary_loop (run : template -> result (list (list pyval)))
    (templates : list template) : result (option (list (list pyval))) :=
  match templates with
  | [] => Ok None
  | template :: rest =>
      let* candidate_outputs := run template in
      if is_nonempty candidate_outputs then Ok (Some candidate_outputs)
      else primary_loop run rest
  end.

(** Lines 178: the templates with the slot counts of the question. *)
Definition matching_templates (templates : list template)
    (entity_ids type_ids : list (list string)) : list template :=
  filter (fun template =>
            entities_and_types_num template
            = [Z.of_nat (length entity_ids); Z.of_nat (length type_ids)])
         templates.

Definition find_candidate_answers (self : generator) (question : string)
    (entity_ids type_ids : list (list string))
    (rels_from_template : option (list (list string)))
    (rel_dirs_from_template : option (list string))
  : result (list (list pyval)) :=
  let* templates :=
    match template_queries self !! template_num self with
    | Some templates => Ok templates
    | None => Raise (KeyError (template_num self))
    end in
  let templates := matching_templates templates entity_ids type_ids in
  let run template :=
    query_parser self question template entity_ids type_ids rels_from_template in
  match rels_from_template with
  | Some _ =>
      match select_by_rel_dirs templates rel_dirs_from_template with
      | Some query_template => run query_template
      | None => Ok []
      end
  | None =>
      let* found := primary_loop run templates in
      match found with
      | Some candidate_outputs => Ok candidate_outputs
      | None =>
          let* first := Py.item templates 0 in
          let* alternative_templates :=
            match alternative_templates first with
            | Some l => Ok l
            | None => Raise (KeyError "alternative_templates")
            end in
          match alternative_templates with
          | template :: _ => run template
          | [] => Ok []
          end
      end
  end.

(** The comprehension of [load]: the first tab-separated field of every
    line of a rank-list file. *)
Definition tab : string := String (ascii_of_nat 9) EmptyString.

Definition rank_list_of_lines (lines : list string) : result (list string) :=
  rmap (fun line => let* fields := Py.split line tab in Py.item fields 0) lines.

(** [replace_tokens] of [__call__]; the last one is the en dash. *)
Definition replace_tokens : list (string * string) :=
  [ (" - ", "-"); (" .", ""); ("{", ""); ("}", ""); ("  ", " ");
    (quote, "'"); ("(", ""); (")", ""); ("–", "-") ].

(** Lines 118-119. *)
Definition normalize_question (question : string) : string :=
  foldl (fun question on => Py.replace question on.1 on.2) question
        replace_tokens.

(** The same generator with another value of [template_num]. *)
Definition with_template_num (num : string) (self : generator) : generator :=
  {| linker_entities := linker_entities self;
     linker_types := linker_types self;
     rel_ranker := rel_ranker self;
     rank_list_0 := rank_list_0 self;
     rank_list_1 := rank_list_1 self;
     template_queries := template_queries self;
     entities_to_leave := entities_to_leave self;
     rels_to_leave := rels_to_leave self;
     rels_to_leave_2hop := rels_to_leave_2hop self;
     return_answers := return_answers self;
     template_num := num |}.

(** [self.template_matcher]: entities, types, relations, relation
    directions and template type of a question. *)
Variable template_matcher :
  string -> list string * list string * option (list (list string))
            * option (list string) * string.

(** The body of the loop of [__call__] (lines 113-149) for one question;
    [question] is the question after [normalize_question]. *)
Definition answer_question (self : generator) (question template_type : string)
    (entities_from_ner types_from_ner : list string)
  : result (list (list pyval)) :=
  let candidate_outputs : list (list pyval) := [] in
  let '(entities_from_template, types_from_template, rels_from_template,
        rel_dirs_from_template, query_type_template) :=
    template_matcher question in
  let self := with_template_num query_type_template self in
  let* candidate_outputs :=
    if is_nonempty entities_from_template || is_nonempty types_from_template
    then
      let* entity_ids := get_entity_ids self entities_from_template "entities" in
      let* type_ids := get_entity_ids self types_from_template "types" in
      find_candidate_answers self question entity_ids type_ids
        rels_from_template rel_dirs_from_template
    else Ok candidate_outputs in
  if negb (is_nonempty candidate_outputs) && is_nonempty entities_from_ner
  then
    let* entity_ids := get_entity_ids self entities_from_ner "entities" in
    let* type_ids := get_entity_ids self types_from_ner "types" in
    let* first := Py.char_at template_type 0 in
    let self := with_template_num first self in
    find_candidate_answers self question entity_ids type_ids None None
  else Ok candidate_outputs.

(** [zip] of the four batches. *)
Fixpoint zip4 {A B C D} (a : list A) (b : list B) (c : list C) (d : list D)
  : list (A * B * C * D) :=
  match a, b, c, d with
  | x :: a', y :: b', z :: c', w :: d' => (x, y, z, w) :: zip4 a' b' c' d'
  | _, _, _, _ => []
  end.

(** [QueryGenerator.__call__] up to line 149: the batch of candidate
    outputs.  An exception in one question ends the whole call. *)
Definition candidate_outputs_batch (self : generator)
    (question_batch template_type_batch : list string)
    (entities_from_ner_batch types_from_ner_batch : list (list string))
  : result (list (list (list pyval))) :=
  rmap (fun item : string * string * list string * list string =>
          answer_question self (normalize_question item.1.1.1) item.1.1.2
                          item.1.2 item.2)
       (zip4 question_batch template_type_batch entities_from_ner_batch
             types_from_ner_batch).

End Methods.
End QueryGenerator.

Import QueryGenerator.

(** ** Fixtures: a store, a tokenizer and a generator to run the code on *)

Module Fixture.

(** A store whose join yields one row for every query, and no triples. *)
Definition one_row_join (q : list (list (list string)))
  : list (list (string * string)) := [[("?ent", "Q42")]].
Definition empty_join (q : list (list (list string)))
  : list (list (string * string)) := [].
Definition no_triples (s p o : string)
  : list (string * string * string) * nat := ([], O).

(** A join that yields a row only for queries on the relation [rel]. *)
Definition join_on (rel : string) (q : list (list (list string)))
  : list (list (string * string)) :=
  if existsb (existsb (existsb (String.eqb rel))) q
  then [[("?ent", "Q42")]] else [].

Definition no_float (s : string) : option unit := None.
Definition unit_leb (a b : unit) : bool := true.

(** Split on single spaces, empty pieces dropped. *)
Definition tokenize (s : string) : list string :=
  List.filter (fun tok => negb (String.eqb tok "")) (Py.split_go " " O [] s).

Definition keep_order (l : list string) : list string := l.

Definition linker (n : nat) (mention : string) : list string * list unit :=
  (map (fun i => "Q" ++ Py.str_of_nat i) (seq 1 n), []).

Definition ranker (question : string) (rels : list string)
  : list (string * unit) := map (fun r => (r, tt)) rels.

Definition pattern_query : string :=
  "SELECT ?ent WHERE { ?ent P31 T1 . ?ent R1 E1 }".

Definition one_template (rif : bool) : template :=
  {| query_template := pattern_query;
     rank_rels := [0; 1];
     query_sequence := [1; 1];
     return_if_found := rif;
     rel_dirs := ["backw"];
     entities_and_types_num := [1; 1];
     alternative_templates := None |}.

Definition gen (templates : list template) : generator unit unit :=
  {| linker_entities := linker 20;
     linker_types := linker 3;
     rel_ranker := ranker;
     rank_list_0 := [];
     rank_list_1 := [];
     template_queries := {[ "7" := templates ]};
     entities_to_leave := 5;
     rels_to_leave := 10;
     rels_to_leave_2hop := 7;
     return_answers := false;
     template_num := "7" |}.

(** A template without relation slot that asks for the entities in
    relation [rel] with the entity of the question. *)
Definition template_on (rel : string) (alternatives : option (list template))
  : template :=
  {| query_template := "SELECT ?ent WHERE { ?ent P31 T1 . ?ent " ++ rel ++ " E1 }";
     rank_rels := [0; 0];
     query_sequence := [1; 1];
     return_if_found := false;
     rel_dirs := [];
     entities_and_types_num := [1; 1];
     alternative_templates := alternatives |}.

(** The template of the example with the entity as subject. *)
Definition forw_template : template :=
  {| query_template := "SELECT ?ent WHERE { ?ent P31 T1 . E1 R1 ?ent }";
     rank_rels := [0; 1];
     query_sequence := [1; 1];
     return_if_found := false;
     rel_dirs := ["forw"];
     entities_and_types_num := [1; 1];
     alternative_templates := None |}.

(** Ten entity identifiers and their aggregate rank. *)
Definition ten_entities : list pyval :=
  [PStr "Q11"; PStr "Q12"; PStr "Q13"; PStr "Q14"; PStr "Q15"; PStr "Q16";
   PStr "Q17"; PStr "Q18"; PStr "Q19"; PStr "Q20"; PInt 0].

(** A join of two rows. *)
Definition two_row_join (q : list (list (list string)))
  : list (list (string * string)) :=
  [[("?ent", "Q42"); ("?x", "3")]; [("?ent", "Q43"); ("?x", "1")]].

(** Floats that are the natural numbers written in decimal digits. *)
Fixpoint digits_value (acc : Z) (s : string) : Z :=
  match s with
  | EmptyString => acc
  | String c s' => digits_value (10 * acc + (Z.of_nat (nat_of_ascii c) - 48)) s'
  end.

Definition z_of_str (s : string) : option Z :=
  if Py.isdigit s then Some (digits_value 0 s) else None.

(** A store with two alternative labels and two outgoing triples for
    every subject. *)
Definition labelled (s p o : string) : list (string * string * string) * nat :=
  if String.eqb p alias_predicate
  then ([(s, p, quote ++ "Big Apple" ++ quote ++ "@en");
         (s, p, quote ++ "Grosse Pomme" ++ quote ++ "@fr");
         (s, p, quote ++ "NYC" ++ quote ++ "@en")], 3%nat)
  else ([(s, "http://www.wikidata.org/prop/P17", "http://www.wikidata.org/entity/Q30");
         (s, "http://www.wikidata.org/prop/direct/P31", "http://www.wikidata.org/entity/Q515")],
        2%nat).

(** The template of the example with a filter clause. *)
Definition filter_template : template :=
  {| query_template :=
       "SELECT ?ent WHERE { ?ent P31 T1 . ?ent R1 E1 . ?ent ?p ?x filter(contains(?x, 'abc')) }";
     rank_rels := [0; 1; 0];
     query_sequence := [1; 1; 1];
     return_if_found := false;
     rel_dirs := ["backw"];
     entities_and_types_num := [1; 1];
     alternative_templates := None |}.

(** [template_on] with [return_if_found]. *)
Definition first_hit_on (rel : string) : template :=
  {| query_template := "SELECT ?ent WHERE { ?ent P31 T1 . ?ent " ++ rel ++ " E1 }";
     rank_rels := [0; 0];
     query_sequence := [1; 1];
     return_if_found := true;
     rel_dirs := [];
     entities_and_types_num := [1; 1];
     alternative_templates := None |}.

(** A template matcher that finds an entity, a type and a relation, and
    one that finds nothing. *)
Definition matcher (question : string)
  : list string * list string * option (list (list string))
    * option (list string) * string :=
  (["Paris"], ["city"], Some [["P100"]], Some ["backw"], "7").

Definition no_match (question : string)
  : list string * list string * option (list (list string))
    * option (list string) * string :=
  ([], [], None, None, "9").

(** The one combination of the end-to-end example, and its filled query. *)
Definition pattern_combs : list pyval * list pyval * list pyval :=
  ([PStr "Q1"; PInt 0], [PStr "T5"; PInt 0], [PStr "P100"; PInt 0]).

Definition pattern_filled : list (list (list string)) :=
  [[["?ent"; "P31"; "T5"]; ["?ent"; "P100"; "Q1"]]].

End Fixture.

(** * Properties *)

(** ** Fallible computations *)

Lemma rbind_inv {A B} (m : result A) (f : A -> result B) (b : B) :
  rbind m f = Ok b -> exists a, m = Ok a /\ f a = Ok b.
Proof. destruct m as [a|e]; simpl; [eauto|discriminate]. Qed.

Ltac rbind_inv H :=
  let a := fresh "a" in
  let Ha := fresh "Ha" in
  apply rbind_inv in H as (a & Ha & H); cbv beta in H.

Lemma rmap_total {A B} (f : A -> B) (l : list A) :
  rmap (fun x => Ok (f x)) l = Ok (map f l).
Proof.
  induction l as [|x l IH]; simpl; [reflexivity|].
  rewrite IH. reflexivity.
Qed.

Lemma rmap_ext {A B} (f g : A -> result B) (l : list A) :
  (forall x, f x = g x) -> rmap f l = rmap g l.
Proof.
  intros Hfg. induction l as [|x l IH]; simpl; [reflexivity|].
  rewrite Hfg, IH. reflexivity.
Qed.

(** ** WikiParser *)

Section WikiParserFacts.

Context (search_join : list (list (list string)) -> list (list (string * string))).
Context (search_triples :
  string -> string -> string -> list (string * string * string) * nat).
Context (float : Type) (float_of_str : string -> option float).
Context (float_leb : float -> float -> bool).

(** C10. When the join of the query has no row, [WikiParser.__call__]
    returns the empty list whatever its other arguments are: neither the
    unknown-triplet stage nor the filters, the ordering or the aggregation
    run, so a COUNT query over an empty join gives [[]] and no row with a
    zero count. *)
Theorem call_empty_join (what_return : list string)
    (query : list (list (list string)))
    (unknown_query_triplets : list clause)
    (filter_entities order : option (list clause)) :
  search_join query = [] ->
  WikiParser_call search_join float float_of_str float_leb what_return query
    unknown_query_triplets filter_entities order = Ok [].
Proof.
  intros Hjoin. unfold WikiParser_call. rewrite Hjoin. reflexivity.
Qed.

(** C2, as the code has it.  [find_label] raises [NameError] on every
    input: line 82 reads the name [a], which neither the method nor the
    module binds, before anything else is done with [entity]. *)
Theorem find_label_raises (entity : string) :
  find_label search_triples entity = Raise (NameError "a").
Proof.
  unfold find_label.
  assert (Hname : global_is_str "a" = Raise (NameError "a")) by reflexivity.
  rewrite Hname. reflexivity.
Qed.

End WikiParserFacts.

(** The COUNT query of C10 on a store with an empty join. *)
Lemma call_empty_join_witness :
  Fixture.empty_join [[["?s"; "P31"; "Q5"]]] = []
  /\ WikiParser_call Fixture.empty_join unit Fixture.no_float Fixture.unit_leb
       ["COUNT(?s)"] [[["?s"; "P31"; "Q5"]]] [CPair "?x" "YEAR"]
       (Some [CPair "ASC" "?s"]) None = Ok [].
Proof.
  split; [reflexivity|].
  apply (call_empty_join Fixture.empty_join unit Fixture.no_float
           Fixture.unit_leb).
  reflexivity.
Defined.

(** ** utils.extract_number *)

(** The example of the specification. *)
Lemma extract_number_2nd :
  extract_number ["2nd"; "place"] "finished 2nd place" = Ok "2".
Proof. vm_compute. reflexivity. Qed.

(** C8, as the code has it.  [number.strip(".0")] removes every leading
    and trailing dot and zero, so the token 10 comes back as 1. *)
Theorem extract_number_strips_zeros :
  extract_number ["top"; "10"; "films"] "top 10 films" = Ok "1"
  /\ extract_number ["in"; "2000"] "in 2000" = Ok "2"
  /\ extract_number ["0.5"; "litres"] "0.5 litres" = Ok "5".
Proof. vm_compute. auto. Qed.

(** ** utils.fill_query *)

(** A template of two slots is filled slot by slot. *)
Lemma fill_query_two_slots :
  fill_query [["?ent"; "P31"; "T1"]; ["?ent"; "R1"; "E1"]]
    [PStr "Q1"; PInt 0] [PStr "T5"; PInt 0] [PStr "P100"; PInt 0]
  = Ok [["?ent"; "P31"; "T5"]; ["?ent"; "P100"; "Q1"]].
Proof. vm_compute. reflexivity. Qed.

(** C5, as the code has it.  With ten entity slots the tenth placeholder
    is rewritten by the substitution of the first: the text E1 is
    replaced inside E10, and the tenth value never appears. *)
Theorem fill_query_tenth_slot :
  fill_query [["E1"; "R1"; "E10"]] Fixture.ten_entities [PInt 0] [PStr "P50"; PInt 0]
  = Ok [["Q11"; "P50"; "Q110"]].
Proof. vm_compute. reflexivity. Qed.

(** ** utils.make_combs *)

Section Sorting.

Context {A : Type} (key : A -> Z).

Lemma insert_by_perm (x : A) (l : list A) :
  Permutation (insert_by Z.leb key x l) (x :: l).
Proof.
  induction l as [|y l IH]; simpl; [reflexivity|].
  destruct (key x <=? key y); [reflexivity|].
  rewrite IH. apply perm_swap.
Qed.

Lemma sorted_by_perm (l : list A) : Permutation (sorted_by Z.leb key l) l.
Proof.
  induction l as [|x l IH]; simpl; [reflexivity|].
  rewrite insert_by_perm. now apply perm_skip.
Qed.

Lemma insert_by_sorted (x : A) (l : list A) :
  StronglySorted (fun a b => key a <= key b) l ->
  StronglySorted (fun a b => key a <= key b) (insert_by Z.leb key x l).
Proof.
  induction 1 as [|y l Hl IH Hy]; simpl.
  - repeat constructor.
  - destruct (Z.leb_spec (key x) (key y)) as [Hle|Hgt].
    + constructor; [now constructor|].
      constructor; [exact Hle|].
      eapply Forall_impl; [exact Hy|]. simpl. intros; lia.
    + constructor; [exact IH|].
      eapply Permutation_Forall; [symmetry; apply insert_by_perm|].
      constructor; [lia|exact Hy].
Qed.

Lemma sorted_by_sorted (l : list A) :
  StronglySorted (fun a b => key a <= key b) (sorted_by Z.leb key l).
Proof.
  induction l as [|x l IH]; simpl; [constructor|].
  now apply insert_by_sorted.
Qed.

Lemma sorted_map_key (l : list A) :
  StronglySorted (fun a b => key a <= key b) l ->
  StronglySorted Z.le (map key l).
Proof.
  induction 1 as [|y l Hl IH Hy]; simpl; constructor; [exact IH|].
  now apply Forall_map.
Qed.

End Sorting.

Lemma ranked_from_spec {A} (l : list A) (n : Z) (x : A) (r : Z) :
  In (x, r) (ranked_from n l) ->
  n <= r /\ l !! Z.to_nat (r - n) = Some x.
Proof.
  revert n. induction l as [|y l IH]; simpl; intros n; [tauto|].
  intros [Heq|Hin].
  - inversion Heq; subst. split; [lia|].
    replace (r - r) with 0 by lia. reflexivity.
  - apply IH in Hin as [Hle Hl]. split; [lia|].
    replace (Z.to_nat (r - n)) with (S (Z.to_nat (r - (n + 1)))) by lia.
    exact Hl.
Qed.

Lemma product_spec {A} (ls : list (list A)) (comb : list A) :
  In comb (product ls) -> Forall2 (fun x l => In x l) comb ls.
Proof.
  revert comb. induction ls as [|l ls IH]; simpl; intros comb.
  - intros [<-|[]]. constructor.
  - rewrite in_flat_map. intros (x & Hx & Hc).
    apply in_map_iff in Hc as (p & <- & Hp).
    constructor; [exact Hx|]. now apply IH.
Qed.

Lemma selections_perm {A} (l : list A) (x : A) (r : list A) :
  In (x, r) (selections l) -> Permutation (x :: r) l.
Proof.
  revert x r. induction l as [|y l IH]; simpl; intros x r; [tauto|].
  intros [Heq|Hin].
  - inversion Heq; subst. reflexivity.
  - apply in_map_iff in Hin as ([z q] & Heq & Hin). simpl in Heq.
    inversion Heq; subst. apply IH in Hin.
    rewrite perm_swap. now apply perm_skip.
Qed.

Lemma permutations_go_perm {A} (n : nat) (l p : list A) :
  length l = n -> In p (permutations_go n l) -> Permutation p l.
Proof.
  revert l p. induction n as [|n IH]; simpl; intros l p Hlen.
  - intros [<-|[]]. destruct l; [reflexivity|discriminate].
  - rewrite in_flat_map. intros ([x r] & Hsel & Hp). simpl in Hp.
    apply in_map_iff in Hp as (q & <- & Hq).
    pose proof (selections_perm _ _ _ Hsel) as Hperm.
    rewrite <- Hperm. apply perm_skip. apply IH; [|exact Hq].
    apply Permutation_length in Hperm. simpl in Hperm. lia.
Qed.

Lemma permutations_perm {A} (l p : list A) :
  In p (permutations l) -> Permutation p l.
Proof. now apply permutations_go_perm. Qed.

Lemma aggregate_rank_snoc (ids : list pyval) (z : Z) :
  aggregate_rank (ids ++ [PInt z]) = z.
Proof. unfold aggregate_rank. now rewrite last_snoc. Qed.

Lemma Forall2_map_right {A B C} (P : A -> C -> Prop) (g : B -> C)
    (l : list A) (k : list B) :
  Forall2 P l (map g k) -> Forall2 (fun x y => P x (g y)) l k.
Proof.
  revert l. induction k as [|y k IH]; simpl; intros l H;
    inversion H; subst; constructor; auto.
Qed.

Lemma drawn_from_product (entity_ids : list (list string))
    (sel : list (string * Z)) :
  In sel (product (map (ranked_from 0) entity_ids)) ->
  drawn_from entity_ids sel.
Proof.
  intros Hin. apply product_spec in Hin. unfold drawn_from.
  apply Forall2_map_right in Hin.
  eapply Forall2_impl; [exact Hin|].
  intros [e r] l Her. apply ranked_from_spec in Her as [Hle Hl].
  simpl. split; [exact Hle|]. now replace (r - 0) with r in Hl by lia.
Qed.

(** C6. Every combination that [make_combs] returns is a list of
    identifiers, one candidate per slot (in slot order without [permut],
    in some order of the slots with it), followed by one trailing element:
    the sum of the 0-based ranks of these candidates.  The combinations
    come in non-decreasing order of that sum. *)
Theorem make_combs_ranked (entity_ids : list (list string)) (permut : bool) :
  (forall comb, In comb (make_combs entity_ids permut) ->
     exists sel sel0,
       drawn_from entity_ids sel0
       /\ (if permut then Permutation sel sel0 else sel = sel0)
       /\ comb = (map (fun er => PStr er.1) sel ++ [PInt (rank_sum sel)])%list)
  /\ StronglySorted Z.le (map aggregate_rank (make_combs entity_ids permut)).
Proof.
  unfold make_combs. split.
  - intros comb Hin. apply in_map_iff in Hin as (sel & <- & Hsel).
    eapply Permutation_in in Hsel; [|apply sorted_by_perm].
    destruct permut.
    + apply in_flat_map in Hsel as (sel0 & Hsel0 & Hperm).
      exists sel, sel0. split; [now apply drawn_from_product|].
      split; [now apply permutations_perm|reflexivity].
    + exists sel, sel. split; [now apply drawn_from_product|]. auto.
  - rewrite map_map.
    erewrite map_ext; [apply sorted_map_key, sorted_by_sorted|].
    intros sel. simpl. apply aggregate_rank_snoc.
Qed.

(** ** utils.extract_number never fails on the tokens of a tokenizer *)

Lemma first_digit_token_ok (tokens : list string) :
  Forall (fun tok => tok <> "") tokens ->
  exists number, first_digit_token tokens = Ok number.
Proof.
  induction 1 as [|tok tokens Htok _ IH]; simpl; [eauto|].
  destruct tok as [|c tok]; [congruence|]. simpl.
  destruct (Py.is_digit c); simpl; eauto.
Qed.

Lemma extract_number_ok (tokens : list string) (question : string) :
  Forall (fun tok => tok <> "") tokens ->
  exists number, extract_number tokens question = Ok number.
Proof.
  intros Htok. unfold extract_number.
  destruct (Re.search number_pattern question); simpl; [eauto|].
  destruct (first_digit_token_ok tokens Htok) as [n ->]. simpl. eauto.
Qed.

Lemma substitute_placeholder_nil (placeholder value : string) :
  substitute_placeholder placeholder value [] = Ok [].
Proof. unfold substitute_placeholder. now destruct (negb _). Qed.

(** ** QueryGenerator *)

Section QueryGeneratorFacts.

Context (search_join : list (list (list string)) -> list (list (string * string))).
Context (search_triples :
  string -> string -> string -> list (string * string * string) * nat).
Context (float : Type) (float_of_str : string -> option float).
Context (float_leb : float -> float -> bool).
Context (word_tokenize : string -> list string).
Context (list_of_set : list string -> list string).
Context (confidence score : Type).

Local Abbreviation generator := (generator confidence score).
Local Abbreviation template_queries := (template_queries confidence score).
Local Abbreviation template_num := (template_num confidence score).
Local Abbreviation prepare :=
  (prepare search_triples word_tokenize list_of_set confidence score).
Local Abbreviation search_loop :=
  (search_loop search_join float float_of_str float_leb).
Local Abbreviation run_call := (run_call search_join float float_of_str float_leb).
Local Abbreviation query_parser_traced :=
  (query_parser_traced search_join search_triples float float_of_str float_leb
     word_tokenize list_of_set confidence score).
Local Abbreviation query_parser :=
  (query_parser search_join search_triples float float_of_str float_leb
     word_tokenize list_of_set confidence score).
Local Abbreviation find_candidate_answers :=
  (find_candidate_answers search_join search_triples float float_of_str
     float_leb word_tokenize list_of_set confidence score).

(** *** get_entity_ids *)

Lemma link_one_known (self : generator) (what_to_link entity : string) :
  what_to_link = "entities" \/ what_to_link = "types" ->
  link_one confidence score self what_to_link entity
  = Ok (List.firstn 15 (linker_for confidence score self what_to_link entity).1).
Proof. intros [-> | ->]; reflexivity. Qed.

(** C9. For the two kinds of mention that the methods link, every list
    that [get_entity_ids] returns is the ranked output of the linker cut
    to its first 15 identifiers at most, and the value of
    [entities_to_leave] has no part in it. *)
Theorem get_entity_ids_cutoff (self : generator) (entities : list string)
    (what_to_link : string) :
  what_to_link = "entities" \/ what_to_link = "types" ->
  let ids :=
    map (fun entity =>
           List.firstn 15 (linker_for confidence score self what_to_link entity).1)
        entities in
  get_entity_ids confidence score self entities what_to_link = Ok ids
  /\ Forall (fun l => (length l <= 15)%nat) ids
  /\ forall k,
       get_entity_ids confidence score
         (with_entities_to_leave confidence score k self) entities what_to_link
       = Ok ids.
Proof.
  intros Hwhat ids. unfold get_entity_ids. repeat split.
  - erewrite rmap_ext; [apply rmap_total|].
    intros entity. now apply link_one_known.
  - apply Forall_map, Forall_forall. intros entity _.
    apply firstn_le_length.
  - intros k. erewrite rmap_ext; [apply rmap_total|].
    intros entity. rewrite link_one_known by exact Hwhat.
    destruct Hwhat as [-> | ->]; reflexivity.
Qed.


(** *** query_parser on the template of the end-to-end example *)

Lemma parse_pattern :
  parse_triplets Fixture.pattern_query
  = Ok [["?ent"; "P31"; "T1"]; ["?ent"; "R1"; "E1"]].
Proof. vm_compute. reflexivity. Qed.

Lemma group_pattern :
  group_by_sequence [1; 1] [["?ent"; "P31"; "T1"]; ["?ent"; "R1"; "E1"]]
  = Ok [[["?ent"; "P31"; "T1"]; ["?ent"; "R1"; "E1"]]].
Proof. vm_compute. reflexivity. Qed.

Lemma directions_pattern :
  rel_directions_of [0; 1] [["?ent"; "P31"; "T1"]; ["?ent"; "R1"; "E1"]]
  = Ok [("backw", 1)].
Proof. vm_compute. reflexivity. Qed.

Lemma rels_from_query_pattern :
  rels_from_query_of [["?ent"; "P31"; "T1"]; ["?ent"; "R1"; "E1"]] = Ok [].
Proof. vm_compute. reflexivity. Qed.

Lemma findall_pattern :
  Re.findall select_pattern Fixture.pattern_query = [[(1%nat, "?ent")]]
  /\ Re.findall order_pattern Fixture.pattern_query = []
  /\ Re.findall contains_pattern Fixture.pattern_query = [].
Proof. vm_compute. auto. Qed.

Lemma prepare_pattern (self : generator) (question : string)
    (query_info : template) :
  query_template query_info = Fixture.pattern_query ->
  rank_rels query_info = [0; 1] ->
  query_sequence query_info = [1; 1] ->
  Forall (fun tok => tok <> "") (word_tokenize question) ->
  prepare self question query_info [["Q1"]] [["T5"]] (Some [["P100"]])
  = Ok {| p_what_return := ["?ent"];
          p_query_sequence := [[["?ent"; "P31"; "T1"]; ["?ent"; "R1"; "E1"]]];
          p_filter_from_query := [];
          p_order_from_query := [];
          p_combs := [Fixture.pattern_combs];
          p_return_if_found := return_if_found query_info |}.
Proof.
  intros Hq Hr Hs Htok. unfold QueryGenerator.prepare. rewrite Hq, Hr, Hs.
  rewrite parse_pattern. cbn [rbind].
  rewrite group_pattern. cbn [rbind].
  rewrite directions_pattern. cbn [rbind].
  rewrite rels_from_query_pattern. cbn [rbind].
  destruct findall_pattern as (-> & -> & ->).
  destruct (extract_number_ok _ question Htok) as [number ->].
  cbn [rbind map rmap negb].
  destruct (asc_desc question); cbn [negb rmap rbind];
    rewrite substitute_placeholder_nil; cbn [rbind];
    rewrite substitute_placeholder_nil; reflexivity.
Qed.

Lemma adapter_call_pattern (p : prepared) :
  p_query_sequence p = [[["?ent"; "P31"; "T1"]; ["?ent"; "R1"; "E1"]]] ->
  adapter_call_of p Fixture.pattern_combs
  = Ok {| call_what_return := p_what_return p;
          call_query := Fixture.pattern_filled;
          call_unknown_query_triplets := p_filter_from_query p;
          call_filter_entities := Some (p_order_from_query p);
          call_order := None |}.
Proof. intros Hseq. unfold adapter_call_of. rewrite Hseq. reflexivity. Qed.

(** C1, as the code has it.  For the one-template knowledge base of the
    example, entity candidates [[Q1]], type candidates [[T5]], relation
    candidates [[P100]] and a store whose join of the filled query has one
    row, [query_parser] returns exactly one candidate output: the relation
    combination [P100] followed by the value that the row binds to the
    SELECT variable.  The entity and the type are not part of the output. *)
Theorem query_parser_one_row (self : generator) (question : string)
    (query_info : template) (row : list (string * string)) (v : string) :
  query_template query_info = Fixture.pattern_query ->
  rank_rels query_info = [0; 1] ->
  query_sequence query_info = [1; 1] ->
  Forall (fun tok => tok <> "") (word_tokenize question) ->
  search_join Fixture.pattern_filled = [row] ->
  dict row !! "?ent" = Some v ->
  query_parser self question query_info [["Q1"]] [["T5"]] (Some [["P100"]])
  = Ok [[PStr "P100"; PStr v]].
Proof.
  intros Hq Hr Hs Htok Hjoin Hrow.
  unfold QueryGenerator.query_parser, QueryGenerator.query_parser_traced.
  rewrite (prepare_pattern self question query_info Hq Hr Hs Htok).
  cbn [p_combs QueryGenerator.search_loop].
  rewrite adapter_call_pattern by reflexivity.
  unfold WikiParser.run_call, WikiParser_call.
  cbn [call_what_return call_query call_unknown_query_triplets
       call_filter_entities call_order p_what_return p_filter_from_query
       p_order_from_query].
  rewrite Hjoin. cbn [map is_nonempty truthy rbind].
  unfold output_stage. cbn [Py.last_item last rbind].
  change (Py.startswith "?ent" "COUNT") with false.
  cbn [negb rmap rbind]. unfold getitem. rewrite Hrow.
  cbn [rbind]. destruct (return_if_found query_info); reflexivity.
Qed.

(** *** The loop of query_parser *)

Lemma prepare_fields (self : generator) (question : string)
    (query_info : template) (entity_ids type_ids : list (list string))
    (rels_from_template : option (list (list string))) (p : prepared) :
  prepare self question query_info entity_ids type_ids rels_from_template = Ok p ->
  p_return_if_found p = return_if_found query_info
  /\ exists rels,
       p_combs p = product3 (make_combs entity_ids true)
                            (make_combs type_ids false)
                            (make_combs rels false).
Proof.
  unfold QueryGenerator.prepare. intros H.
  do 9 rbind_inv H.
  inversion H; subst; clear H. simpl. eauto.
Qed.

Lemma sorted_head_min {A} (key : A -> Z) (x : A) (l : list A) (y : A) :
  StronglySorted Z.le (map key (x :: l)) -> In y (x :: l) -> key x <= key y.
Proof.
  simpl. intros Hs [<-|Hin]; [lia|].
  apply StronglySorted_inv in Hs as [_ Hall].
  rewrite Forall_forall in Hall. apply Hall, list_elem_of_In.
  now apply in_map.
Qed.

Lemma product3_head_min (a b c : list (list pyval))
    (combs : list pyval * list pyval * list pyval)
    (rest : list (list pyval * list pyval * list pyval)) :
  StronglySorted Z.le (map aggregate_rank a) ->
  StronglySorted Z.le (map aggregate_rank b) ->
  StronglySorted Z.le (map aggregate_rank c) ->
  product3 a b c = combs :: rest ->
  Forall (fun other => total_rank combs <= total_rank other) rest.
Proof.
  intros Ha Hb Hc Hprod.
  assert (Hmem : forall o, In o (product3 a b c) ->
                           In o.1.1 a /\ In o.1.2 b /\ In o.2 c).
  { intros o. unfold product3. rewrite in_flat_map. intros (x & Hx & Ho).
    apply in_flat_map in Ho as (y & Hy & Ho).
    apply in_map_iff in Ho as (z & <- & Hz). auto. }
  assert (Hhead : exists a' b' c', a = combs.1.1 :: a' /\ b = combs.1.2 :: b'
                                   /\ c = combs.2 :: c').
  { destruct a as [|x a']; [discriminate|].
    destruct b as [|y b'].
    - exfalso. assert (Hin : In combs (product3 (x :: a') [] c))
        by (rewrite Hprod; now left).
      apply Hmem in Hin as (_ & [] & _).
    - destruct c as [|z c'].
      + exfalso. assert (Hin : In combs (product3 (x :: a') (y :: b') []))
          by (rewrite Hprod; now left).
        apply Hmem in Hin as (_ & _ & []).
      + simpl in Hprod. inversion Hprod; subst. simpl.
        do 3 eexists. repeat split; reflexivity. }
  destruct Hhead as (a' & b' & c' & -> & -> & ->).
  apply Forall_forall. intros o Ho. apply list_elem_of_In in Ho.
  assert (Hin : In o (product3 (combs.1.1 :: a') (combs.1.2 :: b') (combs.2 :: c')))
    by (rewrite Hprod; now right).
  apply Hmem in Hin as (H1 & H2 & H3).
  pose proof (sorted_head_min aggregate_rank _ _ _ Ha H1).
  pose proof (sorted_head_min aggregate_rank _ _ _ Hb H2).
  pose proof (sorted_head_min aggregate_rank _ _ _ Hc H3).
  unfold total_rank. lia.
Qed.

(** C3. When the template has [return_if_found] and the store adapter
    returns a non-empty result for the first combination, [query_parser]
    returns the outputs of that combination at once: the adapter has been
    invoked exactly once, for that combination, which has the lowest
    aggregate rank of all, and for no other combination. *)
Theorem return_if_found_stops (self : generator) (question : string)
    (query_info : template) (entity_ids type_ids : list (list string))
    (rels_from_template : option (list (list string))) (p : prepared)
    (combs : list pyval * list pyval * list pyval)
    (rest : list (list pyval * list pyval * list pyval))
    (c : adapter_call) (output : list pyval) (outputs : list (list pyval)) :
  return_if_found query_info = true ->
  prepare self question query_info entity_ids type_ids rels_from_template = Ok p ->
  p_combs p = combs :: rest ->
  adapter_call_of p combs = Ok c ->
  run_call c = Ok (output :: outputs) ->
  query_parser_traced self question query_info entity_ids type_ids
    rels_from_template
  = (Ok (map (fun o => (Py.but_last combs.2 ++ o)%list) (output :: outputs)), [c])
  /\ Forall (fun other => total_rank combs <= total_rank other) rest.
Proof.
  intros Hrif Hprep Hcombs Hcall Hrun.
  destruct (prepare_fields _ _ _ _ _ _ _ Hprep) as (Hflag & rels & Hprod).
  split.
  - unfold QueryGenerator.query_parser_traced. rewrite Hprep, Hcombs.
    cbn [QueryGenerator.search_loop]. rewrite Hcall, Hrun, Hflag, Hrif.
    reflexivity.
  - rewrite Hcombs in Hprod. symmetry in Hprod.
    eapply product3_head_min; [| | |exact Hprod];
      apply make_combs_ranked.
Qed.

(** *** find_candidate_answers *)

Lemma primary_loop_found (run : template -> result (list (list pyval)))
    (pre : list template) (t : template) (post : list template)
    (out : list (list pyval)) :
  Forall (fun t' => run t' = Ok []) pre ->
  run t = Ok out -> out <> [] ->
  primary_loop run (pre ++ t :: post) = Ok (Some out).
Proof.
  intros Hpre Ht Hout. induction Hpre as [|t' pre Ht' _ IH]; simpl.
  - rewrite Ht. simpl. destruct out; [congruence|reflexivity].
  - rewrite Ht'. simpl. exact IH.
Qed.

Lemma primary_loop_none (run : template -> result (list (list pyval)))
    (ts : list template) :
  Forall (fun t' => run t' = Ok []) ts -> primary_loop run ts = Ok None.
Proof.
  induction 1 as [|t' ts Ht' _ IH]; simpl; [reflexivity|].
  rewrite Ht'. simpl. exact IH.
Qed.

Lemma select_by_rel_dirs_from (dirs : option (list string))
    (init : option template) (ts : list template) :
  Forall (fun t => Some (rel_dirs t) <> dirs) ts ->
  foldl (fun query_template template =>
           if bool_decide (Some (rel_dirs template) = dirs)
           then Some template else query_template) init ts = init.
Proof.
  intros Hts. revert init. induction Hts as [|t ts Ht _ IH]; intros init;
    simpl; [reflexivity|].
  rewrite bool_decide_eq_false_2 by exact Ht. apply IH.
Qed.

(** C4. Without relations from the template matcher,
    [find_candidate_answers] runs the templates with the slot counts of
    the question in their declared order and returns the output of the
    first one whose output is not empty.  When every one of them gives an
    empty output, it returns what the first alternative template of the
    first template gives, empty or not; no later alternative is run.
    This holds whatever the directions of the matcher are.  With
    relations and without directions no template is run and the result
    is the empty list. *)
Theorem find_candidate_answers_primary_then_first_alternative
    (self : generator) (question : string)
    (entity_ids type_ids : list (list string))
    (rel_dirs_from_template : option (list string))
    (templates : list template) :
  template_queries self !! template_num self = Some templates ->
  let ts := matching_templates templates entity_ids type_ids in
  let run t := query_parser self question t entity_ids type_ids None in
  let answer :=
    find_candidate_answers self question entity_ids type_ids None
      rel_dirs_from_template in
  (forall pre t post out,
     ts = (pre ++ t :: post)%list ->
     Forall (fun t' => run t' = Ok []) pre ->
     run t = Ok out -> out <> [] ->
     answer = Ok out)
  /\ (forall first rest alternative alternatives,
        ts = first :: rest ->
        Forall (fun t' => run t' = Ok []) ts ->
        alternative_templates first = Some (alternative :: alternatives) ->
        answer = run alternative)
  /\ (forall rels,
        find_candidate_answers self question entity_ids type_ids (Some rels)
          None = Ok []).
Proof.
  intros Hlookup ts run answer. subst answer ts run.
  unfold QueryGenerator.find_candidate_answers. rewrite Hlookup.
  cbn [rbind]. cbv zeta. repeat split.
  - intros pre t post out Hts Hpre Ht Hout. rewrite Hts.
    rewrite (primary_loop_found _ pre t post out Hpre Ht Hout).
    reflexivity.
  - intros first rest alternative alternatives Hts Hall Halt.
    rewrite (primary_loop_none _ _ Hall). cbn [rbind].
    rewrite Hts. cbn [Py.item lookup list_lookup rbind]. rewrite Halt.
    reflexivity.
  - unfold select_by_rel_dirs. rewrite select_by_rel_dirs_from; [reflexivity|].
    apply Forall_forall. intros t _. discriminate.
Qed.

(** Without any template of the right slot counts there is no first
    template to take alternatives from: [templates[0]] raises. *)
Lemma find_candidate_answers_no_template (self : generator) (question : string)
    (entity_ids type_ids : list (list string))
    (rel_dirs_from_template : option (list string))
    (templates : list template) :
  template_queries self !! template_num self = Some templates ->
  matching_templates templates entity_ids type_ids = [] ->
  find_candidate_answers self question entity_ids type_ids None
    rel_dirs_from_template = Raise IndexError.
Proof.
  intros Hlookup Hnone. unfold QueryGenerator.find_candidate_answers.
  rewrite Hlookup. cbn [rbind]. cbv zeta. rewrite Hnone. reflexivity.
Qed.

Lemma select_by_rel_dirs_last (dirs : option (list string))
    (pre : list template) (t : template) (post : list template) :
  Some (rel_dirs t) = dirs ->
  Forall (fun t' => Some (rel_dirs t') <> dirs) post ->
  select_by_rel_dirs (pre ++ t :: post) dirs = Some t.
Proof.
  intros Ht Hpost. unfold select_by_rel_dirs.
  rewrite foldl_app. simpl.
  rewrite bool_decide_eq_true_2 by exact Ht.
  now apply select_by_rel_dirs_from.
Qed.

Lemma matching_templates_lengths (templates : list template)
    (entity_ids type_ids entity_ids' type_ids' : list (list string)) :
  length entity_ids' = length entity_ids ->
  length type_ids' = length type_ids ->
  matching_templates templates entity_ids' type_ids'
  = matching_templates templates entity_ids type_ids.
Proof. unfold matching_templates. now intros -> ->. Qed.

(** C7. With relations from the template matcher, the candidates of
    [find_candidate_answers] come from one template only: among the
    templates with the slot counts of the question, the one whose
    [rel_dirs] are the directions of the matcher (the last one, were
    there several).  Without such a template the result is the empty list.
    The template chosen depends on the template type, the two slot counts
    and the directions, and on nothing else. *)
Theorem find_candidate_answers_by_rel_dirs
    (self : generator) (question : string)
    (entity_ids type_ids : list (list string))
    (rels : list (list string))
    (rel_dirs_from_template : option (list string))
    (templates : list template) :
  template_queries self !! template_num self = Some templates ->
  let ts := matching_templates templates entity_ids type_ids in
  let run t := query_parser self question t entity_ids type_ids (Some rels) in
  let answer :=
    find_candidate_answers self question entity_ids type_ids (Some rels)
      rel_dirs_from_template in
  (Forall (fun t => Some (rel_dirs t) <> rel_dirs_from_template) ts ->
   answer = Ok [])
  /\ (forall pre t post,
        ts = (pre ++ t :: post)%list ->
        Some (rel_dirs t) = rel_dirs_from_template ->
        Forall (fun t' => Some (rel_dirs t') <> rel_dirs_from_template) post ->
        answer = run t)
  /\ (forall entity_ids' type_ids',
        length entity_ids' = length entity_ids ->
        length type_ids' = length type_ids ->
        select_by_rel_dirs (matching_templates templates entity_ids' type_ids')
                           rel_dirs_from_template
        = select_by_rel_dirs ts rel_dirs_from_template).
Proof.
  intros Hlookup ts run answer. subst answer ts run.
  unfold QueryGenerator.find_candidate_answers. rewrite Hlookup.
  cbn [rbind]. cbv zeta. repeat split.
  - intros Hnone. unfold select_by_rel_dirs.
    now rewrite select_by_rel_dirs_from.
  - intros pre t post Hts Ht Hpost. rewrite Hts.
    now rewrite (select_by_rel_dirs_last _ pre t post Ht Hpost).
  - intros entity_ids' type_ids' He Ht.
    now rewrite (matching_templates_lengths templates entity_ids type_ids).
Qed.

End QueryGeneratorFacts.

(** ** The theorems at work on the fixtures *)

Section Runs.

Local Abbreviation query_parser_on join :=
  (query_parser join Fixture.no_triples unit Fixture.no_float Fixture.unit_leb
     Fixture.tokenize Fixture.keep_order unit unit).
Local Abbreviation query_parser_traced_on join :=
  (query_parser_traced join Fixture.no_triples unit Fixture.no_float
     Fixture.unit_leb Fixture.tokenize Fixture.keep_order unit unit).
Local Abbreviation find_candidate_answers_on join :=
  (find_candidate_answers join Fixture.no_triples unit Fixture.no_float
     Fixture.unit_leb Fixture.tokenize Fixture.keep_order unit unit).

(** The example of C1 run on a store with one row: the output does not
    start with the entity, the type and the relation. *)
Lemma query_parser_prefix_counterexample :
  ~ exists row_values,
      query_parser_on Fixture.one_row_join
        (Fixture.gen [Fixture.one_template false]) "who is it"
        (Fixture.one_template false) [["Q1"]] [["T5"]] (Some [["P100"]])
      = Ok [([PStr "Q1"; PStr "T5"; PStr "P100"] ++ row_values)%list].
Proof.
  intros [row_values H]. vm_compute in H. discriminate H.
Qed.

(** The first part of C4 at relations without directions: the one
    template with the slot counts of the question finds a row, and the
    answer is the empty list all the same, since with relations the
    template is chosen by its directions and no template declares none. *)
Lemma find_candidate_answers_no_dirs_counterexample :
  ~ (forall (rels_from_template : option (list (list string)))
            (out : list (list pyval)),
       query_parser_on Fixture.one_row_join
         (Fixture.gen [Fixture.one_template false]) "who is it"
         (Fixture.one_template false) [["Q1"]] [["T5"]] rels_from_template
       = Ok out ->
       out <> [] ->
       find_candidate_answers_on Fixture.one_row_join
         (Fixture.gen [Fixture.one_template false]) "who is it"
         [["Q1"]] [["T5"]] rels_from_template None
       = Ok out).
Proof.
  intros H.
  specialize (H (Some [["P100"]]) [[PStr "P100"; PStr "Q42"]]).
  assert (Hbad : find_candidate_answers_on Fixture.one_row_join
                   (Fixture.gen [Fixture.one_template false]) "who is it"
                   [["Q1"]] [["T5"]] (Some [["P100"]]) None
                 = Ok [[PStr "P100"; PStr "Q42"]]).
  { apply H; [vm_compute; reflexivity|discriminate]. }
  vm_compute in Hbad. discriminate Hbad.
Qed.

(** C7 at directions without relations: no template with the slot counts
    of the question declares the directions of the matcher, and the
    answer is not empty, since without relations the templates are tried
    in turn whatever their directions. *)
Lemma find_candidate_answers_dirs_counterexample :
  ~ (forall rels_from_template : option (list (list string)),
       Forall (fun t => Some (rel_dirs t) <> Some ["backw"])
              (matching_templates [Fixture.template_on "P17" None]
                                  [["Q1"]] [["T5"]]) ->
       find_candidate_answers_on (Fixture.join_on "P17")
         (Fixture.gen [Fixture.template_on "P17" None]) "who is it"
         [["Q1"]] [["T5"]] rels_from_template (Some ["backw"])
       = Ok []).
Proof.
  intros H. specialize (H None).
  assert (Hbad : find_candidate_answers_on (Fixture.join_on "P17")
                   (Fixture.gen [Fixture.template_on "P17" None]) "who is it"
                   [["Q1"]] [["T5"]] None (Some ["backw"])
                 = Ok []).
  { apply H. vm_compute. constructor; [discriminate|constructor]. }
  vm_compute in Hbad. discriminate Hbad.
Qed.

Lemma query_parser_one_row_witness :
  query_parser_on Fixture.one_row_join
    (Fixture.gen [Fixture.one_template false]) "who is it"
    (Fixture.one_template false) [["Q1"]] [["T5"]] (Some [["P100"]])
  = Ok [[PStr "P100"; PStr "Q42"]].
Proof.
  apply (query_parser_one_row Fixture.one_row_join Fixture.no_triples unit
           Fixture.no_float Fixture.unit_leb Fixture.tokenize
           Fixture.keep_order unit unit _ "who is it" _ [("?ent", "Q42")]);
    try reflexivity.
  vm_compute. repeat constructor; discriminate.
Defined.

Lemma return_if_found_stops_witness :
  exists c,
    query_parser_traced_on Fixture.one_row_join
      (Fixture.gen [Fixture.one_template true]) "who is it"
      (Fixture.one_template true) [["Q1"; "Q2"]] [["T5"]] (Some [["P100"]])
    = (Ok [[PStr "P100"; PStr "Q42"]], [c]).
Proof.
  eexists.
  eapply eq_trans.
  - eapply proj1.
    eapply (return_if_found_stops Fixture.one_row_join Fixture.no_triples unit
              Fixture.no_float Fixture.unit_leb Fixture.tokenize
              Fixture.keep_order unit unit
              (Fixture.gen [Fixture.one_template true]) "who is it"
              (Fixture.one_template true) [["Q1"; "Q2"]] [["T5"]]
              (Some [["P100"]])).
    + reflexivity.
    + vm_compute. reflexivity.
    + vm_compute. reflexivity.
    + vm_compute. reflexivity.
    + vm_compute. reflexivity.
  - vm_compute. reflexivity.
Defined.


(** Two primary templates, the second of which finds a row; then one
    primary template that finds nothing and whose first alternative finds
    nothing either, while its second alternative would. *)
Lemma find_candidate_answers_primary_then_first_alternative_witness :
  find_candidate_answers_on (Fixture.join_on "P17")
    (Fixture.gen [Fixture.template_on "P19" None; Fixture.template_on "P17" None])
    "who is it" [["Q1"]] [["T5"]] None None
  = Ok [[PStr "Q42"]]
  /\ find_candidate_answers_on (Fixture.join_on "P17")
       (Fixture.gen
          [Fixture.template_on "P19"
             (Some [Fixture.template_on "P20" None;
                    Fixture.template_on "P17" None])])
       "who is it" [["Q1"]] [["T5"]] None None
     = Ok [].
Proof.
  split.
  - eapply (proj1 (find_candidate_answers_primary_then_first_alternative
              (Fixture.join_on "P17") Fixture.no_triples unit Fixture.no_float
              Fixture.unit_leb Fixture.tokenize Fixture.keep_order unit unit
              (Fixture.gen [Fixture.template_on "P19" None;
                            Fixture.template_on "P17" None])
              "who is it" [["Q1"]] [["T5"]] None _ eq_refl)
             [Fixture.template_on "P19" None] (Fixture.template_on "P17" None) []).
    + vm_compute. reflexivity.
    + constructor; [vm_compute; reflexivity|constructor].
    + vm_compute. reflexivity.
    + discriminate.
  - eapply eq_trans.
    + eapply (proj1 (proj2 (find_candidate_answers_primary_then_first_alternative
                (Fixture.join_on "P17") Fixture.no_triples unit Fixture.no_float
                Fixture.unit_leb Fixture.tokenize Fixture.keep_order unit unit
                (Fixture.gen
                   [Fixture.template_on "P19"
                      (Some [Fixture.template_on "P20" None;
                             Fixture.template_on "P17" None])])
                "who is it" [["Q1"]] [["T5"]] None _ eq_refl))).
      * vm_compute. reflexivity.
      * constructor; [vm_compute; reflexivity|constructor].
      * reflexivity.
    + vm_compute. reflexivity.
Defined.

(** Two templates with the slot counts of the question: the directions
    of the matcher choose the second; directions that no template
    declares give no candidate. *)
Lemma find_candidate_answers_by_rel_dirs_witness :
  find_candidate_answers_on Fixture.one_row_join
    (Fixture.gen [Fixture.forw_template; Fixture.one_template false])
    "who is it" [["Q1"]] [["T5"]] (Some [["P100"]]) (Some ["backw"])
  = Ok [[PStr "P100"; PStr "Q42"]]
  /\ find_candidate_answers_on Fixture.one_row_join
       (Fixture.gen [Fixture.forw_template; Fixture.one_template false])
       "who is it" [["Q1"]] [["T5"]] (Some [["P100"]]) (Some ["up"])
     = Ok [].
Proof.
  split.
  - eapply eq_trans.
    + eapply (proj1 (proj2 (find_candidate_answers_by_rel_dirs
                Fixture.one_row_join Fixture.no_triples unit Fixture.no_float
                Fixture.unit_leb Fixture.tokenize Fixture.keep_order unit unit
                (Fixture.gen [Fixture.forw_template; Fixture.one_template false])
                "who is it" [["Q1"]] [["T5"]] [["P100"]] (Some ["backw"])
                _ eq_refl))
               [Fixture.forw_template] (Fixture.one_template false) []).
      * vm_compute. reflexivity.
      * reflexivity.
      * constructor.
    + vm_compute. reflexivity.
  - eapply (proj1 (find_candidate_answers_by_rel_dirs
              Fixture.one_row_join Fixture.no_triples unit Fixture.no_float
              Fixture.unit_leb Fixture.tokenize Fixture.keep_order unit unit
              (Fixture.gen [Fixture.forw_template; Fixture.one_template false])
              "who is it" [["Q1"]] [["T5"]] [["P100"]] (Some ["up"])
              _ eq_refl)).
    vm_compute. repeat constructor; discriminate.
Defined.

(** A linker with twenty candidates: fifteen are kept. *)
Lemma get_entity_ids_cutoff_witness :
  get_entity_ids unit unit (Fixture.gen []) ["Paris"] "entities"
  = Ok [["Q1"; "Q2"; "Q3"; "Q4"; "Q5"; "Q6"; "Q7"; "Q8"; "Q9"; "Q10"; "Q11";
         "Q12"; "Q13"; "Q14"; "Q15"]].
Proof.
  eapply eq_trans.
  - eapply (proj1 (get_entity_ids_cutoff unit unit (Fixture.gen []) ["Paris"]
                     "entities" (or_introl eq_refl))).
  - vm_compute. reflexivity.
Defined.

End Runs.

(** * Further properties of the code *)

(** ** utils.make_combs: how many combinations, which ones, which first *)

Lemma flat_map_length_const {A B} (f : A -> list B) (l : list A) (m : nat) :
  (forall x, In x l -> length (f x) = m) ->
  length (flat_map f l) = (length l * m)%nat.
Proof.
  induction l as [|x l IH]; simpl; intros Hf; [reflexivity|].
  rewrite length_app, Hf, IH by auto. reflexivity.
Qed.

Lemma product_length {A} (ls : list (list A)) :
  length (product ls) = foldr (fun l n => (length l * n)%nat) 1%nat ls.
Proof.
  induction ls as [|l ls IH]; simpl; [reflexivity|].
  rewrite (flat_map_length_const _ _ (length (product ls))).
  - now rewrite IH.
  - intros x _. apply length_map.
Qed.

Lemma product_item_length {A} (ls : list (list A)) (comb : list A) :
  In comb (product ls) -> length comb = length ls.
Proof.
  intros Hin. apply product_spec in Hin.
  induction Hin; simpl; congruence.
Qed.

Lemma selections_length {A} (l : list A) : length (selections l) = length l.
Proof.
  induction l as [|x l IH]; simpl; [reflexivity|].
  now rewrite length_map, IH.
Qed.

Lemma permutations_go_length {A} (n : nat) (l : list A) :
  length l = n -> length (permutations_go n l) = fact n.
Proof.
  revert l. induction n as [|n IH]; intros l Hlen; [reflexivity|].
  cbn [permutations_go].
  rewrite (flat_map_length_const _ _ (fact n)).
  - rewrite selections_length, Hlen. reflexivity.
  - intros [x r] Hsel. simpl. rewrite length_map. apply IH.
    apply selections_perm, Permutation_length in Hsel. simpl in Hsel. lia.
Qed.

(** Without [permut] there is one combination for every way to take one
    candidate per slot; with [permut] each of these comes in all the
    orders of its slots.  So many combinations does the search of
    [query_parser] have to try at most. *)
Theorem make_combs_count (entity_ids : list (list string)) (permut : bool) :
  length (make_combs entity_ids permut)
  = ((if permut then fact (length entity_ids) else 1)
     * foldr (fun l n => length l * n) 1 entity_ids)%nat.
Proof.
  unfold make_combs. rewrite length_map.
  rewrite (Permutation_length (sorted_by_perm _ _)).
  assert (Hprod : length (product (map (ranked_from 0) entity_ids))
                  = foldr (fun l n => (length l * n)%nat) 1%nat entity_ids).
  { rewrite product_length.
    induction entity_ids as [|l ls IH]; simpl; [reflexivity|].
    rewrite IH. f_equal.
    generalize 0. induction l as [|x l IHl]; simpl; intros z; [reflexivity|].
    now rewrite IHl. }
  destruct permut.
  - rewrite (flat_map_length_const _ _ (fact (length entity_ids))).
    + rewrite Hprod. lia.
    + intros sel Hsel. apply product_item_length in Hsel.
      rewrite length_map in Hsel. unfold permutations. rewrite Hsel.
      now apply permutations_go_length.
  - rewrite Hprod. lia.
Qed.

Lemma product_empty_slot {A} (ls : list (list A)) :
  In [] ls -> product ls = [].
Proof.
  induction ls as [|l ls IH]; simpl; [tauto|].
  intros [-> | Hin]; [reflexivity|].
  rewrite IH by exact Hin. simpl.
  induction l as [|x l IHl]; simpl; auto.
Qed.

(** A slot without any candidate leaves no combination at all. *)
Theorem make_combs_empty_slot (entity_ids : list (list string)) (permut : bool) :
  In [] entity_ids -> make_combs entity_ids permut = [].
Proof.
  intros Hin. unfold make_combs.
  rewrite (product_empty_slot (map (ranked_from 0) entity_ids)).
  - now destruct permut.
  - apply in_map_iff. exists []. auto.
Qed.

Lemma make_combs_empty_slot_witness :
  make_combs [["Q1"; "Q2"]; []; ["Q3"]] true = [].
Proof. apply make_combs_empty_slot. simpl. auto. Defined.

Lemma ranked_from_complete {A} (l : list A) (k : Z) (n : nat) (x : A) :
  l !! n = Some x -> In (x, k + Z.of_nat n) (ranked_from k l).
Proof.
  revert k n. induction l as [|y l IH]; intros k n; [discriminate|].
  destruct n as [|n]; simpl.
  - intros [= ->]. left. f_equal. lia.
  - intros Hl. right.
    replace (k + Z.of_nat (S n)) with (k + 1 + Z.of_nat n) by lia.
    now apply IH.
Qed.

Lemma product_complete {A} (ls : list (list A)) (comb : list A) :
  Forall2 (fun x l => In x l) comb ls -> In comb (product ls).
Proof.
  induction 1 as [|x l comb ls Hx _ IH]; simpl; [auto|].
  apply in_flat_map. exists x. split; [exact Hx|]. now apply in_map.
Qed.

Lemma selections_complete {A} (l1 : list A) (x : A) (l2 : list A) :
  In (x, (l1 ++ l2)%list) (selections (l1 ++ x :: l2)).
Proof.
  induction l1 as [|y l1 IH]; simpl; [now left|].
  right. apply in_map_iff. exists (x, (l1 ++ l2)%list). auto.
Qed.

Lemma permutations_go_complete {A} (n : nat) (l p : list A) :
  length l = n -> Permutation p l -> In p (permutations_go n l).
Proof.
  revert l p. induction n as [|n IH]; intros l p Hlen Hperm.
  - destruct l; [|discriminate].
    symmetry in Hperm. apply Permutation_nil in Hperm. subst. now left.
  - destruct p as [|x p].
    { apply Permutation_length in Hperm. simpl in Hperm. lia. }
    assert (Hx : In x l) by (eapply Permutation_in; [exact Hperm|now left]).
    apply in_split in Hx as (l1 & l2 & ->).
    apply Permutation_cons_app_inv in Hperm.
    cbn [permutations_go]. apply in_flat_map.
    exists (x, (l1 ++ l2)%list). split; [apply selections_complete|].
    simpl. apply in_map. apply IH; [|exact Hperm].
    rewrite length_app in *. simpl in Hlen. lia.
Qed.

Lemma drawn_from_in_product (entity_ids : list (list string))
    (sel : list (string * Z)) :
  drawn_from entity_ids sel ->
  In sel (product (map (ranked_from 0) entity_ids)).
Proof.
  intros Hsel. apply product_complete. unfold drawn_from in Hsel.
  induction Hsel as [|[e r] l sel ls [Hr Hl] _ IH]; simpl; constructor;
    [|exact IH].
  simpl in Hr, Hl. apply (ranked_from_complete l 0) in Hl.
  now replace (0 + Z.of_nat (Z.to_nat r)) with r in Hl by lia.
Qed.

(** No combination is missing: every way to take one candidate per slot,
    with the positions of the candidates as ranks, is among the
    combinations of [make_combs], and with [permut] so is each of its
    reorderings. *)
Theorem make_combs_complete (entity_ids : list (list string)) (permut : bool)
    (sel sel0 : list (string * Z)) :
  drawn_from entity_ids sel0 ->
  (if permut then Permutation sel sel0 else sel = sel0) ->
  In (map (fun er => PStr er.1) sel ++ [PInt (rank_sum sel)])%list
     (make_combs entity_ids permut).
Proof.
  intros Hdrawn Hsel. unfold make_combs.
  apply (in_map (fun comb => (map (fun elem => PStr elem.1) comb
                              ++ [PInt (rank_sum comb)])%list)).
  eapply Permutation_in; [symmetry; apply sorted_by_perm|].
  apply drawn_from_in_product in Hdrawn.
  destruct permut.
  - apply in_flat_map. exists sel0. split; [exact Hdrawn|].
    now apply permutations_go_complete.
  - now subst.
Qed.

Lemma make_combs_complete_witness :
  In [PStr "T7"; PStr "Q2"; PInt 1]
     (make_combs [["Q1"; "Q2"]; ["T7"]] true).
Proof.
  apply (make_combs_complete [["Q1"; "Q2"]; ["T7"]] true
           [("T7", 0); ("Q2", 1)] [("Q2", 1); ("T7", 0)]).
  - repeat constructor; simpl; lia.
  - apply perm_swap.
Defined.

Lemma product_head {A} (ls : list (list A)) (xs : list A) :
  Forall2 (fun l x => head l = Some x) ls xs ->
  head (product ls) = Some xs.
Proof.
  induction 1 as [|l x ls xs Hl _ IH]; simpl; [reflexivity|].
  destruct l as [|y l]; [discriminate|]. simpl in Hl. injection Hl as ->.
  simpl. destruct (product ls) as [|c cs]; [discriminate|].
  simpl in *. congruence.
Qed.

Lemma permutations_go_head {A} (n : nat) (l : list A) :
  length l = n -> head (permutations_go n l) = Some l.
Proof.
  revert l. induction n as [|n IH]; intros l Hlen.
  - now destruct l.
  - destruct l as [|x l]; [discriminate|]. cbn [permutations_go selections].
    simpl. specialize (IH l ltac:(simpl in Hlen; lia)).
    destruct (permutations_go n l) as [|c cs]; [discriminate|].
    simpl in *. congruence.
Qed.

Lemma sorted_by_head_min {A} (key : A -> Z) (x : A) (l : list A) :
  (forall y, In y l -> key x <= key y) ->
  sorted_by Z.leb key (x :: l) = x :: sorted_by Z.leb key l.
Proof.
  intros Hmin. simpl.
  pose proof (sorted_by_perm key l) as Hperm.
  destruct (sorted_by Z.leb key l) as [|y s]; [reflexivity|]. simpl.
  assert (Hy : In y l) by (eapply Permutation_in; [exact Hperm|now left]).
  apply Hmin in Hy. now rewrite (proj2 (Z.leb_le _ _) Hy).
Qed.

Lemma rank_sum_nonneg {A} (sel : list (A * Z)) :
  Forall (fun er => 0 <= er.2) sel -> 0 <= rank_sum sel.
Proof.
  unfold rank_sum. induction 1 as [|er sel Her _ IH]; simpl; lia.
Qed.

Lemma ranked_nonneg (entity_ids : list (list string)) (sel : list (string * Z)) :
  In sel (product (map (ranked_from 0) entity_ids)) ->
  Forall (fun er => 0 <= er.2) sel.
Proof.
  intros Hin. apply drawn_from_product in Hin. unfold drawn_from in Hin.
  induction Hin as [|er l sel ls [Hr _] _ IH]; constructor; auto.
Qed.

(** The first combination is the one of the top candidates: when every
    slot has a candidate, [make_combs] starts with the first candidate of
    every slot, in slot order, and the aggregate rank 0. *)
Theorem make_combs_head (entity_ids : list (list string)) (permut : bool)
    (tops : list string) :
  Forall2 (fun l top => head l = Some top) entity_ids tops ->
  head (make_combs entity_ids permut)
  = Some (map PStr tops ++ [PInt 0])%list.
Proof.
  intros Htops. unfold make_combs.
  set (top := map (fun t : string => (t, 0)) tops).
  assert (Hhead : head (product (map (ranked_from 0) entity_ids)) = Some top).
  { apply product_head. subst top.
    induction Htops as [|l t ls ts Hl _ IH]; simpl; constructor; [|exact IH].
    destruct l; [discriminate|]. simpl in *. congruence. }
  assert (Hzero : rank_sum top = 0).
  { subst top. unfold rank_sum. clear.
    induction tops as [|t tops IH]; simpl; lia. }
  assert (Hrender : (map (fun elem : string * Z => PStr elem.1) top
                     ++ [PInt (rank_sum top)])%list
                    = (map PStr tops ++ [PInt 0])%list).
  { rewrite Hzero. subst top. now rewrite map_map. }
  destruct (product (map (ranked_from 0) entity_ids)) as [|c cs] eqn:Hprod;
    [discriminate|].
  simpl in Hhead. injection Hhead as ->.
  assert (Hnonneg : forall sel, In sel (top :: cs) -> 0 <= rank_sum sel).
  { intros sel Hin. apply rank_sum_nonneg, (ranked_nonneg entity_ids).
    now rewrite Hprod. }
  destruct permut.
  - cbn [flat_map].
    pose proof (permutations_go_head (length top) top eq_refl) as Hp.
    unfold permutations at 1.
    destruct (permutations_go (length top) top) as [|q qs] eqn:Hperms;
      [discriminate|].
    simpl in Hp. injection Hp as ->.
    rewrite <- app_comm_cons, sorted_by_head_min.
    + simpl. now rewrite Hrender.
    + intros y Hy. rewrite Hzero.
      assert (Hy' : In y (flat_map permutations (top :: cs))).
      { cbn [flat_map]. unfold permutations at 1. rewrite Hperms.
        now right. }
      apply in_flat_map in Hy' as (sel & Hsel & Hperm).
      apply permutations_perm in Hperm.
      apply rank_sum_nonneg.
      eapply Permutation_Forall; [symmetry; exact Hperm|].
      apply (ranked_nonneg entity_ids). now rewrite Hprod.
  - rewrite sorted_by_head_min.
    + simpl. now rewrite Hrender.
    + intros y Hy. rewrite Hzero. apply Hnonneg. now right.
Qed.

Lemma make_combs_head_witness :
  head (make_combs [["Q1"; "Q2"]; ["Q7"; "Q8"; "Q9"]] true)
  = Some [PStr "Q1"; PStr "Q7"; PInt 0].
Proof.
  apply (make_combs_head [["Q1"; "Q2"]; ["Q7"; "Q8"; "Q9"]] true ["Q1"; "Q7"]).
  repeat constructor.
Defined.

(** ** utils.extract_number and utils.asc_desc *)

Lemma lstrip_first (s chars : string) (c : ascii) :
  String.get 0 (Py.lstrip s chars) = Some c -> Py.mem_char c chars = false.
Proof.
  induction s as [|d s IH]; simpl; [discriminate|].
  destruct (Py.mem_char d chars) eqn:Hd; [exact IH|].
  simpl. now intros [= <-].
Qed.

Lemma rstrip_first (s chars : string) (c : ascii) :
  String.get 0 (Py.rstrip s chars) = Some c -> String.get 0 s = Some c.
Proof.
  destruct s as [|d s]; simpl; [discriminate|].
  destruct (Py.rstrip s chars); [destruct (Py.mem_char d chars)|];
    simpl; auto; discriminate.
Qed.

Lemma rstrip_last (s chars : string) (c : ascii) :
  String.get (String.length (Py.rstrip s chars) - 1) (Py.rstrip s chars) = Some c ->
  Py.mem_char c chars = false.
Proof.
  induction s as [|d s IH]; simpl; [discriminate|].
  destruct (Py.rstrip s chars) as [|e r] eqn:Hr.
  - destruct (Py.mem_char d chars) eqn:Hd; simpl; [discriminate|].
    now intros [= <-].
  - simpl. simpl in IH. now rewrite Nat.sub_0_r in *.
Qed.

(** Whatever [extract_number] returns neither starts nor ends with a
    dot or with the digit 0: [strip] takes all of them off both ends. *)
Theorem extract_number_stripped (question_tokens : list string)
    (question number : string) (c : ascii) :
  extract_number question_tokens question = Ok number ->
  String.get 0 number = Some c
  \/ String.get (String.length number - 1) number = Some c ->
  c <> "."%char /\ c <> "0"%char.
Proof.
  unfold extract_number. intros H. rbind_inv H. injection H as <-.
  unfold normalize_number, Py.strip. intros Hc.
  assert (Hmem : Py.mem_char c ".0" = false).
  { destruct Hc as [Hc|Hc].
    - apply rstrip_first in Hc. now apply lstrip_first in Hc.
    - now apply rstrip_last in Hc. }
  split; intros ->; discriminate Hmem.
Qed.

Lemma extract_number_stripped_witness :
  "5"%char <> "."%char /\ "5"%char <> "0"%char.
Proof.
  apply (extract_number_stripped ["0.50"; "litres"] "0.50 litres" "5" "5").
  - vm_compute. reflexivity.
  - left. reflexivity.
Defined.

Lemma first_digit_token_raise (tokens : list string) (e : exn) :
  first_digit_token tokens = Raise e -> e = IndexError /\ In "" tokens.
Proof.
  induction tokens as [|tok tokens IH]; simpl; [discriminate|].
  destruct tok as [|c tok]; simpl.
  - intros [= <-]. auto.
  - destruct (Py.is_digit c); simpl; [discriminate|].
    intros H. apply IH in H as [-> Hin]. auto.
Qed.

(** [extract_number] fails in one way only: with [IndexError], on [tok[0]]
    of an empty token.  A question that holds a number in scientific
    notation never reaches the tokens. *)
Theorem extract_number_raises_on_empty_token (question_tokens : list string)
    (question : string) (e : exn) :
  extract_number question_tokens question = Raise e ->
  e = IndexError /\ In "" question_tokens
  /\ Re.search number_pattern question = None.
Proof.
  unfold extract_number.
  destruct (Re.search number_pattern question); simpl; [discriminate|].
  destruct (first_digit_token question_tokens) eqn:Hfirst; simpl;
    [discriminate|].
  intros [= <-]. apply first_digit_token_raise in Hfirst as [-> Hin]. auto.
Qed.

Lemma extract_number_raises_on_empty_token_witness :
  IndexError = IndexError /\ In "" ["about"; ""; "7"]
  /\ Re.search number_pattern "about  7" = None.
Proof.
  apply (extract_number_raises_on_empty_token ["about"; ""; "7"] "about  7").
  vm_compute. reflexivity.
Defined.

Lemma lower_app (a b : string) : Py.lower (a ++ b) = Py.lower a ++ Py.lower b.
Proof. induction a as [|c a IH]; simpl; [reflexivity|]. now rewrite IH. Qed.

Lemma prefix_app (w b : string) : String.prefix w (w ++ b) = true.
Proof.
  induction w as [|c w IH]; simpl; [now destruct b|].
  destruct (ascii_dec c c); [exact IH|congruence].
Qed.

Lemma contains_prefix (s w : string) :
  String.prefix w s = true -> Py.contains s w = true.
Proof. intros H. destruct s; cbn [Py.contains]; now rewrite H. Qed.

Lemma contains_app (a w b : string) : Py.contains (a ++ w ++ b) w = true.
Proof.
  induction a as [|c a IH].
  - change ("" ++ w ++ b) with (w ++ b). apply contains_prefix, prefix_app.
  - change (String c a ++ w ++ b) with (String c (a ++ w ++ b)).
    change (Py.contains (String c (a ++ w ++ b)) w)
      with (String.prefix w (String c (a ++ w ++ b))
            || Py.contains (a ++ w ++ b) w).
    rewrite IH. apply orb_true_r.
Qed.

(** A question that holds one of the superlative words of [max_words],
    in whatever letter case, is a descending one. *)
Theorem asc_desc_superlative (pre mid post word : string) :
  In word max_words -> Py.lower mid = word ->
  asc_desc (pre ++ mid ++ post) = false.
Proof.
  intros Hword Hmid. unfold asc_desc.
  rewrite !lower_app, Hmid.
  apply negb_false_iff, existsb_exists.
  exists word. split; [exact Hword|apply contains_app].
Qed.

Lemma asc_desc_superlative_witness :
  asc_desc ("what is the " ++ "HIGHEST" ++ " mountain") = false.
Proof.
  apply (asc_desc_superlative _ _ _ "highest"); [|reflexivity].
  simpl. auto.
Defined.

(** ** WikiParser.__call__ beyond the empty join *)

Lemma rmap_ok_map {A B} (f : A -> result B) (g : A -> B) (l : list A) :
  (forall x, In x l -> f x = Ok (g x)) -> rmap f l = Ok (map g l).
Proof.
  induction l as [|x l IH]; simpl; intros Hf; [reflexivity|].
  rewrite Hf, IH by auto. reflexivity.
Qed.

Section WikiParserMore.

Context (search_join : list (list (list string)) -> list (list (string * string))).
Context (search_triples :
  string -> string -> string -> list (string * string * string) * nat).
Context (float : Type) (float_of_str : string -> option float).
Context (float_leb : float -> float -> bool).

Local Abbreviation WikiParser_call :=
  (WikiParser_call search_join float float_of_str float_leb).

Lemma known_elem_bound (comb0 : gmap string string) (elems : list string)
    (init : option string) (e : string) :
  (forall e', init = Some e' -> is_Some (comb0 !! e')) ->
  foldl (fun known elem =>
           if bool_decide (is_Some (comb0 !! elem)) then Some elem else known)
        init elems = Some e ->
  is_Some (comb0 !! e).
Proof.
  revert init. induction elems as [|x elems IH]; simpl; intros init Hinit.
  - apply Hinit.
  - apply IH. intros e'. case_bool_decide as Hx; [|apply Hinit].
    now intros [= <-].
Qed.

Lemma unknown_stage_raises (unknown_query_triplets : list clause)
    (combs : list (gmap string string)) :
  unknown_query_triplets <> [] -> combs <> [] ->
  exists name,
    unknown_stage unknown_query_triplets combs = Raise (UnboundLocalError name).
Proof.
  intros Hu Hc. unfold unknown_stage.
  destruct unknown_query_triplets as [|first rest]; [congruence|].
  destruct combs as [|comb0 combs]; [congruence|].
  cbn [Py.item lookup list_lookup rbind].
  destruct (foldl _ None (clause_iter first)) as [e|] eqn:Hfold;
    cbn [rbind]; [|eauto].
  apply known_elem_bound in Hfold as [v Hv]; [|discriminate].
  unfold getitem. rewrite Hv. cbn [rbind]. eauto.
Qed.

(** The stage of the unknown triplets never completes.  As soon as the
    join has a row and [unknown_query_triplets] is not empty, the call
    raises [UnboundLocalError]: line 50 reads [unknown_query_triplet]
    before anything assigns it (or, before that, [known_elem]). *)
Theorem call_unknown_triplets_raises (what_return : list string)
    (query : list (list (list string)))
    (unknown_query_triplets : list clause)
    (filter_entities order : option (list clause)) :
  search_join query <> [] -> unknown_query_triplets <> [] ->
  exists name,
    WikiParser_call what_return query unknown_query_triplets filter_entities
      order = Raise (UnboundLocalError name).
Proof.
  intros Hjoin Hu. unfold WikiParser.WikiParser_call.
  destruct (search_join query) as [|row rows]; [congruence|].
  destruct unknown_query_triplets as [|u us] eqn:Heq; [congruence|].
  cbn [map is_nonempty].
  destruct (unknown_stage_raises (u :: us) (dict row :: map dict rows))
    as [name ->]; [discriminate..|].
  cbn [rbind]. eauto.
Qed.

Lemma project_ok (keys : list string) (row : list (string * string)) :
  Forall (fun key => is_Some (dict row !! key)) keys ->
  rmap (fun key => let* v := getitem (dict row) key in Ok (PStr v)) keys
  = Ok (project keys row).
Proof.
  intros Hkeys. apply rmap_ok_map. intros key Hin.
  rewrite Forall_forall in Hkeys.
  destruct (Hkeys key) as [v Hv]; [now apply list_elem_of_In|].
  unfold getitem. now rewrite Hv.
Qed.

Lemma project_rows_ok (keys : list string) (rows : list (list (string * string))) :
  Forall (fun row => Forall (fun key => is_Some (dict row !! key)) keys) rows ->
  rmap (fun elem =>
          rmap (fun key => let* v := getitem elem key in Ok (PStr v)) keys)
       (map dict rows)
  = Ok (map (project keys) rows).
Proof.
  induction 1 as [|row rows Hrow _ IH]; [reflexivity|].
  cbn [map rmap]. rewrite (project_ok keys row Hrow). cbn [rbind].
  rewrite IH. reflexivity.
Qed.

(** Without unknown triplets, filters, ordering and COUNT, the call
    returns one output per row of the join, in the order of the join:
    the values that the row binds to the names of [what_return]. *)
Theorem call_plain_rows (what_return : list string)
    (query : list (list (list string)))
    (filter_entities order : option (list clause)) (last_name : string) :
  truthy filter_entities = false -> truthy order = false ->
  last what_return = Some last_name ->
  Py.startswith last_name "COUNT" = false ->
  Forall (fun row => Forall (fun key => is_Some (dict row !! key)) what_return)
         (search_join query) ->
  WikiParser_call what_return query [] filter_entities order
  = Ok (map (project what_return) (search_join query)).
Proof.
  intros Hf Ho Hlast Hcount Hrows. unfold WikiParser.WikiParser_call.
  destruct (search_join query) as [|row rows]; [reflexivity|].
  cbn [map is_nonempty rbind]. rewrite Hf, Ho. cbn [rbind].
  unfold output_stage, Py.last_item. rewrite Hlast. cbn [rbind].
  rewrite Hcount. cbn [negb].
  exact (project_rows_ok what_return (row :: rows) Hrows).
Qed.

(** With a COUNT as last name of [what_return] (and no unknown triplets,
    filters or ordering), a join with rows gives exactly one output: the
    values of the other names in the FIRST row, followed by the number of
    rows. *)
Theorem call_count_rows (what_return : list string)
    (query : list (list (list string)))
    (filter_entities order : option (list clause)) (last_name : string)
    (row : list (string * string)) (rows : list (list (string * string))) :
  truthy filter_entities = false -> truthy order = false ->
  last what_return = Some last_name ->
  Py.startswith last_name "COUNT" = true ->
  search_join query = row :: rows ->
  Forall (fun key => is_Some (dict row !! key)) (Py.but_last what_return) ->
  WikiParser_call what_return query [] filter_entities order
  = Ok [(project (Py.but_last what_return) row
         ++ [PInt (Z.of_nat (S (length rows)))])%list].
Proof.
  intros Hf Ho Hlast Hcount Hjoin Hrow. unfold WikiParser.WikiParser_call.
  rewrite Hjoin. cbn [map is_nonempty rbind]. rewrite Hf, Ho. cbn [rbind].
  unfold output_stage, Py.last_item. rewrite Hlast. cbn [rbind].
  rewrite Hcount. cbn [negb Py.item lookup list_lookup rbind].
  rewrite (project_ok _ row Hrow). cbn [rbind length].
  now rewrite length_map.
Qed.


(** Sorting with the order of the floats: total and transitive. *)
Section FloatOrder.

Context {A : Type} (key : A -> float).
Hypothesis leb_total : forall a b, float_leb a b = true \/ float_leb b a = true.
Hypothesis leb_trans :
  forall a b c, float_leb a b = true -> float_leb b c = true ->
                float_leb a c = true.

Local Abbreviation le := (key_le float_leb key).

Lemma insert_float_perm (x : A) (l : list A) :
  Permutation (insert_by float_leb key x l) (x :: l).
Proof.
  induction l as [|y l IH]; simpl; [reflexivity|].
  destruct (float_leb (key x) (key y)); [reflexivity|].
  rewrite IH. apply perm_swap.
Qed.

Lemma sorted_float_perm (l : list A) :
  Permutation (sorted_by float_leb key l) l.
Proof.
  induction l as [|x l IH]; simpl; [reflexivity|].
  rewrite insert_float_perm. now apply perm_skip.
Qed.

Lemma insert_float_sorted (x : A) (l : list A) :
  StronglySorted le l -> StronglySorted le (insert_by float_leb key x l).
Proof.
  induction 1 as [|y l Hl IH Hy]; simpl.
  - repeat constructor.
  - destruct (float_leb (key x) (key y)) eqn:Hxy.
    + constructor; [now constructor|].
      constructor; [exact Hxy|].
      eapply Forall_impl; [exact Hy|]. intros z Hz. unfold key_le in *.
      eapply leb_trans; eassumption.
    + constructor; [exact IH|].
      eapply Permutation_Forall; [symmetry; apply insert_float_perm|].
      constructor; [|exact Hy]. unfold key_le.
      destruct (leb_total (key x) (key y)); congruence.
Qed.

Lemma sorted_float_sorted (l : list A) :
  StronglySorted le (sorted_by float_leb key l).
Proof.
  induction l as [|x l IH]; simpl; [constructor|].
  now apply insert_float_sorted.
Qed.

Lemma le_refl (x : A) : le x x.
Proof. unfold key_le. now destruct (leb_total (key x) (key x)). Qed.

Lemma sorted_first_least (b : A) (l : list A) :
  StronglySorted le (b :: l) -> Forall (le b) (b :: l).
Proof.
  intros Hs. apply StronglySorted_inv in Hs as [_ Hall].
  constructor; [apply le_refl|exact Hall].
Qed.

Lemma sorted_last_greatest (l : list A) (b : A) :
  StronglySorted le (l ++ [b]) -> Forall (fun y => le y b) (l ++ [b]).
Proof.
  induction l as [|x l IH]; simpl; intros Hs.
  - repeat constructor. apply le_refl.
  - apply StronglySorted_inv in Hs as [Hs Hall].
    constructor; [|now apply IH].
    rewrite Forall_forall in Hall. apply Hall.
    apply list_elem_of_In, in_or_app. right. now left.
Qed.

(** The element that lines 66-71 keep: the first of the sorted list, that
    is a least one, or with [reverse] a greatest one. *)
Lemma sorted_best (reverse : bool) (l : list A) :
  l <> [] ->
  exists best,
    (if reverse then rev (sorted_by float_leb key (rev l))
     else sorted_by float_leb key l) !! 0%nat = Some best
    /\ In best l
    /\ Forall (fun y => if reverse then le y best else le best y) l.
Proof.
  intros Hne. destruct reverse.
  - pose proof (sorted_float_perm (rev l)) as Hperm.
    pose proof (sorted_float_sorted (rev l)) as Hsorted.
    destruct (sorted_by float_leb key (rev l)) as [|x s] eqn:Hs
      using rev_ind.
    + apply Permutation_nil in Hperm. apply (f_equal (@rev A)) in Hperm.
      rewrite rev_involutive in Hperm. simpl in Hperm. congruence.
    + clear IHs. exists x. rewrite rev_app_distr. simpl.
      split; [reflexivity|].
      assert (Hall : Permutation (s ++ [x]) l).
      { rewrite Hperm. symmetry. apply Permutation_rev. }
      split.
      * eapply Permutation_in; [exact Hall|]. apply in_or_app. right. now left.
      * eapply Permutation_Forall; [exact Hall|].
        now apply sorted_last_greatest.
  - pose proof (sorted_float_perm l) as Hperm.
    pose proof (sorted_float_sorted l) as Hsorted.
    destruct (sorted_by float_leb key l) as [|x s] eqn:Hs.
    + apply Permutation_nil in Hperm. congruence.
    + exists x. split; [reflexivity|]. split.
      * eapply Permutation_in; [exact Hperm|]. now left.
      * eapply Permutation_Forall; [exact Hperm|].
        now apply sorted_first_least.
Qed.

End FloatOrder.

End WikiParserMore.

Section WikiParserOrder.

Context (search_join : list (list (list string)) -> list (list (string * string))).
Context (float : Type) (float_of_str : string -> option float).
Context (float_leb : float -> float -> bool).

Local Abbreviation WikiParser_call :=
  (WikiParser_call search_join float float_of_str float_leb).
Local Abbreviation sort_key := (sort_key float float_of_str).

(** With an [order] (and no unknown triplets or filters), the call keeps
    one row of the join only: one whose sort key is least, or greatest
    when the direction is DESC.  [rk] pairs every row with its key. *)
Theorem call_ordered_row
    (what_return : list string) (query : list (list (list string)))
    (filter_entities : option (list clause)) (direction sort_elem : string)
    (more : list clause) (rk : list (list (string * string) * float))
    (last_name : string) :
  (forall a b, float_leb a b = true \/ float_leb b a = true) ->
  (forall a b c, float_leb a b = true -> float_leb b c = true ->
                 float_leb a c = true) ->
  truthy filter_entities = false ->
  search_join query = map fst rk -> rk <> [] ->
  Forall (fun p => sort_key sort_elem (dict p.1) = Ok p.2) rk ->
  last what_return = Some last_name ->
  Py.startswith last_name "COUNT" = false ->
  Forall (fun p => Forall (fun key => is_Some (dict p.1 !! key)) what_return) rk ->
  exists best,
    In best rk
    /\ WikiParser_call what_return query [] filter_entities
         (Some (CPair direction sort_elem :: more))
       = Ok [project what_return best.1]
    /\ Forall (fun p => if String.eqb direction "DESC"
                        then float_leb p.2 best.2 = true
                        else float_leb best.2 p.2 = true) rk.
Proof.
  intros Htotal Htrans Hf Hjoin Hne Hkeys Hlast Hcount Hbound.
  set (keyed := map (fun p : list (string * string) * float => (p.2, dict p.1)) rk).
  assert (Hkeyed : rmap (fun x => let* k := sort_key sort_elem x in Ok (k, x))
                        (map dict (map fst rk)) = Ok keyed).
  { subst keyed. clear -Hkeys.
    induction Hkeys as [|p rk Hp _ IH]; [reflexivity|].
    cbn [map rmap]. rewrite Hp. cbn [rbind]. rewrite IH. reflexivity. }
  destruct (sorted_best float float_leb (@fst float (gmap string string))
              Htotal Htrans (String.eqb direction "DESC") keyed)
    as (best' & Hbest & Hin & Hall).
  { subst keyed. destruct rk; [congruence|discriminate]. }
  subst keyed. apply in_map_iff in Hin as (best & <- & Hin).
  exists best. split; [exact Hin|]. split.
  - unfold WikiParser.WikiParser_call. rewrite Hjoin.
    destruct rk as [|p0 rk']; [congruence|].
    cbn [map is_nonempty rbind]. rewrite Hf. cbn [rbind truthy default].
    unfold order_stage. cbv [default from_option id].
    cbn [Py.item lookup list_lookup rbind clause_item].
    change (dict p0.1 :: map dict (map fst rk'))
      with (map dict (map fst (p0 :: rk'))).
    rewrite Hkeyed. cbn [rbind].
    unfold Py.item at 1. rewrite Hbest. cbn [rbind snd].
    unfold output_stage, Py.last_item. rewrite Hlast. cbn [rbind].
    rewrite Hcount. cbn [negb rmap].
    rewrite Forall_forall in Hbound.
    rewrite (project_ok what_return best.1)
      by (apply Hbound; now apply list_elem_of_In).
    reflexivity.
  - rewrite Forall_map in Hall. eapply Forall_impl; [exact Hall|].
    intros p Hp. simpl in Hp. unfold key_le in Hp. simpl in Hp.
    destruct (String.eqb direction "DESC"); exact Hp.
Qed.

End WikiParserOrder.

(** ** WikiParser.find_alias and WikiParser.find_rels *)

Lemma string_app_assoc (a b c : string) : (a ++ b) ++ c = a ++ (b ++ c).
Proof.
  induction a as [|d a IH]; [reflexivity|].
  change (String d ((a ++ b) ++ c) = String d (a ++ (b ++ c))). congruence.
Qed.

Lemma rstrip_app (a b chars : string) :
  Py.rstrip (a ++ b) chars
  = match Py.rstrip b chars with
    | EmptyString => Py.rstrip a chars
    | r => a ++ r
    end.
Proof.
  induction a as [|d a IH].
  - change ("" ++ b) with b. now destruct (Py.rstrip b chars).
  - change (String d a ++ b) with (String d (a ++ b)).
    cbn [Py.rstrip]. rewrite IH.
    destruct (Py.rstrip b chars) as [|e r]; [reflexivity|].
    now destruct a.
Qed.

(** The code point of the double quote. *)
Local Abbreviation dquote := (ascii_of_nat 34).

Lemma rstrip_unquoted (body : string) :
  Py.mem_char dquote body = false -> Py.rstrip body quote = body.
Proof.
  induction body as [|d body IH]; [reflexivity|].
  cbn [Py.mem_char]. intros H. apply orb_false_iff in H as [Hd Hbody].
  cbn [Py.rstrip]. rewrite (IH Hbody).
  destruct body; [|reflexivity].
  unfold quote. cbn [Py.mem_char]. rewrite Ascii.eqb_sym, Hd. reflexivity.
Qed.

Lemma strip_english_literal (body : string) :
  Py.mem_char dquote body = false ->
  Py.strip (Py.strip (quote ++ body ++ quote ++ "@en") "@en") quote = body.
Proof.
  intros Hbody. unfold Py.strip.
  assert (H1 : Py.rstrip (Py.lstrip (quote ++ body ++ quote ++ "@en") "@en") "@en"
               = quote ++ body ++ quote).
  { change (Py.lstrip (quote ++ body ++ quote ++ "@en") "@en")
      with (quote ++ body ++ quote ++ "@en").
    rewrite <- (string_app_assoc body quote "@en").
    rewrite <- (string_app_assoc quote (body ++ quote) "@en").
    rewrite rstrip_app.
    change (Py.rstrip "@en" "@en") with "".
    cbv iota. rewrite <- (string_app_assoc quote body quote).
    rewrite rstrip_app.
    change (Py.rstrip quote "@en") with (String dquote "").
    cbv iota. apply string_app_assoc. }
  rewrite H1.
  change (Py.lstrip (quote ++ body ++ quote) quote)
    with (Py.lstrip (body ++ quote) quote).
  destruct body as [|d body]; [reflexivity|].
  cbn [Py.mem_char] in Hbody. apply orb_false_iff in Hbody as [Hd Hrest].
  assert (Hl : Py.lstrip (String d body ++ quote) quote = String d body ++ quote).
  { change (String d body ++ quote) with (String d (body ++ quote)).
    cbn [Py.lstrip]. unfold quote at 1.
    cbn [Py.mem_char]. now rewrite Ascii.eqb_sym, Hd. }
  rewrite Hl, rstrip_app.
  change (Py.rstrip quote quote) with "".
  apply rstrip_unquoted. cbn [Py.mem_char]. now rewrite Hd, Hrest.
Qed.

Section WikiParserLabels.

Context (search_triples :
  string -> string -> string -> list (string * string * string) * nat).

(** For an entity URI, [find_alias] returns the alternative labels of the
    store that carry the tag of English, in the order of the store and
    without quotes and tag: stripping the characters of the tag is safe
    because a literal ends with its closing quote.  The labels of other
    languages are left out. *)
Theorem find_alias_english (entity : string)
    (labels : list (string * string * string)) (bodies : list string) :
  Py.startswith entity entity_prefix = true ->
  (search_triples entity alias_predicate "").1 = labels ->
  Forall2 (fun label body =>
             label.2 = quote ++ body ++ quote ++ "@en"
             /\ Py.mem_char dquote body = false)
          (filter (fun label => Is_true (Py.endswith label.2 "@en")) labels)
          bodies ->
  find_alias search_triples entity = bodies.
Proof.
  intros Hentity Hlabels Hbodies. unfold find_alias. rewrite Hentity.
  destruct (search_triples entity alias_predicate "") as [labels' cardinality].
  simpl in Hlabels. subst labels'.
  induction Hbodies as [|label body ls bs [Hlabel Hbody] _ IH];
    [reflexivity|].
  cbn [map]. rewrite Hlabel, (strip_english_literal body Hbody).
  now rewrite IH.
Qed.

(** Every relation that [find_rels] returns is the predicate of a triple
    of the store and lies in the namespace asked for: the properties
    [.../prop/P...] by default, [.../prop/<rel_type>...] otherwise. *)
Theorem find_rels_namespace (entity direction : string)
    (rel_type : option string) (rel : string) :
  In rel (find_rels search_triples entity direction rel_type) ->
  Py.startswith rel ("http://www.wikidata.org/prop/" ++ default "P" rel_type)
  = true
  /\ exists s o,
       In (s, rel, o)
          (if String.eqb direction "forw"
           then search_triples (entity_prefix ++ entity) "" ""
           else search_triples "" "" (entity_prefix ++ entity)).1.
Proof.
  unfold find_rels.
  destruct (if String.eqb direction "forw" then _ else _) as [triplets num].
  intros Hin. apply in_map_iff in Hin as ([[s p] o] & <- & Hin).
  apply list_elem_of_In, list_elem_of_filter in Hin as [Hstart Hin].
  apply list_elem_of_In in Hin. simpl in *.
  split; [|eauto].
  apply Is_true_true in Hstart. now destruct rel_type.
Qed.

End WikiParserLabels.

(** ** QueryGenerator: the relations to rank, the search loop, the errors *)

Lemma upto_idempotent {A} (l : list A) (k : Z) :
  0 <= k -> Py.upto (Py.upto l k) k = Py.upto l k.
Proof.
  intros Hk. unfold Py.upto, Py.slice_bound.
  rewrite length_firstn.
  destruct (k <? 0) eqn:Hneg; [lia|].
  rewrite firstn_firstn. f_equal. lia.
Qed.

Lemma flat_map_map {A B C} (f : B -> list C) (g : A -> B) (l : list A) :
  flat_map f (map g l) = flat_map (fun x => f (g x)) l.
Proof. induction l as [|x l IH]; simpl; congruence. Qed.

Lemma product3_nil_l {A B C} (b : list B) (c : list C) :
  product3 (@nil A) b c = [].
Proof. reflexivity. Qed.

Lemma product3_nil_m {A B C} (a : list A) (c : list C) :
  product3 a (@nil B) c = [].
Proof. unfold product3. induction a; simpl; auto. Qed.

Section QueryGeneratorMore.

Context (search_join : list (list (list string)) -> list (list (string * string))).
Context (search_triples :
  string -> string -> string -> list (string * string * string) * nat).
Context (float : Type) (float_of_str : string -> option float).
Context (float_leb : float -> float -> bool).
Context (word_tokenize : string -> list string).
Context (list_of_set : list string -> list string).
Context (confidence score : Type).

Local Abbreviation generator := (generator confidence score).
Local Abbreviation template_queries := (template_queries confidence score).
Local Abbreviation template_num := (template_num confidence score).
Local Abbreviation entities_to_leave := (entities_to_leave confidence score).
Local Abbreviation find_top_rels :=
  (find_top_rels search_triples list_of_set confidence score).
Local Abbreviation get_entity_ids := (get_entity_ids confidence score).
Local Abbreviation prepare :=
  (prepare search_triples word_tokenize list_of_set confidence score).
Local Abbreviation search_loop :=
  (search_loop search_join float float_of_str float_leb).
Local Abbreviation run_call := (run_call search_join float float_of_str float_leb).
Local Abbreviation query_parser_traced :=
  (query_parser_traced search_join search_triples float float_of_str float_leb
     word_tokenize list_of_set confidence score).
Local Abbreviation query_parser :=
  (query_parser search_join search_triples float float_of_str float_leb
     word_tokenize list_of_set confidence score).
Local Abbreviation find_candidate_answers :=
  (find_candidate_answers search_join search_triples float float_of_str
     float_leb word_tokenize list_of_set confidence score).

(** Only the first [entities_to_leave] candidates of every slot have a
    part in the relations that [find_top_rels] hands to the ranker: the
    candidates after them can be dropped without any change. *)
Theorem find_top_rels_top_candidates (self : generator) (question : string)
    (entity_ids : list (list string)) (triplet_direction : string * Z) :
  0 <= entities_to_leave self ->
  find_top_rels self question
    (map (fun entity_id => Py.upto entity_id (entities_to_leave self)) entity_ids)
    triplet_direction
  = find_top_rels self question entity_ids triplet_direction.
Proof.
  intros Hk. unfold QueryGenerator.find_top_rels.
  rewrite flat_map_map.
  erewrite (flat_map_ext _ (fun entity_id =>
              flat_map (fun entity => find_rels search_triples entity
                                                triplet_direction.1 None)
                       (Py.upto entity_id (entities_to_leave self)))).
  - reflexivity.
  - intros entity_id. now rewrite upto_idempotent.
Qed.

(** With any other kind of mention than the two that the linkers know,
    [get_entity_ids] raises on the first mention: [entity_id] is never
    assigned.  Without mentions it returns the empty list. *)
Theorem get_entity_ids_unknown_kind (self : generator) (entity : string)
    (entities : list string) (what_to_link : string) :
  what_to_link <> "entities" -> what_to_link <> "types" ->
  get_entity_ids self (entity :: entities) what_to_link
  = Raise (UnboundLocalError "entity_id")
  /\ get_entity_ids self [] what_to_link = Ok [].
Proof.
  intros He Ht. split; [|reflexivity].
  unfold QueryGenerator.get_entity_ids. cbn [rmap]. unfold link_one.
  apply String.eqb_neq in He, Ht. now rewrite He, Ht.
Qed.

Lemma prepare_empty_slot (self : generator) (question : string)
    (query_info : template) (entity_ids type_ids : list (list string))
    (rels_from_template : option (list (list string))) (p : prepared) :
  prepare self question query_info entity_ids type_ids rels_from_template = Ok p ->
  In [] entity_ids \/ In [] type_ids ->
  p_combs p = [].
Proof.
  intros Hprep Hslot.
  destruct (prepare_fields _ _ _ _ _ _ _ _ _ _ _ _ Hprep) as (_ & rels & ->).
  assert (Hnil : forall ids permut, In [] ids -> make_combs ids permut = []).
  { intros ids permut Hin. unfold make_combs.
    rewrite (product_empty_slot (map (ranked_from 0) ids)).
    - now destruct permut.
    - apply in_map_iff. exists []. auto. }
  destruct Hslot as [Hin|Hin]; rewrite (Hnil _ _ Hin).
  - reflexivity.
  - now rewrite product3_nil_m.
Qed.

(** A slot without candidate, of entities or of types, ends the search
    before it starts: when the preamble does not raise, there is no
    combination, [WikiParser.__call__] is not invoked once, and the
    result is the empty list.  With the relations of the template matcher
    the store is not read at all: the outcome, an exception of the
    preamble included, is the same on every store.  Without them the
    preamble reads the store through [find_rels], which the list of
    invocations does not record. *)
Theorem query_parser_empty_slot (self : generator) (question : string)
    (query_info : template) (entity_ids type_ids : list (list string)) :
  In [] entity_ids \/ In [] type_ids ->
  (forall rels_from_template p,
     prepare self question query_info entity_ids type_ids rels_from_template
     = Ok p ->
     query_parser_traced self question query_info entity_ids type_ids
       rels_from_template = (Ok [], []))
  /\ (forall rels
        (search_join' : list (list (list string)) -> list (list (string * string)))
        (search_triples' :
           string -> string -> string -> list (string * string * string) * nat),
        QueryGenerator.query_parser_traced search_join' search_triples' float
          float_of_str float_leb word_tokenize list_of_set confidence score
          self question query_info entity_ids type_ids (Some rels)
        = query_parser_traced self question query_info entity_ids type_ids
            (Some rels)).
Proof.
  intros Hslot. split.
  - intros rels_from_template p Hprep.
    unfold QueryGenerator.query_parser_traced. rewrite Hprep.
    now rewrite (prepare_empty_slot _ _ _ _ _ _ _ Hprep Hslot).
  - intros rels search_join' search_triples'.
    unfold QueryGenerator.query_parser_traced.
    change (QueryGenerator.prepare search_triples' word_tokenize list_of_set
              confidence score self question query_info entity_ids type_ids
              (Some rels))
      with (prepare self question query_info entity_ids type_ids (Some rels)).
    destruct (prepare self question query_info entity_ids type_ids (Some rels))
      as [p|e] eqn:Hprep; [|reflexivity].
    now rewrite (prepare_empty_slot _ _ _ _ _ _ _ Hprep Hslot).
Qed.

Lemma search_loop_skip_empty (p : prepared)
    (pre rest : list (list pyval * list pyval * list pyval))
    (calls_pre : list adapter_call)
    (outs : list (list pyval)) (calls : list adapter_call) :
  Forall2 (fun combs call =>
             adapter_call_of p combs = Ok call /\ run_call call = Ok []) pre calls_pre ->
  search_loop p (pre ++ rest) outs calls
  = search_loop p rest outs (calls ++ calls_pre).
Proof.
  intros Hpre. revert calls.
  induction Hpre as [|combs call pre calls_pre [Hcall Hrun] _ IH];
    intros calls.
  - now rewrite app_nil_r.
  - cbn [app QueryGenerator.search_loop]. rewrite Hcall, Hrun.
    cbn [map is_nonempty]. rewrite andb_false_r, app_nil_r, IH.
    now rewrite <- app_assoc.
Qed.

(** With [return_if_found], the search stops at the first combination for
    which the store adapter returns something: the adapter has been
    invoked for the combinations before it, which gave nothing, and for
    this one, and for none of those that follow. *)
Theorem query_parser_stops_at_first_hit (self : generator) (question : string)
    (query_info : template) (entity_ids type_ids : list (list string))
    (rels_from_template : option (list (list string))) (p : prepared)
    (pre : list (list pyval * list pyval * list pyval))
    (combs : list pyval * list pyval * list pyval)
    (rest : list (list pyval * list pyval * list pyval))
    (calls_pre : list adapter_call) (c : adapter_call)
    (output : list pyval) (outputs : list (list pyval)) :
  return_if_found query_info = true ->
  prepare self question query_info entity_ids type_ids rels_from_template = Ok p ->
  p_combs p = (pre ++ combs :: rest)%list ->
  Forall2 (fun combs' call =>
             adapter_call_of p combs' = Ok call /\ run_call call = Ok [])
          pre calls_pre ->
  adapter_call_of p combs = Ok c ->
  run_call c = Ok (output :: outputs) ->
  query_parser_traced self question query_info entity_ids type_ids
    rels_from_template
  = (Ok (map (fun o => (Py.but_last combs.2 ++ o)%list) (output :: outputs)),
     (calls_pre ++ [c])%list).
Proof.
  intros Hrif Hprep Hcombs Hpre Hcall Hrun.
  destruct (prepare_fields _ _ _ _ _ _ _ _ _ _ _ _ Hprep) as (Hflag & _).
  unfold QueryGenerator.query_parser_traced. rewrite Hprep, Hcombs.
  rewrite (search_loop_skip_empty p pre (combs :: rest) calls_pre [] [] Hpre).
  cbn [QueryGenerator.search_loop app]. rewrite Hcall, Hrun, Hflag, Hrif.
  reflexivity.
Qed.

Lemma search_loop_all (p : prepared)
    (combs_list : list (list pyval * list pyval * list pyval))
    (results : list (adapter_call * list (list pyval)))
    (outs : list (list pyval)) (calls : list adapter_call) :
  p_return_if_found p = false ->
  Forall2 (fun combs r => adapter_call_of p combs = Ok r.1 /\ run_call r.1 = Ok r.2)
          combs_list results ->
  search_loop p combs_list outs calls
  = (Ok (outs ++ flat_map (fun cr => map (fun o => (Py.but_last cr.1.2 ++ o)%list)
                                         cr.2.2)
                          (zip combs_list results))%list,
     (calls ++ map fst results)%list).
Proof.
  intros Hflag Hall. revert outs calls.
  induction Hall as [|combs r combs_list results [Hcall Hrun] _ IH];
    intros outs calls.
  - cbn. now rewrite !app_nil_r.
  - cbn [QueryGenerator.search_loop]. rewrite Hcall, Hrun, Hflag.
    cbn [andb]. rewrite IH. cbn [zip zip_with flat_map map fst].
    now rewrite <- !app_assoc.
Qed.

(** Without [return_if_found] (and when no call raises), the search
    invokes the store adapter once for every combination, in order, and
    returns the outputs of all of them, each with the relations of its
    combination in front. *)
Theorem query_parser_exhaustive (self : generator) (question : string)
    (query_info : template) (entity_ids type_ids : list (list string))
    (rels_from_template : option (list (list string))) (p : prepared)
    (results : list (adapter_call * list (list pyval))) :
  return_if_found query_info = false ->
  prepare self question query_info entity_ids type_ids rels_from_template = Ok p ->
  Forall2 (fun combs r => adapter_call_of p combs = Ok r.1 /\ run_call r.1 = Ok r.2)
          (p_combs p) results ->
  let traced :=
    query_parser_traced self question query_info entity_ids type_ids
      rels_from_template in
  traced
  = (Ok (flat_map (fun cr => map (fun o => (Py.but_last cr.1.2 ++ o)%list) cr.2.2)
                  (zip (p_combs p) results)),
     map fst results)
  /\ length traced.2 = length (p_combs p).
Proof.
  intros Hrif Hprep Hall traced. subst traced.
  destruct (prepare_fields _ _ _ _ _ _ _ _ _ _ _ _ Hprep) as (Hflag & _).
  rewrite Hrif in Hflag.
  unfold QueryGenerator.query_parser_traced. rewrite Hprep.
  rewrite (search_loop_all p (p_combs p) results [] [] Hflag Hall).
  split; [reflexivity|].
  cbn [snd app]. rewrite length_map. symmetry. eapply Forall2_length, Hall.
Qed.

Lemma search_loop_rows (p : prepared)
    (all combs_list : list (list pyval * list pyval * list pyval))
    (outs : list (list pyval)) (calls : list adapter_call)
    (res : list (list pyval)) (calls' : list adapter_call) :
  (forall combs, In combs combs_list -> In combs all) ->
  (forall out, In out outs ->
     exists combs c rows row,
       In combs all /\ adapter_call_of p combs = Ok c /\ run_call c = Ok rows
       /\ In row rows /\ out = (Py.but_last combs.2 ++ row)%list) ->
  search_loop p combs_list outs calls = (Ok res, calls') ->
  forall out, In out res ->
    exists combs c rows row,
      In combs all /\ adapter_call_of p combs = Ok c /\ run_call c = Ok rows
      /\ In row rows /\ out = (Py.but_last combs.2 ++ row)%list.
Proof.
  revert outs calls. induction combs_list as [|combs combs_list IH];
    intros outs calls Hsub Houts.
  - cbn. intros [= <- _]. exact Houts.
  - cbn [QueryGenerator.search_loop].
    destruct (adapter_call_of p combs) as [c|e] eqn:Hcall; [|discriminate].
    destruct (run_call c) as [candidate_output|e] eqn:Hrun; [|discriminate].
    assert (Houts' : forall out,
               In out (outs ++ map (fun output => Py.but_last combs.2 ++ output)
                                   candidate_output)%list ->
               exists combs0 c0 rows row,
                 In combs0 all /\ adapter_call_of p combs0 = Ok c0
                 /\ run_call c0 = Ok rows /\ In row rows
                 /\ out = (Py.but_last combs0.2 ++ row)%list).
    { intros out Hin. apply in_app_or in Hin as [Hin|Hin]; [auto|].
      apply in_map_iff in Hin as (row & <- & Hrow).
      exists combs, c, candidate_output, row.
      split; [apply Hsub; now left|]. auto. }
    destruct (p_return_if_found p && is_nonempty candidate_output).
    + intros [= <- _]. exact Houts'.
    + apply IH; [|exact Houts']. intros combs0 Hin. apply Hsub. now right.
Qed.

Lemma product3_members {A B C} (a : list A) (b : list B) (c : list C)
    (o : A * B * C) :
  In o (product3 a b c) -> In o.1.1 a /\ In o.1.2 b /\ In o.2 c.
Proof.
  unfold product3. rewrite in_flat_map. intros (x & Hx & Ho).
  apply in_flat_map in Ho as (y & Hy & Ho).
  apply in_map_iff in Ho as (z & <- & Hz). auto.
Qed.

Lemma make_combs_members (ids : list (list string)) (comb : list pyval) :
  In comb (make_combs ids false) ->
  exists sel,
    drawn_from ids sel
    /\ comb = (map (fun er => PStr er.1) sel ++ [PInt (rank_sum sel)])%list.
Proof.
  unfold make_combs. intros Hin.
  apply in_map_iff in Hin as (sel & <- & Hsel).
  eapply Permutation_in in Hsel; [|apply sorted_by_perm].
  exists sel. split; [now apply drawn_from_product|reflexivity].
Qed.

Lemma prepare_rels (self : generator) (question : string)
    (query_info : template) (entity_ids type_ids : list (list string))
    (rels_from_template : option (list (list string))) (p : prepared) :
  prepare self question query_info entity_ids type_ids rels_from_template = Ok p ->
  exists rels,
    (forall r, rels_from_template = Some r -> rels = r)
    /\ p_combs p = product3 (make_combs entity_ids true)
                            (make_combs type_ids false)
                            (make_combs rels false).
Proof.
  unfold QueryGenerator.prepare. intros H.
  destruct rels_from_template as [r|]; do 9 rbind_inv H;
    inversion H; subst; clear H; cbn [p_combs];
    eexists; (split; [|reflexivity]).
  - intros r0 [= <-]. congruence.
  - discriminate.
Qed.

(** Whatever [query_parser] returns, every candidate output is made of
    two parts.  In front stand relation identifiers and nothing else: one
    candidate of every relation slot, in the order of the slots, as the
    relation part of one of the combinations has them, its aggregate rank
    taken off; entity and type identifiers are not put in front.  Behind
    stands a row that [WikiParser.__call__] returned when it was invoked
    for that combination. *)
Theorem query_parser_outputs_prefixed (self : generator) (question : string)
    (query_info : template) (entity_ids type_ids : list (list string))
    (rels_from_template : option (list (list string))) (p : prepared)
    (candidate_outputs : list (list pyval)) (out : list pyval) :
  prepare self question query_info entity_ids type_ids rels_from_template = Ok p ->
  query_parser self question query_info entity_ids type_ids rels_from_template
  = Ok candidate_outputs ->
  In out candidate_outputs ->
  exists rels sel combs c rows row,
    (forall r, rels_from_template = Some r -> rels = r)
    /\ drawn_from rels sel
    /\ In combs (p_combs p)
    /\ combs.2 = (map (fun er => PStr er.1) sel ++ [PInt (rank_sum sel)])%list
    /\ adapter_call_of p combs = Ok c
    /\ run_call c = Ok rows
    /\ In row rows
    /\ out = (map (fun er => PStr er.1) sel ++ row)%list.
Proof.
  intros Hprep Hres Hin.
  unfold QueryGenerator.query_parser, QueryGenerator.query_parser_traced in Hres.
  rewrite Hprep in Hres.
  destruct (search_loop p (p_combs p) [] []) as [res calls'] eqn:Hloop.
  simpl in Hres. subst res.
  destruct (search_loop_rows p (p_combs p) (p_combs p) [] [] _ _
              (fun _ H => H) (fun _ (H : In _ []) => False_ind _ H) Hloop out Hin)
    as (combs & c & rows & row & Hcombs & Hcall & Hrun & Hrow & ->).
  destruct (prepare_rels _ _ _ _ _ _ _ Hprep) as (rels & Hrels & Hprod).
  pose proof Hcombs as Hmem. rewrite Hprod in Hmem.
  apply product3_members in Hmem as (_ & _ & Hrel).
  apply make_combs_members in Hrel as (sel & Hsel & Heq).
  exists rels, sel, combs, c, rows, row.
  repeat split; try assumption.
  unfold Py.but_last. now rewrite Heq, removelast_last.
Qed.

(** A filter clause that reaches the loop makes the search fail as soon
    as a join has a row: the filter list arrives at the store adapter as
    [unknown_query_triplets], whose stage raises [UnboundLocalError]. *)
Theorem query_parser_filter_raises (self : generator) (question : string)
    (query_info : template) (entity_ids type_ids : list (list string))
    (rels_from_template : option (list (list string))) (p : prepared)
    (combs : list pyval * list pyval * list pyval)
    (rest : list (list pyval * list pyval * list pyval)) (c : adapter_call) :
  prepare self question query_info entity_ids type_ids rels_from_template = Ok p ->
  p_filter_from_query p <> [] ->
  p_combs p = combs :: rest ->
  adapter_call_of p combs = Ok c ->
  search_join (call_query c) <> [] ->
  exists name,
    query_parser_traced self question query_info entity_ids type_ids
      rels_from_template = (Raise (UnboundLocalError name), [c]).
Proof.
  intros Hprep Hfilter Hcombs Hcall Hjoin.
  assert (Hunknown : call_unknown_query_triplets c = p_filter_from_query p).
  { unfold adapter_call_of in Hcall. rbind_inv Hcall. now injection Hcall as <-. }
  unfold QueryGenerator.query_parser_traced. rewrite Hprep, Hcombs.
  cbn [QueryGenerator.search_loop]. rewrite Hcall.
  unfold WikiParser.run_call, WikiParser_call. rewrite Hunknown.
  destruct (search_join (call_query c)) as [|row rows]; [congruence|].
  destruct (p_filter_from_query p) as [|u us] eqn:Heq; [congruence|].
  cbn [map is_nonempty].
  destruct (unknown_stage_raises (u :: us) (dict row :: map dict rows))
    as [name ->]; [discriminate..|].
  cbn [rbind]. eauto.
Qed.

(** The two missing keys of [find_candidate_answers].  A template type
    that the template file does not know raises [KeyError].  And when
    every primary template has given nothing, the alternatives are read
    from the first template: without the key [alternative_templates] this
    raises [KeyError], with an empty list the result is the empty list. *)
Theorem find_candidate_answers_missing_keys (self : generator)
    (question : string) (entity_ids type_ids : list (list string))
    (rels_from_template : option (list (list string)))
    (rel_dirs_from_template : option (list string)) :
  (template_queries self !! template_num self = None ->
   find_candidate_answers self question entity_ids type_ids rels_from_template
     rel_dirs_from_template = Raise (KeyError (template_num self)))
  /\ (forall templates first rest,
        template_queries self !! template_num self = Some templates ->
        rels_from_template = None ->
        matching_templates templates entity_ids type_ids = first :: rest ->
        Forall (fun t => query_parser self question t entity_ids type_ids None
                         = Ok []) (first :: rest) ->
        find_candidate_answers self question entity_ids type_ids None
          rel_dirs_from_template
        = match alternative_templates first with
          | None => Raise (KeyError "alternative_templates")
          | Some [] => Ok []
          | Some (alternative :: _) =>
              query_parser self question alternative entity_ids type_ids None
          end).
Proof.
  split.
  - intros Hnone. unfold QueryGenerator.find_candidate_answers.
    now rewrite Hnone.
  - intros templates first rest Hlookup -> Hts Hall.
    unfold QueryGenerator.find_candidate_answers. rewrite Hlookup.
    cbn [rbind]. cbv zeta. rewrite Hts.
    rewrite (primary_loop_none _ _ Hall). cbn [rbind Py.item lookup list_lookup].
    destruct (alternative_templates first) as [[|alternative alternatives]|];
      reflexivity.
Qed.

End QueryGeneratorMore.

(** *** The filter clauses of a template *)




(** ** QueryGenerator.__call__: the question handed to the matcher *)

Lemma mem_char_app (c : ascii) (a b : string) :
  Py.mem_char c (a ++ b) = Py.mem_char c a || Py.mem_char c b.
Proof.
  induction a as [|d a IH]; [reflexivity|].
  change (String d a ++ b) with (String d (a ++ b)).
  cbn [Py.mem_char]. rewrite IH. apply orb_assoc.
Qed.

Lemma replace_go_keeps_absent (c : ascii) (old new : string) (skip : nat)
    (s : string) :
  Py.mem_char c new = false -> Py.mem_char c s = false ->
  Py.mem_char c (Py.replace_go old new skip s) = false.
Proof.
  intros Hnew. revert skip. induction s as [|d s IH]; intros skip Hs;
    [reflexivity|].
  cbn [Py.mem_char] in Hs. apply orb_false_iff in Hs as [Hd Hs].
  cbn [Py.replace_go]. destruct skip as [|skip]; [|now apply IH].
  destruct (String.prefix old (String d s)).
  - rewrite mem_char_app, Hnew. now apply IH.
  - cbn [Py.mem_char]. rewrite Hd. now apply IH.
Qed.

Lemma replace_keeps_absent (c : ascii) (s old new : string) :
  old <> "" -> Py.mem_char c new = false -> Py.mem_char c s = false ->
  Py.mem_char c (Py.replace s old new) = false.
Proof.
  intros Hold Hnew Hs. destruct old; [congruence|].
  now apply replace_go_keeps_absent.
Qed.

Lemma replace_removes_char (c : ascii) (s new : string) :
  Py.mem_char c new = false ->
  Py.mem_char c (Py.replace s (String c EmptyString) new) = false.
Proof.
  intros Hnew. unfold Py.replace.
  induction s as [|d s IH]; [reflexivity|].
  assert (Hp : String.prefix (String c "") (String d s)
               = if ascii_dec c d then true else false).
  { cbn [String.prefix]. destruct (ascii_dec c d); [now destruct s|reflexivity]. }
  cbn [Py.replace_go String.length Nat.sub]. rewrite Hp.
  destruct (ascii_dec c d) as [->|Hne].
  - rewrite mem_char_app, Hnew. exact IH.
  - cbn [Py.mem_char]. rewrite IH.
    apply Ascii.eqb_neq in Hne. now rewrite Hne.
Qed.

(** The question that [__call__] hands to the template matcher holds no
    brace, no parenthesis and no double quote, whatever the question
    was. *)
Theorem normalize_question_removes (question : string) (c : ascii) :
  In c ["{"%char; "}"%char; "("%char; ")"%char; ascii_of_nat 34] ->
  Py.mem_char c (normalize_question question) = false.
Proof.
  intros Hc. unfold normalize_question, replace_tokens.
  cbn [foldl fst snd].
  assert (Hstep : forall s old new,
             old <> "" -> Py.mem_char c new = false ->
             Py.mem_char c s = false ->
             Py.mem_char c (Py.replace s old new) = false)
    by (intros; now apply replace_keeps_absent).
  simpl in Hc.
  destruct Hc as [<-|[<-|[<-|[<-|[<-|[]]]]]];
    repeat first
      [ apply (replace_removes_char _ _ _); reflexivity
      | apply Hstep; [discriminate|reflexivity|] ].
Qed.

Lemma normalize_question_removes_witness :
  Py.mem_char "("%char (normalize_question "who (really) wrote {it}?") = false.
Proof. apply normalize_question_removes. simpl. auto. Defined.

(** ** QueryGenerator.__call__: template path and fallback *)

Lemma rmap_length {A B} (f : A -> result B) (l : list A) (r : list B) :
  rmap f l = Ok r -> length r = length l.
Proof.
  revert r. induction l as [|x l IH]; simpl; intros r H.
  - now injection H as <-.
  - rbind_inv H. rbind_inv H. injection H as <-. simpl. f_equal. now apply IH.
Qed.

Lemma zip4_length {A B C D} (a : list A) (b : list B) (c : list C) (d : list D) :
  length (zip4 a b c d)
  = Nat.min (Nat.min (length a) (length b)) (Nat.min (length c) (length d)).
Proof.
  revert b c d. induction a as [|x a IH]; intros [|y b] [|z c] [|w d];
    simpl; try lia.
  rewrite IH. lia.
Qed.

Section Orchestrator.

Context (search_join : list (list (list string)) -> list (list (string * string))).
Context (search_triples :
  string -> string -> string -> list (string * string * string) * nat).
Context (float : Type) (float_of_str : string -> option float).
Context (float_leb : float -> float -> bool).
Context (word_tokenize : string -> list string).
Context (list_of_set : list string -> list string).
Context (confidence score : Type).
Context (template_matcher :
  string -> list string * list string * option (list (list string))
            * option (list string) * string).

Local Abbreviation generator := (generator confidence score).
Local Abbreviation linker_entities := (linker_entities confidence score).
Local Abbreviation linker_types := (linker_types confidence score).
Local Abbreviation with_template_num := (with_template_num confidence score).
Local Abbreviation get_entity_ids := (get_entity_ids confidence score).
Local Abbreviation find_candidate_answers :=
  (find_candidate_answers search_join search_triples float float_of_str
     float_leb word_tokenize list_of_set confidence score).
Local Abbreviation answer_question :=
  (answer_question search_join search_triples float float_of_str float_leb
     word_tokenize list_of_set confidence score template_matcher).
Local Abbreviation candidate_outputs_batch :=
  (candidate_outputs_batch search_join search_triples float float_of_str
     float_leb word_tokenize list_of_set confidence score template_matcher).

(** What [get_entity_ids] gives for the mentions of entities and of types. *)
Local Abbreviation entity_ids_of self mentions :=
  (map (fun m => List.firstn 15 (linker_entities self m).1) mentions).
Local Abbreviation type_ids_of self mentions :=
  (map (fun m => List.firstn 15 (linker_types self m).1) mentions).

Lemma get_entity_ids_entities (self : generator) (mentions : list string) :
  get_entity_ids self mentions "entities" = Ok (entity_ids_of self mentions).
Proof. unfold QueryGenerator.get_entity_ids. apply rmap_total. Qed.

Lemma get_entity_ids_types (self : generator) (mentions : list string) :
  get_entity_ids self mentions "types" = Ok (type_ids_of self mentions).
Proof. unfold QueryGenerator.get_entity_ids. apply rmap_total. Qed.

(** When the template matcher finds mentions and the search with its
    template type, relations and directions gives candidates, these are
    the answer: the entities and types of NER and the template type of
    the batch are not looked at. *)
Theorem answer_question_template_path (self : generator)
    (question template_type : string)
    (entities_from_ner types_from_ner : list string)
    (entities types : list string) (rels : option (list (list string)))
    (rel_dirs : option (list string)) (query_type : string)
    (candidates : list (list pyval)) :
  template_matcher question = (entities, types, rels, rel_dirs, query_type) ->
  entities <> [] \/ types <> [] ->
  find_candidate_answers (with_template_num query_type self) question
    (entity_ids_of self entities) (type_ids_of self types) rels rel_dirs
  = Ok candidates ->
  candidates <> [] ->
  answer_question self question template_type entities_from_ner types_from_ner
  = Ok candidates.
Proof.
  intros Hmatch Hmentions Hfind Hcands.
  unfold QueryGenerator.answer_question. rewrite Hmatch.
  assert (Hany : is_nonempty entities || is_nonempty types = true).
  { destruct Hmentions as [H|H]; [destruct entities|destruct types];
      try congruence; [reflexivity|apply orb_true_r]. }
  rewrite Hany, get_entity_ids_entities, get_entity_ids_types.
  cbn [rbind]. cbn [QueryGenerator.linker_entities QueryGenerator.linker_types
                    QueryGenerator.with_template_num].
  rewrite Hfind. cbn [rbind].
  destruct candidates; [congruence|reflexivity].
Qed.

(** When the template matcher finds no mention at all, the search runs
    on the mentions of NER, without relations, and with the FIRST
    CHARACTER of the template type of the batch as template type; an
    empty template type raises [IndexError].  Without mentions of NER
    either, the answer is the empty list. *)
Theorem answer_question_ner_fallback (self : generator)
    (question template_type : string)
    (entities_from_ner types_from_ner : list string)
    (rels : option (list (list string))) (rel_dirs : option (list string))
    (query_type : string) :
  template_matcher question = ([], [], rels, rel_dirs, query_type) ->
  answer_question self question template_type entities_from_ner types_from_ner
  = match entities_from_ner, template_type with
    | [], _ => Ok []
    | _ :: _, EmptyString => Raise IndexError
    | _ :: _, String c _ =>
        find_candidate_answers
          (with_template_num (String c EmptyString) self) question
          (entity_ids_of self entities_from_ner)
          (type_ids_of self types_from_ner) None None
    end.
Proof.
  intros Hmatch. unfold QueryGenerator.answer_question. rewrite Hmatch.
  cbn [is_nonempty orb rbind negb andb].
  destruct entities_from_ner as [|e es]; [reflexivity|].
  cbn [is_nonempty]. rewrite get_entity_ids_entities, get_entity_ids_types.
  cbn [rbind]. destruct template_type as [|c rest]; reflexivity.
Qed.

(** The batch of [__call__] has as many entries as the shortest of the
    four batches it is given: what is beyond is dropped without notice. *)
Theorem candidate_outputs_batch_length (self : generator)
    (question_batch template_type_batch : list string)
    (entities_from_ner_batch types_from_ner_batch : list (list string))
    (batch : list (list (list pyval))) :
  candidate_outputs_batch self question_batch template_type_batch
    entities_from_ner_batch types_from_ner_batch = Ok batch ->
  length batch
  = Nat.min (Nat.min (length question_batch) (length template_type_batch))
            (Nat.min (length entities_from_ner_batch)
                     (length types_from_ner_batch)).
Proof.
  unfold QueryGenerator.candidate_outputs_batch. intros H.
  apply rmap_length in H. now rewrite H, zip4_length.
Qed.

End Orchestrator.

(** ** query_parser: the join stages of a template *)

Lemma foldl_max_ge (l : list Z) (x : Z) :
  x <= foldl Z.max x l /\ Forall (fun n => n <= foldl Z.max x l) l.
Proof.
  revert x. induction l as [|y l IH]; intros x; simpl.
  - split; [lia|constructor].
  - destruct (IH (Z.max x y)) as [Hx Hl]. split; [lia|].
    constructor; [lia|exact Hl].
Qed.

Lemma concat_nil_groups {A B} (ks : list A) :
  concat (map (fun _ : A => @nil B) ks) = [].
Proof. induction ks; simpl; auto. Qed.

Lemma insert_into_group {T} (n : Z) (t : T) (g : Z -> list T) (ks : list Z) :
  NoDup ks -> In n ks ->
  Permutation
    (concat (map (fun i => if decide (n = i) then t :: g i else g i) ks))
    (t :: concat (map g ks)).
Proof.
  induction 1 as [|k ks Hk Hks IH]; intros Hin; [destruct Hin|].
  cbn [map concat]. destruct (decide (n = k)) as [->|Hne].
  - cbn [app]. apply perm_skip. apply Permutation_app_head.
    erewrite map_ext_in; [reflexivity|].
    intros i Hi. destruct (decide (k = i)) as [<-|]; [|reflexivity].
    exfalso. apply Hk. now apply list_elem_of_In.
  - destruct Hin as [->|Hin]; [congruence|].
    rewrite (IH Hin). symmetry. apply Permutation_middle.
Qed.

Lemma groups_partition {T} (l : list (Z * T)) (ks : list Z) :
  NoDup ks -> Forall (fun nt => In nt.1 ks) l ->
  Permutation
    (concat (map (fun i => map snd (filter (fun nt => nt.1 = i) l)) ks))
    (map snd l).
Proof.
  intros Hks. induction 1 as [|[n t] l Hn _ IH].
  - cbn. now rewrite concat_nil_groups.
  - cbn [map snd]. rewrite <- IH.
    rewrite <- (insert_into_group n t _ ks Hks Hn).
    erewrite map_ext; [reflexivity|].
    intros i. rewrite filter_cons. cbn [fst].
    destruct (decide (n = i)); reflexivity.
Qed.

Lemma zip_map_snd {A B} (a : list A) (b : list B) :
  length a = length b -> map snd (zip a b) = b.
Proof.
  revert b. induction a as [|x a IH]; intros [|y b]; simpl; try discriminate;
    [reflexivity|].
  intros [= Hlen]. f_equal. now apply IH.
Qed.

Lemma zip_fst_in {A B} (a : list A) (b : list B) (P : A -> Prop) :
  Forall P a -> Forall (fun xy => P xy.1) (zip a b).
Proof.
  intros Ha. revert b. induction Ha as [|x a Hx _ IH]; intros [|y b];
    simpl; constructor; auto.
Qed.

(** The stages of a template lose no triple and repeat none: when every
    triple has a sequence number and the numbers start at 1, there are as
    many stages as the greatest number, and the stages together hold the
    triples of the template, each one once. *)
Theorem group_by_sequence_partition (query_seq_num : list Z)
    (query_triplets : list (list string)) :
  query_seq_num <> [] ->
  length query_seq_num = length query_triplets ->
  Forall (fun n => 1 <= n) query_seq_num ->
  exists query_sequence m,
    group_by_sequence query_seq_num query_triplets = Ok query_sequence
    /\ Py.max query_seq_num = Ok m
    /\ length query_sequence = Z.to_nat m
    /\ Permutation (concat query_sequence) query_triplets.
Proof.
  intros Hne Hlen Hpos. unfold group_by_sequence.
  destruct query_seq_num as [|x nums]; [congruence|].
  cbn [Py.max rbind]. set (m := foldl Z.max x nums).
  eexists _, m. split; [reflexivity|]. split; [reflexivity|]. split.
  - rewrite length_map. apply length_seqZ.
  - pose proof (groups_partition (zip (x :: nums) query_triplets) (seqZ 1 m)
                  (NoDup_seqZ 1 m)) as Hpart.
    rewrite (zip_map_snd (x :: nums) query_triplets Hlen) in Hpart.
    apply Hpart. apply (zip_fst_in _ _ (fun n => In n (seqZ 1 m))).
    destruct (foldl_max_ge nums x) as [Hx Hall]. fold m in Hx, Hall.
    assert (Hbound : Forall (fun n => n <= m) (x :: nums))
      by (constructor; assumption).
    rewrite Forall_forall in Hpos, Hbound. apply Forall_forall.
    intros n Hn. apply list_elem_of_In, elem_of_seqZ.
    specialize (Hpos n Hn). specialize (Hbound n Hn). lia.
Qed.

Lemma group_by_sequence_partition_witness :
  exists query_sequence m,
    group_by_sequence [1; 2; 1] [["a"]; ["b"]; ["c"]] = Ok query_sequence
    /\ Py.max [1; 2; 1] = Ok m
    /\ length query_sequence = Z.to_nat m
    /\ Permutation (concat query_sequence) [["a"]; ["b"]; ["c"]].
Proof.
  apply group_by_sequence_partition; [discriminate|reflexivity|].
  repeat constructor; lia.
Defined.

(** ** QueryGenerator.load: the rank lists *)

Lemma string_of_list_mem (c : ascii) (l : list ascii) :
  Forall (fun d => d <> c) l ->
  Py.mem_char c (string_of_list_ascii l) = false.
Proof.
  induction 1 as [|d l Hd _ IH]; [reflexivity|].
  cbn [string_of_list_ascii Py.mem_char]. rewrite IH.
  assert (c <> d) by congruence.
  apply Ascii.eqb_neq in H. now rewrite H.
Qed.

Lemma split_first_field (c : ascii) (s : string) (cur : list ascii) :
  exists pre rest,
    Py.split_go (String c EmptyString) O cur s
    = string_of_list_ascii (rev cur ++ pre) :: rest
    /\ Forall (fun d => d <> c) pre
    /\ String.prefix (string_of_list_ascii pre) s = true.
Proof.
  revert cur. induction s as [|d s IH]; intros cur.
  - exists [], []. rewrite app_nil_r. repeat split; constructor.
  - assert (Hp : String.prefix (String c "") (String d s)
                 = if ascii_dec c d then true else false).
    { cbn [String.prefix].
      destruct (ascii_dec c d); [now destruct s|reflexivity]. }
    cbn [Py.split_go]. rewrite Hp.
    destruct (ascii_dec c d) as [->|Hne].
    + eexists [], _. rewrite app_nil_r. repeat split; constructor.
    + destruct (IH (d :: cur)) as (pre & rest & Heq & Hpre & Hprefix).
      exists (d :: pre), rest. split; [|split].
      * rewrite Heq. cbn [rev]. now rewrite <- app_assoc.
      * constructor; [congruence|exact Hpre].
      * cbn [string_of_list_ascii String.prefix].
        destruct (ascii_dec d d); [exact Hprefix|congruence].
Qed.

(** Every line of a rank-list file gives one relation: the beginning of
    the line up to its first tab, so that no relation holds a tab and no
    line is skipped or raises. *)
Theorem rank_list_of_lines_fields (lines : list string) :
  exists fields,
    rank_list_of_lines lines = Ok fields
    /\ Forall2 (fun line field =>
                  String.prefix field line = true
                  /\ Py.mem_char (ascii_of_nat 9) field = false)
               lines fields.
Proof.
  unfold rank_list_of_lines.
  induction lines as [|line lines (fields & Hfields & Hall)].
  - exists []. split; [reflexivity|constructor].
  - destruct (split_first_field (ascii_of_nat 9) line [])
      as (pre & rest & Heq & Hpre & Hprefix).
    exists (string_of_list_ascii pre :: fields). split.
    + assert (Hline : (let* fields := Py.split line tab in Py.item fields 0)
                      = Ok (string_of_list_ascii pre)).
      { unfold Py.split, tab. rewrite Heq. reflexivity. }
      cbn [rmap]. rewrite Hline. cbn [rbind]. rewrite Hfields.
      reflexivity.
    + constructor; [|exact Hall].
      split; [exact Hprefix|now apply string_of_list_mem].
Qed.

(** ** utils.extract_year: what a year looks like *)

Section YearGroup.

Context {R : Type} (total : nat).

(** The captures after a match: those before it, or a year on top. *)
Local Abbreviation year_on_top cs cs' :=
  (cs' = cs \/ exists v rest, cs' = (1%nat, v) :: rest /\ four_digits v).

Lemma year_on_top_trans (cs cs1 cs2 : Re.caps) :
  year_on_top cs cs1 -> year_on_top cs1 cs2 -> year_on_top cs cs2.
Proof. intros H1 [->|H2]; auto. Qed.

Lemma rmatch_d4 (s : string) (cs : Re.caps)
    (k : string -> Re.caps -> option R) (res : R) :
  Re.rmatch total (Re.Grp 1 Re.d4) s cs k = Some res ->
  exists s' v, k s' ((1%nat, v) :: cs) = Some res /\ four_digits v.
Proof.
  cbn [Re.rmatch Re.d4 Re.d].
  destruct s as [|c1 [|c2 [|c3 [|c4 s']]]];
    repeat match goal with
           | |- context [if Py.is_digit ?c then _ else _] =>
               destruct (Py.is_digit c) eqn:?
           end; try discriminate.
  replace (String.length (String c1 (String c2 (String c3 (String c4 s'))))
           - String.length s')%nat with 4%nat by (simpl; lia).
  cbn [Py.take]. intros Hk. eexists _, _. split; [exact Hk|].
  split; [reflexivity|]. cbn [Py.all_digits].
  repeat match goal with H : Py.is_digit _ = true |- _ => rewrite H; clear H end.
  reflexivity.
Qed.

Lemma rmatch_year_group (r : Re.regex) :
  one_year_group r ->
  forall (s : string) (cs : Re.caps) (k : string -> Re.caps -> option R)
         (res : R),
    Re.rmatch total r s cs k = Some res ->
    exists s' cs', k s' cs' = Some res /\ year_on_top cs cs'.
Proof.
  induction 1 as [|c| |p|r1 r2 _ IH1 _ IH2|r _ IH|r _ IH|r _ IH| | |];
    intros s cs k res.
  - cbn. eauto.
  - cbn. destruct s as [|d s]; [discriminate|].
    destruct (Ascii.eqb c d); [eauto|discriminate].
  - cbn. destruct s as [|d s]; [discriminate|].
    destruct (Ascii.eqb d Re.newline); [discriminate|eauto].
  - cbn. destruct s as [|d s]; [discriminate|].
    destruct (p d); [eauto|discriminate].
  - cbn [Re.rmatch]. intros H.
    apply IH1 in H as (s1 & cs1 & H & Hcs1).
    apply IH2 in H as (s2 & cs2 & H & Hcs2).
    exists s2, cs2. split; [exact H|]. eapply year_on_top_trans; eassumption.
  - cbn [Re.rmatch].
    destruct (Re.rmatch total r s cs k) as [x|] eqn:Hr.
    + intros [= ->]. now apply IH in Hr.
    + eauto.
  - cbn [Re.rmatch]. generalize (String.length s). intros fuel.
    revert s cs. induction fuel as [|fuel IHf]; intros s cs; [eauto|].
    match goal with
    | |- context [Re.rmatch total r s cs ?k'] =>
        destruct (Re.rmatch total r s cs k') as [x|] eqn:Hr
    end; [|eauto].
    intros [= ->]. apply IH in Hr as (s1 & cs1 & Hr & Hcs1).
    destruct (String.length s1 <? String.length s)%nat; [|discriminate].
    apply IHf in Hr as (s2 & cs2 & Hr & Hcs2).
    exists s2, cs2. split; [exact Hr|]. eapply year_on_top_trans; eassumption.
  - cbn [Re.rmatch]. generalize (String.length s). intros fuel.
    revert s cs. induction fuel as [|fuel IHf]; intros s cs; [eauto|].
    destruct (k s cs) as [x|] eqn:Hk; [intros [= ->]; eauto|].
    intros Hr. apply IH in Hr as (s1 & cs1 & Hr & Hcs1).
    destruct (String.length s1 <? String.length s)%nat; [|discriminate].
    apply IHf in Hr as (s2 & cs2 & Hr & Hcs2).
    exists s2, cs2. split; [exact Hr|]. eapply year_on_top_trans; eassumption.
  - intros H. apply rmatch_d4 in H as (s' & v & H & Hv).
    exists s', ((1%nat, v) :: cs). split; [exact H|]. right. eauto.
  - cbn. destruct (String.length s =? total)%nat; [eauto|discriminate].
  - cbn. destruct s as [|d [|e s]]; [eauto| |discriminate].
    destruct (Ascii.eqb d Re.newline); [eauto|discriminate].
Qed.

End YearGroup.

Lemma search_year_group (r : Re.regex) (s : string) (cs : Re.caps) :
  one_year_group r -> Re.search r s = Some cs ->
  Re.group 1 cs = "" \/ four_digits (Re.group 1 cs).
Proof.
  intros Hr. unfold Re.search.
  destruct (Re.search_from (String.length s) r s) as [[cs' rest]|] eqn:Hs;
    [|discriminate].
  intros [= <-]. revert Hs. generalize (String.length s). intros total.
  induction s as [|d s IH]; cbn [Re.search_from]; unfold Re.match_here.
  - destruct (Re.rmatch total r "" [] _) as [x|] eqn:Hm; [|discriminate].
    intros [= ->].
    apply (rmatch_year_group total r Hr) in Hm as (s' & cs1 & [= <- _] & H).
    destruct H as [->|(v & rest' & -> & Hv)]; [now left|right].
    cbn. exact Hv.
  - destruct (Re.rmatch total r (String d s) [] _) as [x|] eqn:Hm;
      [|exact IH].
    intros [= ->].
    apply (rmatch_year_group total r Hr) in Hm as (s' & cs1 & [= <- _] & H).
    destruct H as [->|(v & rest' & -> & Hv)]; [now left|right].
    cbn. exact Hv.
Qed.

Lemma first_search_year (patterns : list Re.regex) (s y : string) :
  Forall one_year_group patterns ->
  first_search patterns s = Some y -> y = "" \/ four_digits y.
Proof.
  induction 1 as [|r patterns Hr _ IH]; [discriminate|].
  cbn [first_search].
  destruct (Re.search r s) as [cs|] eqn:Hs; [|exact IH].
  intros [= <-]. now apply (search_year_group r s).
Qed.

Lemma question_patterns_year : Forall one_year_group question_patterns.
Proof. unfold question_patterns, Re.seqs, Re.d12. repeat constructor. Qed.

Lemma token_patterns_year : Forall one_year_group token_patterns.
Proof. unfold token_patterns, Re.seqs. repeat constructor. Qed.

(** What [extract_year] returns is the empty string or four decimal
    digits, whatever the question and its tokens are. *)
Theorem extract_year_four_digits (question_tokens : list string)
    (question : string) :
  extract_year question_tokens question = ""
  \/ four_digits (extract_year question_tokens question).
Proof.
  unfold extract_year.
  destruct (first_search question_patterns question) as [year|] eqn:Hq.
  - exact (first_search_year _ _ _ question_patterns_year Hq).
  - induction question_tokens as [|token tokens IH]; [now left|].
    cbn [first_token_search].
    destruct (first_search token_patterns token) as [y|] eqn:Ht; [|exact IH].
    exact (first_search_year _ _ _ token_patterns_year Ht).
Qed.

(** ** The further properties at work on the fixtures *)

Section MoreRuns.

Local Abbreviation call_on join :=
  (WikiParser_call join Z Fixture.z_of_str Z.leb).

Lemma call_unknown_triplets_raises_witness :
  exists name,
    call_on Fixture.one_row_join ["?ent"] Fixture.pattern_filled
      [CPair "?x" "'abc'"] (Some []) None
    = Raise (UnboundLocalError name).
Proof.
  apply (call_unknown_triplets_raises Fixture.one_row_join Z Fixture.z_of_str
           Z.leb); discriminate.
Defined.

Lemma call_plain_rows_witness :
  call_on Fixture.two_row_join ["?x"; "?ent"] Fixture.pattern_filled []
    (Some []) None
  = Ok [[PStr "3"; PStr "Q42"]; [PStr "1"; PStr "Q43"]].
Proof.
  eapply eq_trans.
  - apply (call_plain_rows Fixture.two_row_join Z Fixture.z_of_str Z.leb
             ["?x"; "?ent"] Fixture.pattern_filled (Some []) None "?ent");
      try reflexivity.
    repeat constructor; vm_compute; eauto.
  - vm_compute. reflexivity.
Defined.

Lemma call_count_rows_witness :
  call_on Fixture.two_row_join ["?ent"; "COUNT(?x)"] Fixture.pattern_filled []
    None None
  = Ok [[PStr "Q42"; PInt 2]].
Proof.
  eapply eq_trans.
  - apply (call_count_rows Fixture.two_row_join Z Fixture.z_of_str Z.leb
             ["?ent"; "COUNT(?x)"] Fixture.pattern_filled None None
             "COUNT(?x)" [("?ent", "Q42"); ("?x", "3")]
             [[("?ent", "Q43"); ("?x", "1")]]); try reflexivity.
    repeat constructor; vm_compute; eauto.
  - vm_compute. reflexivity.
Defined.

Lemma call_ordered_row_witness :
  exists best,
    In best [([("?ent", "Q42"); ("?x", "3")], 3); ([("?ent", "Q43"); ("?x", "1")], 1)]
    /\ call_on Fixture.two_row_join ["?ent"] Fixture.pattern_filled [] None
         (Some [CPair "ASC" "?x"])
       = Ok [project ["?ent"] best.1]
    /\ Forall (fun p : list (string * string) * Z =>
                 if String.eqb "ASC" "DESC" then (p.2 <=? best.2) = true
                 else (best.2 <=? p.2) = true)
              [([("?ent", "Q42"); ("?x", "3")], 3);
               ([("?ent", "Q43"); ("?x", "1")], 1)].
Proof.
  apply (call_ordered_row Fixture.two_row_join Z Fixture.z_of_str Z.leb
           ["?ent"] Fixture.pattern_filled None "ASC" "?x" []
           [([("?ent", "Q42"); ("?x", "3")], 3);
            ([("?ent", "Q43"); ("?x", "1")], 1)] "?ent");
    try reflexivity; try discriminate.
  - intros a b. rewrite !Z.leb_le. lia.
  - intros a b c. rewrite !Z.leb_le. lia.
  - repeat constructor.
  - repeat constructor; vm_compute; eauto.
Defined.

Lemma find_alias_english_witness :
  find_alias Fixture.labelled "http://www.wikidata.org/entity/Q60"
  = ["Big Apple"; "NYC"].
Proof.
  apply (find_alias_english Fixture.labelled _
           (Fixture.labelled "http://www.wikidata.org/entity/Q60"
              alias_predicate "").1).
  - reflexivity.
  - reflexivity.
  - vm_compute. repeat constructor.
Defined.

Lemma find_rels_namespace_witness :
  Py.startswith "http://www.wikidata.org/prop/P17"
    ("http://www.wikidata.org/prop/" ++ default "P" None) = true
  /\ exists s o,
       In (s, "http://www.wikidata.org/prop/P17", o)
          (if String.eqb "forw" "forw"
           then Fixture.labelled (entity_prefix ++ "Q60") "" ""
           else Fixture.labelled "" "" (entity_prefix ++ "Q60")).1.
Proof.
  apply (find_rels_namespace Fixture.labelled "Q60" "forw" None).
  vm_compute. auto.
Defined.

Local Abbreviation find_top_rels_on triples :=
  (find_top_rels triples Fixture.keep_order unit unit).
Local Abbreviation prepare_on :=
  (prepare Fixture.no_triples Fixture.tokenize Fixture.keep_order unit unit).
Local Abbreviation query_parser_on join :=
  (query_parser join Fixture.no_triples unit Fixture.no_float Fixture.unit_leb
     Fixture.tokenize Fixture.keep_order unit unit).
Local Abbreviation query_parser_traced_on join :=
  (query_parser_traced join Fixture.no_triples unit Fixture.no_float
     Fixture.unit_leb Fixture.tokenize Fixture.keep_order unit unit).
Local Abbreviation find_candidate_answers_on join :=
  (find_candidate_answers join Fixture.no_triples unit Fixture.no_float
     Fixture.unit_leb Fixture.tokenize Fixture.keep_order unit unit).
Local Abbreviation answer_question_on join matcher :=
  (answer_question join Fixture.no_triples unit Fixture.no_float
     Fixture.unit_leb Fixture.tokenize Fixture.keep_order unit unit matcher).
Local Abbreviation candidate_outputs_batch_on join matcher :=
  (candidate_outputs_batch join Fixture.no_triples unit Fixture.no_float
     Fixture.unit_leb Fixture.tokenize Fixture.keep_order unit unit matcher).

Lemma find_top_rels_top_candidates_witness :
  find_top_rels_on Fixture.labelled (Fixture.gen []) "who is it"
    (map (fun entity_id => Py.upto entity_id 5)
         [["Q1"; "Q2"; "Q3"; "Q4"; "Q5"; "Q6"; "Q7"]])
    ("forw", 1)
  = find_top_rels_on Fixture.labelled (Fixture.gen []) "who is it"
      [["Q1"; "Q2"; "Q3"; "Q4"; "Q5"; "Q6"; "Q7"]] ("forw", 1).
Proof.
  apply (find_top_rels_top_candidates Fixture.labelled Fixture.keep_order unit
           unit (Fixture.gen [])).
  simpl. lia.
Defined.

Lemma get_entity_ids_unknown_kind_witness :
  get_entity_ids unit unit (Fixture.gen []) ["Paris"; "Rome"] "relations"
  = Raise (UnboundLocalError "entity_id")
  /\ get_entity_ids unit unit (Fixture.gen []) [] "relations" = Ok [].
Proof.
  apply (get_entity_ids_unknown_kind unit unit); discriminate.
Defined.

Lemma query_parser_empty_slot_witness :
  query_parser_traced_on Fixture.one_row_join
    (Fixture.gen [Fixture.one_template false]) "who is it"
    (Fixture.one_template false) [["Q1"]] [[]] (Some [["P100"]])
  = (Ok [], []).
Proof.
  eapply (proj1 (query_parser_empty_slot Fixture.one_row_join
                   Fixture.no_triples unit Fixture.no_float Fixture.unit_leb
                   Fixture.tokenize Fixture.keep_order unit unit
                   (Fixture.gen [Fixture.one_template false]) "who is it"
                   (Fixture.one_template false) [["Q1"]] [[]]
                   (or_intror (or_introl eq_refl)))).
  vm_compute. reflexivity.
Defined.

Lemma query_parser_stops_at_first_hit_witness :
  exists c1 c2,
    query_parser_traced_on (Fixture.join_on "Q2")
      (Fixture.gen [Fixture.one_template true]) "who is it"
      (Fixture.one_template true) [["Q1"; "Q2"; "Q3"]] [["T5"]]
      (Some [["P100"]])
    = (Ok [[PStr "P100"; PStr "Q42"]], [c1; c2]).
Proof.
  eexists _, _.
  eapply eq_trans.
  - eapply (query_parser_stops_at_first_hit (Fixture.join_on "Q2")
              Fixture.no_triples unit Fixture.no_float Fixture.unit_leb
              Fixture.tokenize Fixture.keep_order unit unit
              (Fixture.gen [Fixture.one_template true]) "who is it"
              (Fixture.one_template true) [["Q1"; "Q2"; "Q3"]] [["T5"]]
              (Some [["P100"]]) _
              [([PStr "Q1"; PInt 0], [PStr "T5"; PInt 0], [PStr "P100"; PInt 0])]
              ([PStr "Q2"; PInt 1], [PStr "T5"; PInt 0], [PStr "P100"; PInt 0])
              [([PStr "Q3"; PInt 2], [PStr "T5"; PInt 0], [PStr "P100"; PInt 0])]).
    + reflexivity.
    + vm_compute. reflexivity.
    + vm_compute. reflexivity.
    + constructor; [|constructor]. split; vm_compute; reflexivity.
    + vm_compute. reflexivity.
    + vm_compute. reflexivity.
  - vm_compute. reflexivity.
Defined.

Lemma query_parser_exhaustive_witness :
  exists c1 c2,
    query_parser_traced_on Fixture.one_row_join
      (Fixture.gen [Fixture.one_template false]) "who is it"
      (Fixture.one_template false) [["Q1"; "Q2"]] [["T5"]] (Some [["P100"]])
    = (Ok [[PStr "P100"; PStr "Q42"]; [PStr "P100"; PStr "Q42"]], [c1; c2]).
Proof.
  eexists _, _.
  eapply eq_trans.
  - eapply proj1.
    eapply (query_parser_exhaustive Fixture.one_row_join Fixture.no_triples
              unit Fixture.no_float Fixture.unit_leb Fixture.tokenize
              Fixture.keep_order unit unit
              (Fixture.gen [Fixture.one_template false]) "who is it"
              (Fixture.one_template false) [["Q1"; "Q2"]] [["T5"]]
              (Some [["P100"]]) _ [(_, _); (_, _)]).
    + reflexivity.
    + vm_compute. reflexivity.
    + constructor; [|constructor; [|constructor]];
        cbn [fst snd]; split; vm_compute; reflexivity.
  - vm_compute. reflexivity.
Defined.

Lemma query_parser_outputs_prefixed_witness :
  exists rels sel combs c rows row,
    (forall r, Some [["P100"]] = Some r -> rels = r)
    /\ drawn_from rels sel
    /\ In combs [Fixture.pattern_combs]
    /\ combs.2 = (map (fun er => PStr er.1) sel ++ [PInt (rank_sum sel)])%list
    /\ adapter_call_of
         (Prepared ["?ent"] [[["?ent"; "P31"; "T1"]; ["?ent"; "R1"; "E1"]]]
            [] [] [Fixture.pattern_combs] false) combs = Ok c
    /\ run_call Fixture.one_row_join unit Fixture.no_float Fixture.unit_leb c
       = Ok rows
    /\ In row rows
    /\ [PStr "P100"; PStr "Q42"]
       = (map (fun er => PStr er.1) sel ++ row)%list.
Proof.
  eapply (query_parser_outputs_prefixed Fixture.one_row_join Fixture.no_triples
            unit Fixture.no_float Fixture.unit_leb Fixture.tokenize
            Fixture.keep_order unit unit
            (Fixture.gen [Fixture.one_template false]) "who is it"
            (Fixture.one_template false) [["Q1"]] [["T5"]] (Some [["P100"]])
            (Prepared ["?ent"] [[["?ent"; "P31"; "T1"]; ["?ent"; "R1"; "E1"]]]
               [] [] [Fixture.pattern_combs] false)
            [[PStr "P100"; PStr "Q42"]]).
  - vm_compute. reflexivity.
  - vm_compute. reflexivity.
  - now left.
Defined.

Lemma query_parser_filter_raises_witness :
  exists name c,
    query_parser_traced_on Fixture.one_row_join
      (Fixture.gen [Fixture.filter_template]) "who is it"
      Fixture.filter_template [["Q1"]] [["T5"]] (Some [["P100"]])
    = (Raise (UnboundLocalError name), [c]).
Proof.
  destruct (query_parser_filter_raises Fixture.one_row_join Fixture.no_triples
              unit Fixture.no_float Fixture.unit_leb Fixture.tokenize
              Fixture.keep_order unit unit
              (Fixture.gen [Fixture.filter_template]) "who is it"
              Fixture.filter_template [["Q1"]] [["T5"]] (Some [["P100"]])
              (Prepared ["?p"; "?ent"]
                 [[["?ent"; "P31"; "T1"]; ["?ent"; "R1"; "E1"];
                   ["?ent"; "?p"; "?x"]]]
                 [CPair "?x" "'abc'"] [] [Fixture.pattern_combs] false)
              Fixture.pattern_combs []
              (AdapterCall ["?p"; "?ent"]
                 [[["?ent"; "P31"; "T5"]; ["?ent"; "P100"; "Q1"];
                   ["?ent"; "?p"; "?x"]]]
                 [CPair "?x" "'abc'"] (Some []) None))
    as [name Hname].
  - vm_compute. reflexivity.
  - discriminate.
  - reflexivity.
  - vm_compute. reflexivity.
  - discriminate.
  - eauto.
Defined.

Lemma find_candidate_answers_no_template_witness :
  find_candidate_answers_on Fixture.one_row_join
    (Fixture.gen [Fixture.one_template false]) "who is it"
    [["Q1"]; ["Q2"]] [["T5"]] None None
  = Raise IndexError.
Proof.
  apply (find_candidate_answers_no_template Fixture.one_row_join
           Fixture.no_triples unit Fixture.no_float Fixture.unit_leb
           Fixture.tokenize Fixture.keep_order unit unit
           (Fixture.gen [Fixture.one_template false]) "who is it"
           [["Q1"]; ["Q2"]] [["T5"]] None [Fixture.one_template false]);
    reflexivity.
Defined.

Lemma find_candidate_answers_missing_keys_witness :
  find_candidate_answers_on Fixture.one_row_join
    (with_template_num unit unit "8" (Fixture.gen [])) "who is it"
    [["Q1"]] [["T5"]] None None
  = Raise (KeyError "8")
  /\ find_candidate_answers_on (Fixture.join_on "P17")
       (Fixture.gen [Fixture.template_on "P19" None]) "who is it"
       [["Q1"]] [["T5"]] None None
     = Raise (KeyError "alternative_templates").
Proof.
  split.
  - apply (proj1 (find_candidate_answers_missing_keys Fixture.one_row_join
                    Fixture.no_triples unit Fixture.no_float Fixture.unit_leb
                    Fixture.tokenize Fixture.keep_order unit unit
                    (with_template_num unit unit "8" (Fixture.gen []))
                    "who is it" [["Q1"]] [["T5"]] None None)).
    reflexivity.
  - apply (proj2 (find_candidate_answers_missing_keys (Fixture.join_on "P17")
                    Fixture.no_triples unit Fixture.no_float Fixture.unit_leb
                    Fixture.tokenize Fixture.keep_order unit unit
                    (Fixture.gen [Fixture.template_on "P19" None])
                    "who is it" [["Q1"]] [["T5"]] None None)
             [Fixture.template_on "P19" None] (Fixture.template_on "P19" None) []);
      try reflexivity.
    constructor; [vm_compute; reflexivity|constructor].
Defined.

Lemma answer_question_template_path_witness :
  answer_question_on Fixture.one_row_join Fixture.matcher
    (Fixture.gen [Fixture.one_template true]) "who is it" "9" ["Rome"] []
  = Ok [[PStr "P100"; PStr "Q42"]].
Proof.
  apply (answer_question_template_path Fixture.one_row_join Fixture.no_triples
           unit Fixture.no_float Fixture.unit_leb Fixture.tokenize
           Fixture.keep_order unit unit Fixture.matcher
           (Fixture.gen [Fixture.one_template true]) "who is it" "9" ["Rome"] []
           ["Paris"] ["city"] (Some [["P100"]]) (Some ["backw"]) "7").
  - reflexivity.
  - left. discriminate.
  - vm_compute. reflexivity.
  - discriminate.
Defined.

Lemma answer_question_ner_fallback_witness :
  answer_question_on (Fixture.join_on "P17") Fixture.no_match
    (Fixture.gen [Fixture.first_hit_on "P17"]) "who is it" "75"
    ["Paris"] ["city"]
  = Ok [[PStr "Q42"]].
Proof.
  eapply eq_trans.
  - apply (answer_question_ner_fallback (Fixture.join_on "P17")
             Fixture.no_triples unit Fixture.no_float Fixture.unit_leb
             Fixture.tokenize Fixture.keep_order unit unit Fixture.no_match
             (Fixture.gen [Fixture.first_hit_on "P17"]) "who is it" "75"
             ["Paris"] ["city"] None None "9").
    reflexivity.
  - vm_compute. reflexivity.
Defined.

Lemma candidate_outputs_batch_length_witness :
  length [[[PStr "Q42"]]; [[PStr "Q42"]]]
  = Nat.min (Nat.min 2 3) (Nat.min 2 2).
Proof.
  apply (candidate_outputs_batch_length (Fixture.join_on "P17")
           Fixture.no_triples unit Fixture.no_float Fixture.unit_leb
           Fixture.tokenize Fixture.keep_order unit unit Fixture.no_match
           (Fixture.gen [Fixture.first_hit_on "P17"])
           ["who is it"; "where is it"] ["75"; "7"; "7"]
           [["Paris"]; ["Rome"]] [["city"]; ["town"]]).
  vm_compute. reflexivity.
Defined.

End MoreRuns.

(** ** utils.fill_query: substitution token by token *)

Lemma prefix_length (p s : string) :
  String.prefix p s = true -> (String.length p <= String.length s)%nat.
Proof.
  revert p. induction s as [|c s IH]; intros [|a p]; simpl; try lia;
    try discriminate.
  destruct (ascii_dec a c); [|discriminate].
  intros H. apply IH in H. lia.
Qed.

Lemma prefix_empty (s : string) : String.prefix "" s = true.
Proof. now destruct s. Qed.

Lemma prefix_before_space (old x b : string) :
  Py.mem_char " " old = false ->
  String.prefix old (x ++ String " " b) = String.prefix old x.
Proof.
  revert old. induction x as [|c x IH]; intros [|a old] Hold.
  - reflexivity.
  - change ("" ++ String " " b) with (String " " b). cbn [String.prefix].
    cbn [Py.mem_char] in Hold. apply orb_false_iff in Hold as [Ha _].
    destruct (ascii_dec a " ") as [->|]; [discriminate|reflexivity].
  - change (String c x ++ String " " b) with (String c (x ++ String " " b)).
    reflexivity.
  - change (String c x ++ String " " b) with (String c (x ++ String " " b)).
    cbn [String.prefix]. destruct (ascii_dec a c); [|reflexivity].
    apply IH. cbn [Py.mem_char] in Hold.
    now apply orb_false_iff in Hold as [_ Hold].
Qed.

Lemma old_not_at_space (old b : string) :
  old <> "" -> Py.mem_char " " old = false ->
  String.prefix old (String " " b) = false.
Proof.
  destruct old as [|a o]; [congruence|]. intros _ Hns. cbn [String.prefix].
  cbn [Py.mem_char] in Hns. apply orb_false_iff in Hns as [Ha _].
  destruct (ascii_dec a " ") as [->|]; [discriminate|reflexivity].
Qed.

Lemma replace_nonempty_old (s old new : string) :
  old <> "" -> Py.replace s old new = Py.replace_go old new O s.
Proof. unfold Py.replace. now destruct old. Qed.

Section ReplaceSpace.

Context (old new : string).
Hypothesis old_nonempty : old <> "".
Hypothesis old_no_space : Py.mem_char " " old = false.

Lemma replace_go_space (a b : string) (skip : nat) :
  (skip <= String.length a)%nat ->
  Py.replace_go old new skip (a ++ String " " b)
  = Py.replace_go old new skip a ++ String " " (Py.replace_go old new O b).
Proof.
  revert skip. induction a as [|c a IH]; intros skip Hskip.
  - simpl in Hskip. assert (skip = O) as -> by lia.
    change ("" ++ String " " b) with (String " " b).
    cbn [Py.replace_go].
    now rewrite (old_not_at_space old b old_nonempty old_no_space).
  - change (String c a ++ String " " b) with (String c (a ++ String " " b)).
    cbn [Py.replace_go]. destruct skip as [|skip].
    + change (String c (a ++ String " " b)) with (String c a ++ String " " b).
      rewrite prefix_before_space by exact old_no_space.
      destruct (String.prefix old (String c a)) eqn:Hp.
      * apply prefix_length in Hp. simpl in Hp.
        rewrite IH by lia. now rewrite string_app_assoc.
      * now rewrite IH by lia.
    + apply IH. simpl in Hskip. lia.
Qed.

Lemma replace_space (a b : string) :
  Py.replace (a ++ String " " b) old new
  = Py.replace a old new ++ String " " (Py.replace b old new).
Proof.
  rewrite !replace_nonempty_old by exact old_nonempty.
  apply replace_go_space. lia.
Qed.

Lemma replace_empty : Py.replace "" old new = "".
Proof. now rewrite replace_nonempty_old by exact old_nonempty. Qed.

Lemma replace_join_space (l : list string) :
  Py.replace (Py.join " " l) old new
  = Py.join " " (map (fun t => Py.replace t old new) l).
Proof.
  induction l as [|x [|y l] IH]; [apply replace_empty|reflexivity|].
  change (Py.join " " (x :: y :: l)) with (x ++ String " " (Py.join " " (y :: l))).
  rewrite replace_space, IH. reflexivity.
Qed.

Lemma replace_join_double (l : list string) :
  Py.replace (Py.join "  " l) old new
  = Py.join "  " (map (fun t => Py.replace t old new) l).
Proof.
  induction l as [|x [|y l] IH]; [apply replace_empty|reflexivity|].
  change (Py.join "  " (x :: y :: l))
    with (x ++ String " " ("" ++ String " " (Py.join "  " (y :: l)))).
  rewrite !replace_space, replace_empty, IH. reflexivity.
Qed.

Lemma replace_query_text (query : list (list string)) :
  Py.replace (query_text query) old new
  = query_text (map (map (fun t => Py.replace t old new)) query).
Proof.
  unfold query_text. rewrite replace_join_double, !map_map.
  f_equal. apply map_ext. intros triplet. apply replace_join_space.
Qed.

End ReplaceSpace.

Lemma replace_nonempty (s old new : string) :
  old <> "" -> s <> "" -> new <> "" -> Py.replace s old new <> "".
Proof.
  intros Hold Hs Hnew. rewrite replace_nonempty_old by exact Hold.
  destruct s as [|c s]; [congruence|]. cbn [Py.replace_go].
  destruct (String.prefix old (String c s)); [|discriminate].
  destruct new; [congruence|discriminate].
Qed.

Lemma digit_char_no_space (m : nat) :
  (m < 10)%nat -> Ascii.eqb " " (Py.digit_char m) = false.
Proof.
  intros Hm. do 10 (destruct m as [|m]; [reflexivity|]). lia.
Qed.

Lemma str_of_nat_go_no_space (fuel n : nat) (acc : string) :
  Py.mem_char " " acc = false ->
  Py.mem_char " " (Py.str_of_nat_go fuel n acc) = false.
Proof.
  revert n acc. induction fuel as [|fuel IH]; intros n acc Hacc; [exact Hacc|].
  cbn [Py.str_of_nat_go].
  assert (Py.mem_char " " (String (Py.digit_char (n mod 10)) acc) = false)
    as Hstep.
  { cbn [Py.mem_char]. rewrite digit_char_no_space, Hacc; [reflexivity|].
    apply Nat.mod_upper_bound. lia. }
  destruct (n <? 10)%nat; [exact Hstep|]. now apply IH.
Qed.

Lemma slot_name_ok (letter : string) (k : nat) :
  letter <> "" -> Py.mem_char " " letter = false ->
  letter ++ Py.str_of_nat k <> ""
  /\ Py.mem_char " " (letter ++ Py.str_of_nat k) = false.
Proof.
  intros Hne Hns. split.
  - destruct letter; [congruence|discriminate].
  - rewrite mem_char_app, Hns. now apply str_of_nat_go_no_space.
Qed.

Lemma fill_slots_strings (letter : string) (n : nat) (vals : list string)
    (query : string) :
  fill_slots letter n (map PStr vals) query
  = Ok (subst_slots letter n vals query).
Proof.
  revert n query. induction vals as [|v vals IH]; intros n query;
    [reflexivity|].
  cbn [map fill_slots subst_slots]. apply IH.
Qed.

Lemma subst_slots_query_text (letter : string) (n : nat) (vals : list string)
    (query : list (list string)) :
  letter <> "" -> Py.mem_char " " letter = false ->
  subst_slots letter n vals (query_text query)
  = query_text (map (map (subst_slots letter n vals)) query).
Proof.
  intros Hne Hns. revert n query.
  induction vals as [|v vals IH]; intros n query.
  - cbn [subst_slots]. f_equal. symmetry.
    erewrite map_ext; [apply map_id|]. intros triplet. apply map_id.
  - cbn [subst_slots].
    destruct (slot_name_ok letter (S n) Hne Hns) as [Hne' Hns'].
    rewrite replace_query_text by assumption. rewrite IH, map_map.
    f_equal. apply map_ext. intros triplet. now rewrite map_map.
Qed.

Lemma subst_slots_one_piece (letter : string) (n : nat) (vals : list string)
    (token : string) :
  letter <> "" -> Forall one_piece vals -> one_piece token ->
  one_piece (subst_slots letter n vals token).
Proof.
  intros Hne Hvals. revert n token.
  induction Hvals as [|v vals [Hv1 Hv2] _ IH]; intros n token [Ht1 Ht2];
    [now split|].
  cbn [subst_slots]. apply IH.
  assert (letter ++ Py.str_of_nat (S n) <> "") as Hold
    by (destruct letter; [congruence|discriminate]).
  split.
  - now apply replace_nonempty.
  - now apply replace_keeps_absent.
Qed.

Lemma list_ascii_of_string_app (a b : string) :
  list_ascii_of_string (a ++ b)
  = (list_ascii_of_string a ++ list_ascii_of_string b)%list.
Proof.
  induction a as [|c a IH]; [reflexivity|].
  change (String c a ++ b) with (String c (a ++ b)). simpl. now rewrite IH.
Qed.

Lemma string_app_empty (a : string) : a ++ "" = a.
Proof.
  induction a as [|c a IH]; [reflexivity|].
  change (String c a ++ "") with (String c (a ++ "")). now rewrite IH.
Qed.

(** Splitting what was joined. *)
Section SplitJoin.

Context (sep : string).
Hypothesis at_sep : forall cur rest,
  Py.split_go sep O cur (sep ++ rest)
  = string_of_list_ascii (rev cur) :: Py.split_go sep O [] rest.

Local Abbreviation read_through piece :=
  (forall cur s,
     Py.split_go sep O cur (piece ++ s)
     = Py.split_go sep O (rev (list_ascii_of_string piece) ++ cur) s).

Lemma split_go_join (l : list string) :
  l <> [] -> Forall (fun piece => read_through piece) l ->
  Py.split_go sep O [] (Py.join sep l) = l.
Proof.
  intros Hl Hall. induction Hall as [|x l Hx Hall IH]; [congruence|].
  destruct l as [|y l].
  - cbn [Py.join]. rewrite <- (string_app_empty x) at 1. rewrite Hx.
    cbn [Py.split_go]. rewrite app_nil_r, rev_involutive.
    now rewrite string_of_list_ascii_of_string.
  - change (Py.join sep (x :: y :: l)) with (x ++ sep ++ Py.join sep (y :: l)).
    rewrite Hx, at_sep, app_nil_r, rev_involutive.
    rewrite string_of_list_ascii_of_string. f_equal. now apply IH.
Qed.

End SplitJoin.

Lemma at_space (cur : list ascii) (rest : string) :
  Py.split_go " " O cur (" " ++ rest)
  = string_of_list_ascii (rev cur) :: Py.split_go " " O [] rest.
Proof.
  change (" " ++ rest) with (String " " rest). cbn [Py.split_go].
  cbn [String.prefix]. destruct (ascii_dec " " " "); [|congruence].
  now rewrite prefix_empty.
Qed.

Lemma at_double_space (cur : list ascii) (rest : string) :
  Py.split_go "  " O cur ("  " ++ rest)
  = string_of_list_ascii (rev cur) :: Py.split_go "  " O [] rest.
Proof.
  change ("  " ++ rest) with (String " " (String " " rest)).
  cbn [Py.split_go]. cbn [String.prefix].
  destruct (ascii_dec " " " "); [|congruence].
  now rewrite prefix_empty.
Qed.

(** A piece without space is read through by a split on spaces. *)
Lemma read_through_token (sep' token : string) (cur : list ascii) (s : string) :
  Py.mem_char " " token = false ->
  Py.split_go (String " " sep') O cur (token ++ s)
  = Py.split_go (String " " sep') O
      (rev (list_ascii_of_string token) ++ cur) s.
Proof.
  revert cur. induction token as [|c token IH]; intros cur Hns; [reflexivity|].
  cbn [Py.mem_char] in Hns. apply orb_false_iff in Hns as [Hc Hns].
  change (String c token ++ s) with (String c (token ++ s)).
  cbn [Py.split_go]. cbn [String.prefix].
  destruct (ascii_dec " " c) as [<-|_]; [discriminate|].
  rewrite IH by exact Hns. f_equal.
  cbn [list_ascii_of_string rev]. now rewrite <- app_assoc.
Qed.

Lemma join_head (token : string) (l : list string) :
  one_piece token ->
  exists d x, Py.join " " (token :: l) = String d x /\ d <> " "%char.
Proof.
  intros [Hne Hns]. destruct token as [|d token]; [congruence|].
  cbn [Py.mem_char] in Hns. apply orb_false_iff in Hns as [Hd _].
  assert (d <> " "%char) as Hd' by (intros ->; discriminate).
  destruct l as [|y l].
  - now exists d, token.
  - exists d, (token ++ " " ++ Py.join " " (y :: l)). now split.
Qed.

(** A triplet joined on single spaces is read through by the split on
    double spaces. *)
Lemma read_through_triplet (triplet : list string) (cur : list ascii)
    (s : string) :
  Forall one_piece triplet ->
  Py.split_go "  " O cur (Py.join " " triplet ++ s)
  = Py.split_go "  " O
      (rev (list_ascii_of_string (Py.join " " triplet)) ++ cur) s.
Proof.
  intros Hall. revert cur.
  induction Hall as [|x l Hx Hall IH]; intros cur; [reflexivity|].
  destruct l as [|y l].
  - cbn [Py.join]. apply read_through_token, Hx.
  - change (Py.join " " (x :: y :: l))
      with (x ++ String " " (Py.join " " (y :: l))).
    rewrite string_app_assoc.
    rewrite read_through_token by apply Hx.
    change (String " " (Py.join " " (y :: l)) ++ s)
      with (String " " (Py.join " " (y :: l) ++ s)).
    inversion Hall as [|? ? Hy _]; subst.
    destruct (join_head y l Hy) as (d & rest & Hj & Hd).
    assert (Py.split_go "  " O (rev (list_ascii_of_string x) ++ cur)
              (String " " (Py.join " " (y :: l) ++ s))
            = Py.split_go "  " O (" "%char :: rev (list_ascii_of_string x) ++ cur)
                (Py.join " " (y :: l) ++ s)) as ->.
    { rewrite Hj. change (String d rest ++ s) with (String d (rest ++ s)).
      cbn [Py.split_go]. cbn [String.prefix].
      destruct (ascii_dec " " " "); [|congruence].
      destruct (ascii_dec " " d) as [<-|_]; [congruence|reflexivity]. }
    rewrite IH. f_equal.
    rewrite list_ascii_of_string_app. cbn [list_ascii_of_string].
    rewrite rev_app_distr. cbn [rev]. now rewrite <- !app_assoc.
Qed.

Lemma split_triplet (triplet : list string) :
  triplet <> [] -> Forall one_piece triplet ->
  Py.split (Py.join " " triplet) " " = Ok triplet.
Proof.
  intros Hne Hall. unfold Py.split. f_equal.
  apply split_go_join; [exact at_space|exact Hne|].
  eapply Forall_impl; [exact Hall|].
  intros token [_ Hns] cur s. now apply read_through_token.
Qed.

Lemma split_query_text (query : list (list string)) :
  query <> [] ->
  Forall (fun triplet => triplet <> [] /\ Forall one_piece triplet) query ->
  (let* rows := Py.split (query_text query) "  " in
   rmap (fun triplet => Py.split triplet " ") rows) = Ok query.
Proof.
  intros Hne Hall.
  change (Py.split (query_text query) "  ")
    with (Ok (Py.split_go "  " O [] (query_text query))).
  unfold query_text. rewrite split_go_join.
  - cbn [rbind]. clear Hne.
    induction Hall as [|triplet query [Ht1 Ht2] _ IH]; [reflexivity|].
    cbn [map rmap]. rewrite (split_triplet triplet Ht1 Ht2). cbn [rbind].
    rewrite IH. reflexivity.
  - exact at_double_space.
  - destruct query; [congruence|discriminate].
  - apply Forall_map. eapply Forall_impl; [exact Hall|].
    intros triplet [_ Ht] cur s. now apply read_through_triplet.
Qed.

(** [fill_query] works token by token: once the namespaces are
    written out, every token of the query has its entity, type and
    relation slots replaced, in this order, and the query keeps its
    triplets and their tokens, provided that no token and no value is
    empty or holds a space.  The last item of each combination, its
    rank, is not used. *)
Theorem fill_query_token_by_token
    (query expanded : list (list string))
    (entities types rels : list string) (re rt rr : pyval) :
  expand_namespaces (query_text query) = query_text expanded ->
  expanded <> [] ->
  Forall (fun triplet => triplet <> [] /\ Forall one_piece triplet) expanded ->
  Forall one_piece entities -> Forall one_piece types ->
  Forall one_piece rels ->
  fill_query query (map PStr entities ++ [re]) (map PStr types ++ [rt])
    (map PStr rels ++ [rr])
  = Ok (map (map (fill_token entities types rels)) expanded).
Proof.
  intros Hexp Hne Hall He Ht Hr. unfold fill_query.
  fold (query_text query). fold (expand_namespaces (query_text query)).
  unfold Py.but_last. rewrite !removelast_last, Hexp.
  rewrite fill_slots_strings, subst_slots_query_text by (discriminate || reflexivity).
  cbn [rbind].
  rewrite fill_slots_strings, subst_slots_query_text by (discriminate || reflexivity).
  cbn [rbind].
  rewrite fill_slots_strings, subst_slots_query_text by (discriminate || reflexivity).
  cbn [rbind]. rewrite !map_map.
  erewrite (map_ext _ (map (fill_token entities types rels)));
    [|intros triplet; rewrite !map_map; reflexivity].
  apply split_query_text.
  - destruct expanded; [congruence|discriminate].
  - apply Forall_map. eapply Forall_impl; [exact Hall|].
    intros triplet [Ht1 Ht2]. split.
    + destruct triplet; [congruence|discriminate].
    + apply Forall_map. eapply Forall_impl; [exact Ht2|].
      intros token Htok. unfold fill_token.
      repeat apply subst_slots_one_piece; (discriminate || assumption).
Qed.

Lemma fill_query_token_by_token_witness :
  fill_query [["wd:E1"; "p:R1"; "?s"]; ["?s"; "ps:R1"; "wd:E2"]]
    [PStr "Q159"; PStr "Q5"; PInt 0] [PInt 0] [PStr "P17"; PInt 0]
  = Ok [["http://www.wikidata.org/entity/Q159";
         "http://www.wikidata.org/prop/P17"; "?s"];
        ["?s"; "http://www.wikidata.org/prop/statement/P17";
         "http://www.wikidata.org/entity/Q5"]].
Proof.
  eapply eq_trans.
  - apply (fill_query_token_by_token
             [["wd:E1"; "p:R1"; "?s"]; ["?s"; "ps:R1"; "wd:E2"]]
             [["http://www.wikidata.org/entity/E1";
               "http://www.wikidata.org/prop/R1"; "?s"];
              ["?s"; "http://www.wikidata.org/prop/statement/R1";
               "http://www.wikidata.org/entity/E2"]]
             ["Q159"; "Q5"] [] ["P17"] (PInt 0) (PInt 0) (PInt 0));
      try (vm_compute; reflexivity);
      repeat match goal with
             | |- Forall _ _ => constructor
             | |- _ /\ _ => split
             | |- one_piece _ => split
             | |- _ <> _ => discriminate
             | |- _ = _ => reflexivity
             end.
  - vm_compute; reflexivity.
Defined.
